(** * pcax: predictive-coding training loops, shallow embedding

    The development follows the Python sources of the repository:
    - [pcax/core/util.py]                  (modules [Util], [Signature]),
    - [examples/pc_decoder/pc_decoder/training.py]
                (modules [Training], [TrainOnBatchFacts], [TrainModelFacts]),
    - [examples/workshop/SkipErr/cifar10/skip_error.py]
                (modules [SkipErr], [SkipErrModel], [SkipErrFacts]),
    - [examples/main.py]                   (module [MnistExample]),
    and models the weight serialization of [PCDecoder], whose source is not
    at hand, from the specification (module [Weights]).

    Python [int]s are [Z] and Python strings are [string].  JAX arrays of
    floats are kept abstract: a type [Float] with the operations that the
    source applies to it, since no result below depends on rounding.  The
    loop counters of [train_on_batch] are JAX integers; they never exceed
    the bounds they are compared with, so they are modelled in [Z] without
    wrap-around.  Calls into [pcax], [optax] and [pc_decoder.model] are
    parameters of the development (type classes [Pcax], [Trainer] and
    [Experiment]); module [Toy] instantiates them to run the definitions. *)

From Stdlib Require Import Sorted.
From stdpp Require Import list strings gmap.

Set Warnings "-register-all".

Local Open Scope Z_scope.

(* ===================================================================== *)
(** * Python outcomes                                                     *)
(* ===================================================================== *)

(** Python exceptions raised by the modelled code.  [NegativeDimension] is
    the error of [jnp.zeros] on a shape with a negative entry (a
    [TypeError] or a [ValueError], depending on the version of JAX);
    [StorageError] is the specification's name for a failed load. *)
Inductive exn : Type :=
| ValueError (msg : string)
| ZeroDivisionError
| NegativeDimension
| StorageError (path : string).

(** What a call produces: a value, a raised exception, or no answer within
    the fuel given to the [while_loop]s (an artefact of the embedding). *)
Inductive outcome (A : Type) : Type :=
| Ok (a : A)
| Raise (e : exn)
| OutOfFuel.

Arguments Ok {A} a.
Arguments Raise {A} e.
Arguments OutOfFuel {A}.

(* ===================================================================== *)
(** * pcax/core/util.py                                                   *)
(* ===================================================================== *)

Module Util.

(** The containers JAX registers as pytree nodes.  [None] is a node without
  children, not a leaf. *)
Inductive node_kind : Type :=
| KTuple
| KList
| KDict (keys : list string)
| KNone
| KCustom (name : string).

Section HashPytree.

(** [Elem] is the element type of arrays, [PyVal] the type of the
    remaining (non-array) leaves. *)
Variables Elem PyVal : Type.

(** A leaf is either a [jax.Array], with its shape, dtype and contents, or
    any other Python object. *)
Inductive leaf : Type :=
| JaxArray (shape : list Z) (dtype : string) (data : list Elem)
| PyObj (v : PyVal).

Inductive pytree : Type :=
| Leaf (l : leaf)
| Node (k : node_kind) (children : list pytree).

(** [jax.tree_util.PyTreeDef]: the tree with its leaves erased. *)
Inductive treedef : Type :=
| TDLeaf
| TDNode (k : node_kind) (children : list treedef).

Fixpoint tree_leaves (t : pytree) : list leaf :=
  match t with
  | Leaf l => [l]
  | Node _ cs => concat (map tree_leaves cs)
  end.

Fixpoint tree_structure (t : pytree) : treedef :=
  match t with
  | Leaf _ => TDLeaf
  | Node k cs => TDNode k (map tree_structure cs)
  end.

(** [jax.tree_util.tree_flatten] *)
Definition tree_flatten (t : pytree) : list leaf * treedef :=
  (tree_leaves t, tree_structure t).

(** What [hash_pytree] keeps of a leaf:
    [(x.shape, x.dtype) if isinstance(x, jax.Array) else x]. *)
Inductive hashable_leaf : Type :=
| HShapeDtype (shape : list Z) (dtype : string)
| HObj (v : PyVal).

Definition hashable (x : leaf) : hashable_leaf :=
  match x with
  | JaxArray shape dtype _ => HShapeDtype shape dtype
  | PyObj v => HObj v
  end.

(** Python's builtin [hash] on the pair that [hash_pytree] builds.  It
    raises [TypeError] on an unhashable leaf: [None]. *)
Variable py_hash : list hashable_leaf * treedef -> option Z.

Definition hash_pytree (t : pytree) : option Z :=
  let '(leaves, treedef) := tree_flatten t in
  let hashable_leaves := map hashable leaves in
  py_hash (hashable_leaves, treedef).

(** Two leaves agree when they are arrays of the same shape and dtype
    (whatever their contents) or the same non-array object. *)
Definition leaf_agree (x y : leaf) : Prop :=
  match x, y with
  | JaxArray s d _, JaxArray s' d' _ => s = s' /\ d = d'
  | PyObj v, PyObj v' => v = v'
  | _, _ => False
  end.

Lemma hashable_agree x y : leaf_agree x y -> hashable x = hashable y.
Proof.
  destruct x as [s d xs|v], y as [s' d' ys|v']; simpl; try tauto.
  - intros [-> ->]; reflexivity.
  - intros ->; reflexivity.
Qed.

Lemma hashable_leaves_agree (l1 l2 : list leaf) :
  Forall2 leaf_agree l1 l2 -> map hashable l1 = map hashable l2.
Proof.
  induction 1 as [|x y l1 l2 Hxy _ IH]; simpl; [reflexivity|].
  rewrite (hashable_agree _ _ Hxy), IH; reflexivity.
Qed.

(** The same relation stated on the trees themselves. *)
Inductive same_up_to_contents : pytree -> pytree -> Prop :=
| suc_leaf x y : leaf_agree x y -> same_up_to_contents (Leaf x) (Leaf y)
| suc_node k cs1 cs2 :
    Forall2 same_up_to_contents cs1 cs2 ->
    same_up_to_contents (Node k cs1) (Node k cs2).

Lemma same_up_to_contents_flatten :
  forall t1 t2,
    same_up_to_contents t1 t2 ->
    tree_structure t1 = tree_structure t2 /\
    Forall2 leaf_agree (tree_leaves t1) (tree_leaves t2).
Proof.
  fix IH 3.
  intros t1 t2 [x y Hxy | k cs1 cs2 Hcs]; simpl.
  - split; [reflexivity | constructor; [assumption | constructor]].
  - assert (Hall : map tree_structure cs1 = map tree_structure cs2 /\
                   Forall2 leaf_agree (concat (map tree_leaves cs1))
                                      (concat (map tree_leaves cs2))).
    { induction Hcs as [|c1 c2 cs1 cs2 Hc _ IHcs]; simpl.
      - split; [reflexivity | constructor].
      - destruct (IH _ _ Hc) as [Hs Hl], IHcs as [Hss Hll].
        split; [congruence | apply Forall2_app; assumption]. }
    destruct Hall as [-> Hl]; split; [reflexivity | assumption].
Qed.

(** C10.  [hash_pytree] does not look at array contents: two pytrees with
    the same tree structure, whose array leaves agree pairwise in shape
    and dtype and whose other leaves are pairwise equal, get the same
    hash (or both make [hash] raise). *)
Theorem hash_pytree_ignores_contents (t1 t2 : pytree) :
  tree_structure t1 = tree_structure t2 ->
  Forall2 leaf_agree (tree_leaves t1) (tree_leaves t2) ->
  hash_pytree t1 = hash_pytree t2.
Proof.
  intros Hs Hl. unfold hash_pytree, tree_flatten.
  rewrite Hs, (hashable_leaves_agree _ _ Hl). reflexivity.
Qed.

End HashPytree.

Arguments JaxArray {Elem PyVal} shape dtype data.
Arguments PyObj {Elem PyVal} v.
Arguments Leaf {Elem PyVal} l.
Arguments Node {Elem PyVal} k children.
Arguments HShapeDtype {PyVal} shape dtype.
Arguments HObj {PyVal} v.
Arguments TDLeaf : clear implicits.
Arguments TDNode k children : clear implicits.
Arguments tree_leaves {Elem PyVal} t.
Arguments tree_structure {Elem PyVal} t.
Arguments tree_flatten {Elem PyVal} t.
Arguments hashable {Elem PyVal} x.
Arguments hash_pytree {Elem PyVal} py_hash t.
Arguments leaf_agree {Elem PyVal} x y.
Arguments same_up_to_contents {Elem PyVal}.

(** Two pytrees [(array, 5, None)] that differ in the contents of the
    array only, and a stand-in for Python's [hash]. *)
Definition tree_a : pytree Z Z :=
  Node KTuple [Leaf (JaxArray [2] "float32" [1; 2]); Leaf (PyObj 5); Node KNone []].

Definition tree_b : pytree Z Z :=
  Node KTuple [Leaf (JaxArray [2] "float32" [3; 4]); Leaf (PyObj 5); Node KNone []].

Definition toy_hash (p : list (hashable_leaf Z) * treedef) : option Z :=
  Some (fold_right
          (fun h acc => match h with
                        | HShapeDtype shape _ => fold_right Z.mul 31 shape + 7 * acc
                        | HObj v => v + 7 * acc
                        end) 1 (fst p)).

Example tree_a_b_differ : tree_a <> tree_b.
Proof. discriminate. Qed.

Example hash_tree_a : hash_pytree toy_hash tree_a = Some 146.
Proof. reflexivity. Qed.

(** Witness of [hash_pytree_ignores_contents]. *)
Lemma hash_pytree_ignores_contents_witness :
  tree_structure tree_a = tree_structure tree_b /\
  Forall2 leaf_agree (tree_leaves tree_a) (tree_leaves tree_b) /\
  hash_pytree toy_hash tree_a = hash_pytree toy_hash tree_b.
Proof.
  assert (H1 : tree_structure tree_a = tree_structure tree_b) by reflexivity.
  assert (H2 : Forall2 leaf_agree (tree_leaves tree_a) (tree_leaves tree_b)).
  { repeat constructor. }
  split; [exact H1|]. split; [exact H2|].
  exact (hash_pytree_ignores_contents Z Z toy_hash tree_a tree_b H1 H2).
Defined.

End Util.

(* ===================================================================== *)
(** * examples/pc_decoder/pc_decoder/training.py                          *)
(* ===================================================================== *)

Module Training.

(** The array types of JAX and the float operations the source uses.  A
    [Float] is a scalar [jax.Array]; arrays of energies are lists of them. *)
Class Arrays : Type := {
  Float : Type;
  Tensor : Type;
  Grads : Type;
  Optim : Type;
  Layers : Type;
  NodeData : Type;
  f0 : Float;
  finf : Float;
  fsub : Float -> Float -> Float;
  fabs : Float -> Float;
  fgt : Float -> Float -> bool;
  flt : Float -> Float -> bool;
  fsum : list Float -> Float;
  fmean : list Float -> Float }.

Section Model.

Context {A : Arrays}.

(** A predictive-coding node: its activity ["x"] and whatever else it
    holds. *)
Record PCNode : Type := mkPCNode {
  node_x : Tensor;
  node_data : NodeData }.

Record PCDecoder : Type := mkPCDecoder {
  pc_nodes : list PCNode;
  saved_pc_states : list Tensor;
  layers : Layers }.

(** The fields of [Params] that [train_on_batch] and [train_model] read. *)
Record Params : Type := mkParams {
  T : Z;
  T_min_x_updates : Z;
  T_min_w_updates : Z;
  pc_mode : string;
  energy_convergence_threshold : Float;
  reset_optimizer_x_state : bool;
  preserve_all_pc_states_between_batches : bool;
  optimizer_x : string;
  optimizer_w : string;
  epochs : Z;
  save_intermediate_results : bool;
  save_results_every_n_epochs : Z;
  save_best_results : bool }.

(** The fields [num_x_updates] and [num_w_updates] of the result carry the
    prefix [res_]: the loop state below has fields of the same names. *)
Record TrainOnBatchResult : Type := mkTrainOnBatchResult {
  mse : Float;
  energies : list (list Float);
  iterations_done : Z;
  res_num_x_updates : Z;
  res_num_w_updates : Z }.

Record _LoopState : Type := mk_LoopState {
  iter_index : Z;
  num_x_updates : Z;
  num_w_updates : Z;
  prev_energy : Float;
  curr_energy : Float;
  all_energies : list (list Float) }.

(** The effectful calls of one batch, in the order they are made (ghost
    state: the source keeps no such log). *)
Inductive event : Type :=
| EvInitStateX
| EvRestoreStates
| EvClearCache
| EvGradAndValues
| EvOptimX
| EvOptimW
| EvLoss
| EvSetEnergies (index : Z) (rows : nat).

(** Everything [train_on_batch] mutates in place. *)
Record Store : Type := mkStore {
  model : PCDecoder;
  optim_x : Optim;
  optim_w : Optim;
  events : list event }.

(** A loss function, such as [model_energy_loss]: it returns the energy
    array and leaves cached values in the model. *)
Definition Loss : Type := Tensor -> PCDecoder -> list Float * PCDecoder.

End Model.

(** The parts of [pcax] and of [pc_decoder.model] that the training loop
    calls.  Their sources are not at hand, so they are parameters and
    every result below holds whatever they do: entering and leaving the
    [with] blocks of [pxu.train] and [pxu.step], [Optim.init_state],
    [model.clear_cache], [pxu.grad_and_values] (gradients, values of the
    loss, model with its caches), a call of an [Optim] on gradients,
    [x.energy()] of a node, a row of [jnp.zeros], [feed_forward_predict]
    and the element-wise squared error. *)
Class Pcax {A : Arrays} : Type := {
  pxu_train_enter : Tensor -> PCDecoder -> PCDecoder;
  pxu_train_exit : PCDecoder -> PCDecoder;
  pxu_step_enter : PCDecoder -> PCDecoder;
  pxu_step_exit : PCDecoder -> PCDecoder;
  init_state : Optim -> Optim;
  clear_cache : PCDecoder -> PCDecoder;
  grad_and_values : Loss -> Tensor -> PCDecoder -> (Grads * list Float) * PCDecoder;
  optim_call : Optim -> Grads -> PCDecoder -> PCDecoder * Optim;
  energy : PCNode -> list Float;
  zeros_row : nat -> list Float;
  feed_forward_predict : PCDecoder -> Tensor;
  squared_error : Tensor -> Tensor -> list Float }.

Section TrainOnBatch.

Context {A : Arrays} {P : Pcax}.

(** ** A state monad over [Store] *)

Definition M (R : Type) : Type := Store -> R * Store.

Definition ret {R : Type} (r : R) : M R := fun s => (r, s).

Definition bind {R R' : Type} (c : M R) (k : R -> M R') : M R' :=
  fun s => let '(r, s') := c s in k r s'.

Notation "x <- c1 ;; c2" := (bind c1 (fun x => c2))
  (at level 100, c1 at next level, right associativity).
Notation "c1 ;; c2" := (bind c1 (fun _ => c2))
  (at level 100, right associativity).

Definition log (e : event) : M unit :=
  fun s => (tt, mkStore (model s) (optim_x s) (optim_w s) (events s ++ [e])).

Definition get_model : M PCDecoder := fun s => (model s, s).

Definition modify_model (f : PCDecoder -> PCDecoder) : M unit :=
  fun s => (tt, mkStore (f (model s)) (optim_x s) (optim_w s) (events s)).

Definition when (b : bool) (c : M unit) : M unit :=
  if b then c else ret tt.

(** [optim_x.init_state()] *)
Definition init_state_x : M unit :=
  fun s => (tt, mkStore (model s) (init_state (optim_x s)) (optim_w s)
                        (events s ++ [EvInitStateX])).

(** [optim_x(gradients)] and [optim_w(gradients)] *)
Definition call_optim_x (g : Grads) : M unit :=
  fun s => let '(m, o) := optim_call (optim_x s) g (model s) in
           (tt, mkStore m o (optim_w s) (events s ++ [EvOptimX])).

Definition call_optim_w (g : Grads) : M unit :=
  fun s => let '(m, o) := optim_call (optim_w s) g (model s) in
           (tt, mkStore m (optim_x s) o (events s ++ [EvOptimW])).

(** [grad_and_values(examples, model=model)] *)
Definition call_grad_and_values (loss : Loss) (examples : Tensor)
  : M (Grads * list Float) :=
  fun s => let '(r, m) := grad_and_values loss examples (model s) in
           (r, mkStore m (optim_x s) (optim_w s) (events s ++ [EvGradAndValues])).

(** [loss(examples, model=model)] *)
Definition call_loss (loss : Loss) (examples : Tensor) : M (list Float) :=
  fun s => let '(e, m) := loss examples (model s) in
           (e, mkStore m (optim_x s) (optim_w s) (events s ++ [EvLoss])).

(** [model.clear_cache()] *)
Definition call_clear_cache : M unit :=
  modify_model clear_cache ;; log EvClearCache.

(** ** [x.at[i].set(v)] on the first axis

    A negative index counts from the end; an index that is still out of
    range makes JAX drop the update. *)
Definition at_set {R : Type} (buf : list R) (i : Z) (v : R) : list R :=
  let n := Z.of_nat (length buf) in
  let j := if i <? 0 then i + n else i in
  if (0 <=? j) && (j <? n) then <[Z.to_nat j := v]> buf else buf.

(** ** [pxu.flow.while_loop(body, cond)(state, ...)]

    [while cond(state): state = body(state)], cut off after [fuel] calls of
    the body. *)
Fixpoint while_loop {St : Type} (fuel : nat) (body : St -> M St)
  (cond : St -> bool) (st : St) : M (option St) :=
  fun s =>
    if cond st then
      match fuel with
      | O => (None, s)
      | S n => let '(st', s') := body st s in while_loop n body cond st' s'
      end
    else (Some st, s).

(** ** [_build_loop_body] *)
Definition _build_loop_body (loss : Loss) (update_x update_w : bool)
  : _LoopState * Tensor -> M (_LoopState * Tensor) :=
  fun '(state, examples) =>
    modify_model pxu_step_enter ;;
    gv <- call_grad_and_values loss examples ;;
    let '(gradients, prev_energy) := gv in
    when update_x (call_optim_x gradients) ;;
    when update_w (call_optim_w gradients) ;;
    modify_model pxu_step_exit ;;
    modify_model pxu_step_enter ;;
    curr_energy <- call_loss loss examples ;;
    m <- get_model ;;
    let nodes_energies := map (fun x => fsum (energy x)) (pc_nodes m) in
    log (EvSetEnergies (iter_index state) (length (all_energies state))) ;;
    let all_energies := at_set (all_energies state) (iter_index state) nodes_energies in
    modify_model pxu_step_exit ;;
    ret (mk_LoopState
           (iter_index state + 1)
           (num_x_updates state + Z.b2z update_x)
           (num_w_updates state + Z.b2z update_w)
           (fsum prev_energy)
           (fsum curr_energy)
           all_energies,
         examples).

(** ** [train_on_batch] *)

Definition t_iterations (params : Params) : Z :=
  if String.eqb (pc_mode params) "efficient_ppc"
  then T params - T_min_w_updates params
  else T params.

Definition total_iterations (params : Params) : Z :=
  if String.eqb (pc_mode params) "pc" then T params + 1 else T params.

Definition t_loop_should_continue (params : Params) (st : _LoopState * Tensor) : bool :=
  let state := fst st in
  let cond := iter_index state <? t_iterations params in
  if String.eqb (pc_mode params) "efficient_ppc" then
    let eppc_cond :=
      fgt (fabs (fsub (curr_energy state) (prev_energy state)))
          (energy_convergence_threshold params)
      || (iter_index state <? T_min_x_updates params) in
    cond && eppc_cond
  else cond.

Definition w_loop_should_continue (params : Params) (st : _LoopState * Tensor) : bool :=
  iter_index (fst st) <? total_iterations params.

(** [zip(model.pc_nodes[1:], model.saved_pc_states)] with
    [pc_node["x"] = state] for every pair. *)
Definition set_x (state : Tensor) (pc_node : PCNode) : PCNode :=
  mkPCNode state (node_data pc_node).

Fixpoint restore_zip (nodes : list PCNode) (states : list Tensor) : list PCNode :=
  match nodes, states with
  | pc_node :: nodes', state :: states' => set_x state pc_node :: restore_zip nodes' states'
  | _, _ => nodes
  end.

Definition restore_pc_states (m : PCDecoder) : PCDecoder :=
  match pc_nodes m with
  | [] => m
  | first :: rest =>
      mkPCDecoder (first :: restore_zip rest (saved_pc_states m))
                  (saved_pc_states m) (layers m)
  end.

(** Truth value of a Python list. *)
Definition truthy {R : Type} (l : list R) : bool :=
  match l with [] => false | _ => true end.

(** The part of [train_on_batch] that runs before the loops, inside the
    [with pxu.pc_train_on_batch(model), pxu.train(model, examples)] block. *)
Definition prepare_batch (examples : Tensor) (params : Params) : M unit :=
  modify_model (pxu_train_enter examples) ;;
  when (reset_optimizer_x_state params) init_state_x ;;
  m <- get_model ;;
  when (preserve_all_pc_states_between_batches params && truthy (saved_pc_states m))
       (modify_model restore_pc_states ;; log EvRestoreStates).

(** The inference loop, from a given loop state. *)
Definition t_loop (fuel : nat) (loss : Loss) (params : Params)
  (st : _LoopState * Tensor) : M (option (_LoopState * Tensor)) :=
  while_loop fuel
    (_build_loop_body loss true (String.eqb (pc_mode params) "ppc"))
    (t_loop_should_continue params) st.

(** The weight-learning loop. *)
Definition w_loop (fuel : nat) (loss : Loss) (params : Params)
  (st : _LoopState * Tensor) : M (option (_LoopState * Tensor)) :=
  while_loop fuel (_build_loop_body loss false true)
    (w_loop_should_continue params) st.

Definition mode_has_w_loop (params : Params) : bool :=
  String.eqb (pc_mode params) "pc" || String.eqb (pc_mode params) "efficient_ppc".

Definition initial_state (params : Params) (m : PCDecoder) : _LoopState :=
  mk_LoopState 0 0 0 f0 f0
    (replicate (Z.to_nat (total_iterations params)) (zeros_row (length (pc_nodes m)))).

(** Both loops; [None] when the fuel runs out. *)
Definition run_loops (fuel : nat) (examples : Tensor) (loss : Loss) (params : Params)
  : M (option _LoopState) :=
  m <- get_model ;;
  let initial_state := initial_state params m in
  call_clear_cache ;;
  t_loop_outputs <- t_loop fuel loss params (initial_state, examples) ;;
  match t_loop_outputs with
  | None => ret None
  | Some (final_state, _) =>
      if mode_has_w_loop params then
        call_clear_cache ;;
        w_loop_outputs <- w_loop fuel loss params (final_state, examples) ;;
        ret (option_map fst w_loop_outputs)
      else ret (Some final_state)
  end.

(** The rest of [train_on_batch]: the history buffer is allocated, the
    loops run, the [with] block is left and the result is built.
    [jnp.zeros] refuses a negative number of rows. *)
Definition loops_and_result (fuel : nat) (examples : Tensor) (loss : Loss)
  (params : Params) : M (outcome TrainOnBatchResult) :=
  if total_iterations params <? 0 then
    modify_model pxu_train_exit ;;
    ret (Raise NegativeDimension)
  else
    final <- run_loops fuel examples loss params ;;
    modify_model pxu_train_exit ;;
    match final with
    | None => ret OutOfFuel
    | Some final_state =>
        m <- get_model ;;
        let predictions := feed_forward_predict m in
        let mse := fmean (squared_error predictions examples) in
        ret (Ok (mkTrainOnBatchResult
                   mse
                   (all_energies final_state)
                   (iter_index final_state)
                   (num_x_updates final_state)
                   (num_w_updates final_state)))
    end.

Definition train_on_batch (fuel : nat) (examples : Tensor) (loss : Loss)
  (params : Params) : M (outcome TrainOnBatchResult) :=
  prepare_batch examples params ;;
  loops_and_result fuel examples loss params.

(** ** Definitions used to state the results *)

(** [n] calls of a loop body in a row. *)
Fixpoint iterate {St : Type} (n : nat) (body : St -> M St) (st : St) : M St :=
  match n with
  | O => ret st
  | S n' => st' <- body st ;; iterate n' body st'
  end.

(** The events of one call of the loop body at [iter_index = i], on a
    history buffer with [rows] rows. *)
Definition body_events (update_x update_w : bool) (i : Z) (rows : nat) : list event :=
  [EvGradAndValues]
  ++ (if update_x then [EvOptimX] else [])
  ++ (if update_w then [EvOptimW] else [])
  ++ [EvLoss; EvSetEnergies i rows].

(** The events of [n] consecutive calls, starting at [iter_index = i]. *)
Fixpoint loop_events (update_x update_w : bool) (i : Z) (rows : nat) (n : nat)
  : list event :=
  match n with
  | O => []
  | S n' => body_events update_x update_w i rows
            ++ loop_events update_x update_w (i + 1) rows n'
  end.

(** Events that write the history buffer do so inside it. *)
Definition event_in_bounds (total : Z) (e : event) : Prop :=
  match e with
  | EvSetEnergies index rows => rows = Z.to_nat total /\ 0 <= index < total
  | _ => True
  end.



(** The store after [model.clear_cache()]. *)
Definition clear_cache_store (s : Store) : Store :=
  mkStore (clear_cache (model s)) (optim_x s) (optim_w s) (events s ++ [EvClearCache]).

(** The events of the part before the loops, given the model as the [with]
    block found it. *)
Definition prepare_events (params : Params) (entered : PCDecoder) : list event :=
  (if reset_optimizer_x_state params then [EvInitStateX] else [])
  ++ (if preserve_all_pc_states_between_batches params
         && truthy (saved_pc_states entered)
      then [EvRestoreStates] else []).

(** The predicate as the specification words it. *)
Definition spec_continue (params : Params) (state : _LoopState) : bool :=
  (iter_index state <? T params - T_min_w_updates params)
  && (fgt (fabs (fsub (curr_energy state) (prev_energy state)))
          (energy_convergence_threshold params)
      || (iter_index state <? T_min_x_updates params)).

(** Modelled from the spec: the default value of
    [preserve_all_pc_states_between_batches], which the [Params] class of
    [pc_decoder/params.py] declares; the specification calls the switch
    off-by-default. *)
Definition preserve_all_pc_states_between_batches_default : bool := false.

(** The counters of a result: [iterations_done], [num_x_updates],
    [num_w_updates]. *)
Definition summary (o : outcome TrainOnBatchResult) : option (Z * Z * Z) :=
  match o with
  | Ok r => Some (iterations_done r, res_num_x_updates r, res_num_w_updates r)
  | _ => None
  end.

(** The number of rows of the returned history buffer. *)
Definition rows (o : outcome TrainOnBatchResult) : option nat :=
  match o with
  | Ok r => Some (length (energies r))
  | _ => None
  end.

(** ** Facts on [while_loop] *)

Section WhileLoop.

Context {St : Type} (body : St -> M St) (cond : St -> bool).

(** The loop returns the first state of the iteration that fails [cond]. *)
Lemma while_loop_iterate (fuel : nat) (st st' : St) (s s' : Store) :
  while_loop fuel body cond st s = (Some st', s') ->
  exists n : nat,
    (n <= fuel)%nat /\
    iterate n body st s = (st', s') /\
    cond st' = false /\
    forall k : nat, (k < n)%nat -> cond (fst (iterate k body st s)) = true.
Proof.
  revert st s. induction fuel as [|fuel IH]; intros st s; simpl.
  - destruct (cond st) eqn:Hc; [discriminate|].
    intros [= <- <-]. exists O.
    split; [lia|]. split; [reflexivity|]. split; [assumption|]. intros k Hk; lia.
  - destruct (cond st) eqn:Hc.
    + destruct (body st s) as [st1 s1] eqn:Hb. intros Hw.
      destruct (IH _ _ Hw) as (n & Hn & Hit & Hf & Hbefore).
      exists (S n).
      split; [lia|]. split; [|split; [assumption|]].
      * simpl. unfold bind. rewrite Hb. assumption.
      * intros [|k] Hk; [exact Hc|].
        simpl. unfold bind. rewrite Hb. apply Hbefore. lia.
    + intros [= <- <-]. exists O.
      split; [lia|]. split; [reflexivity|]. split; [assumption|]. intros k Hk; lia.
Qed.

(** A loop whose body decreases a measure that [cond] keeps positive ends
    within that many calls. *)
Lemma while_loop_terminates (mu : St -> nat) (fuel : nat) :
  (forall st s, cond st = true -> (mu (fst (body st s)) < mu st)%nat) ->
  forall st s, (mu st <= fuel)%nat ->
    exists st' s', while_loop fuel body cond st s = (Some st', s').
Proof.
  intros Hdec. induction fuel as [|fuel IH]; intros st s Hmu; simpl.
  - destruct (cond st) eqn:Hc; [|eauto].
    specialize (Hdec st s Hc). lia.
  - destruct (cond st) eqn:Hc; [|eauto].
    specialize (Hdec st s Hc). destruct (body st s) as [st1 s1]; simpl in Hdec.
    apply IH. lia.
Qed.

End WhileLoop.

(** ** Facts on the loop body *)

(** What one call of the loop body does to the store and to the loop
    state, written out step by step. *)
Lemma _build_loop_body_unfold (loss : Loss) (update_x update_w : bool)
  (state : _LoopState) (examples : Tensor) (s : Store) :
  _build_loop_body loss update_x update_w (state, examples) s =
  let m0 := pxu_step_enter (model s) in
  let '((gradients, prev_energy), m1) := grad_and_values loss examples m0 in
  let '(m2, ox) := if update_x then optim_call (optim_x s) gradients m1
                   else (m1, optim_x s) in
  let '(m3, ow) := if update_w then optim_call (optim_w s) gradients m2
                   else (m2, optim_w s) in
  let m4 := pxu_step_enter (pxu_step_exit m3) in
  let '(curr_energy, m5) := loss examples m4 in
  let nodes_energies := map (fun x => fsum (energy x)) (pc_nodes m5) in
  ((mk_LoopState (iter_index state + 1)
                 (num_x_updates state + Z.b2z update_x)
                 (num_w_updates state + Z.b2z update_w)
                 (fsum prev_energy) (fsum curr_energy)
                 (at_set (all_energies state) (iter_index state) nodes_energies),
    examples),
   mkStore (pxu_step_exit m5) ox ow
           (events s ++ body_events update_x update_w (iter_index state)
                                    (length (all_energies state)))).
Proof.
  unfold _build_loop_body, bind, call_grad_and_values, call_loss, when,
    call_optim_x, call_optim_w, modify_model, get_model, log, ret, body_events.
  cbn [model optim_x optim_w events].
  destruct (grad_and_values loss examples (pxu_step_enter (model s)))
    as [[gradients prev] m1].
  destruct update_x, update_w; cbn [model optim_x optim_w events];
    repeat match goal with
    | |- context [optim_call ?o ?g ?m] =>
        let m' := fresh "m" in let o' := fresh "o" in
        destruct (optim_call o g m) as [m' o']; cbn [model optim_x optim_w events]
    end;
    match goal with
    | |- context [loss examples ?m] =>
        destruct (loss examples m) as [curr m5]; cbn [model optim_x optim_w events]
    end;
    rewrite <- ?app_assoc; reflexivity.
Qed.

Lemma at_set_length {R : Type} (buf : list R) (i : Z) (v : R) :
  length (at_set buf i v) = length buf.
Proof.
  unfold at_set. destruct (_ && _); [apply length_insert | reflexivity].
Qed.

(** An in-range write stores the row and leaves the other rows alone. *)
Lemma at_set_lookup {R : Type} (buf : list R) (i : Z) (v : R) :
  0 <= i < Z.of_nat (length buf) ->
  at_set buf i v !! Z.to_nat i = Some v /\
  forall j : nat, j <> Z.to_nat i -> at_set buf i v !! j = buf !! j.
Proof.
  intros Hi. unfold at_set.
  assert ((i <? 0) = false) as -> by lia.
  assert ((0 <=? i) && (i <? Z.of_nat (length buf)) = true) as -> by lia.
  split.
  - apply list_lookup_insert_eq. lia.
  - intros j Hj. apply list_lookup_insert_ne. congruence.
Qed.

(** An out-of-range write is dropped. *)
Lemma at_set_out_of_range {R : Type} (buf : list R) (i : Z) (v : R) :
  Z.of_nat (length buf) <= i -> at_set buf i v = buf.
Proof.
  intros Hi. unfold at_set.
  assert ((i <? 0) = false) as -> by lia.
  assert ((0 <=? i) && (i <? Z.of_nat (length buf)) = false) as -> by lia.
  reflexivity.
Qed.

(** The counters, the buffer size and the events after one call. *)
Lemma _build_loop_body_counters (loss : Loss) (update_x update_w : bool)
  (state : _LoopState) (examples : Tensor) (s : Store) :
  exists state' s',
    _build_loop_body loss update_x update_w (state, examples) s
      = ((state', examples), s') /\
    iter_index state' = iter_index state + 1 /\
    num_x_updates state' = num_x_updates state + Z.b2z update_x /\
    num_w_updates state' = num_w_updates state + Z.b2z update_w /\
    length (all_energies state') = length (all_energies state) /\
    events s' = events s ++ body_events update_x update_w (iter_index state)
                                        (length (all_energies state)).
Proof.
  pose proof (_build_loop_body_unfold loss update_x update_w state examples s) as H.
  cbv zeta in H.
  destruct (grad_and_values _ _ _) as [[gradients prev] m1].
  destruct (if update_x then _ else _) as [m2 ox].
  destruct (if update_w then _ else _) as [m3 ow].
  destruct (loss _ _) as [curr m5].
  eexists _, _. split; [exact H|]. cbn.
  rewrite at_set_length. auto.
Qed.

(** The same after [n] calls in a row. *)
Lemma iterate_body_counters (loss : Loss) (update_x update_w : bool) (n : nat) :
  forall (state : _LoopState) (examples : Tensor) (s : Store),
  exists state' s',
    iterate n (_build_loop_body loss update_x update_w) (state, examples) s
      = ((state', examples), s') /\
    iter_index state' = iter_index state + Z.of_nat n /\
    num_x_updates state' = num_x_updates state + Z.of_nat n * Z.b2z update_x /\
    num_w_updates state' = num_w_updates state + Z.of_nat n * Z.b2z update_w /\
    length (all_energies state') = length (all_energies state) /\
    events s' = events s ++ loop_events update_x update_w (iter_index state)
                                        (length (all_energies state)) n.
Proof.
  induction n as [|n IH]; intros state examples s.
  - exists state, s. simpl. rewrite app_nil_r. unfold ret.
    repeat split; lia.
  - destruct (_build_loop_body_counters loss update_x update_w state examples s)
      as (st1 & s1 & Hb & Hi & Hx & Hw & Hl & He).
    destruct (IH st1 examples s1) as (st2 & s2 & Hit & Hi2 & Hx2 & Hw2 & Hl2 & He2).
    exists st2, s2. split.
    { cbn [iterate]. unfold bind. rewrite Hb. exact Hit. }
    rewrite Hi2, Hx2, Hw2, Hl2, He2, Hi, Hx, Hw, Hl, He, <- app_assoc.
    cbn [loop_events]. repeat split; lia.
Qed.

(** ** A loop over [_build_loop_body]

    Whatever else its condition tests, a loop whose condition implies
    [iter_index < bound] ends; it makes [n] calls of the body, the first
    [n] states pass the condition and the last one fails it. *)
Lemma body_loop_spec (loss : Loss) (update_x update_w : bool)
  (cond : _LoopState * Tensor -> bool) (bound : Z) (fuel : nat)
  (state : _LoopState) (examples : Tensor) (s : Store) :
  (forall st, cond st = true -> iter_index (fst st) < bound) ->
  bound - iter_index state <= Z.of_nat fuel ->
  exists (n : nat) (state' : _LoopState) (s' : Store),
    while_loop fuel (_build_loop_body loss update_x update_w) cond
               (state, examples) s = (Some (state', examples), s') /\
    iterate n (_build_loop_body loss update_x update_w) (state, examples) s
      = ((state', examples), s') /\
    cond (state', examples) = false /\
    (forall k : nat, (k < n)%nat ->
       cond (fst (iterate k (_build_loop_body loss update_x update_w)
                          (state, examples) s)) = true) /\
    (forall k : nat, (k < n)%nat -> iter_index state + Z.of_nat k < bound) /\
    iter_index state' = iter_index state + Z.of_nat n /\
    num_x_updates state' = num_x_updates state + Z.of_nat n * Z.b2z update_x /\
    num_w_updates state' = num_w_updates state + Z.of_nat n * Z.b2z update_w /\
    length (all_energies state') = length (all_energies state) /\
    events s' = events s ++ loop_events update_x update_w (iter_index state)
                                        (length (all_energies state)) n.
Proof.
  intros Hbound Hfuel.
  set (body := _build_loop_body loss update_x update_w).
  destruct (while_loop_terminates body cond
              (fun st => Z.to_nat (bound - iter_index (fst st))) fuel)
    with (st := (state, examples)) (s := s) as (st' & s' & Hw).
  - intros [st ex] s0 Hc. specialize (Hbound _ Hc). cbn [fst] in *.
    destruct (_build_loop_body_counters loss update_x update_w st ex s0)
      as (st1 & s1 & Hb & Hi & _). subst body. rewrite Hb. cbn [fst]. lia.
  - cbn [fst]. lia.
  - destruct (while_loop_iterate _ _ _ _ _ _ _ Hw) as (n & _ & Hit & Hf & Hbefore).
    destruct (iterate_body_counters loss update_x update_w n state examples s)
      as (st2 & s2 & Hit2 & Hcnt).
    fold body in Hit2. rewrite Hit in Hit2. injection Hit2 as -> ->.
    exists n, st2, s2. repeat (split; [assumption|]).
    split; [|exact Hcnt].
    intros k Hk. specialize (Hbefore k Hk).
    destruct (iterate_body_counters loss update_x update_w k state examples s)
      as (stk & sk & Hitk & Hik & _).
    fold body in Hitk. rewrite Hitk in Hbefore.
    specialize (Hbound _ Hbefore). cbn [fst] in Hbound. lia.
Qed.

Lemma loop_events_in_bounds (update_x update_w : bool) (total : Z) (n : nat) :
  forall i : Z,
    (forall k : nat, (k < n)%nat -> 0 <= i + Z.of_nat k < total) ->
    Forall (event_in_bounds total)
           (loop_events update_x update_w i (Z.to_nat total) n).
Proof.
  induction n as [|n IH]; intros i Hi; cbn [loop_events]; [constructor|].
  apply Forall_app. split.
  - pose proof (Hi O ltac:(lia)) as H0.
    assert (event_in_bounds total (EvSetEnergies i (Z.to_nat total)))
      by (cbn; split; [reflexivity | lia]).
    unfold body_events.
    destruct update_x, update_w; cbn [app];
      repeat (apply List.Forall_cons; [first [exact I | assumption] |]);
      apply List.Forall_nil.
  - apply IH. intros k Hk. specialize (Hi (S k) ltac:(lia)). lia.
Qed.



(** ** The two loops of [train_on_batch] *)

Lemma t_loop_should_continue_bound (params : Params) (st : _LoopState * Tensor) :
  t_loop_should_continue params st = true ->
  iter_index (fst st) < t_iterations params.
Proof.
  unfold t_loop_should_continue.
  destruct (String.eqb (pc_mode params) "efficient_ppc"); intros H.
  - apply andb_true_iff in H as [H _]. lia.
  - lia.
Qed.

Lemma w_loop_should_continue_bound (params : Params) (st : _LoopState * Tensor) :
  w_loop_should_continue params st = true ->
  iter_index (fst st) < total_iterations params.
Proof. unfold w_loop_should_continue. lia. Qed.

Lemma t_loop_exit_counted (params : Params) (st : _LoopState * Tensor) :
  String.eqb (pc_mode params) "efficient_ppc" = false ->
  t_loop_should_continue params st = false ->
  t_iterations params <= iter_index (fst st).
Proof.
  unfold t_loop_should_continue. intros ->. lia.
Qed.

Lemma t_loop_exit_efficient_ppc (params : Params) (st : _LoopState * Tensor) :
  String.eqb (pc_mode params) "efficient_ppc" = true ->
  t_loop_should_continue params st = false ->
  Z.min (T_min_x_updates params) (t_iterations params) <= iter_index (fst st).
Proof.
  unfold t_loop_should_continue. intros ->. intros H.
  apply andb_false_iff in H as [H|H]; [lia|].
  apply orb_false_iff in H as [_ H]. lia.
Qed.

Lemma run_loops_unfold (fuel : nat) (examples : Tensor) (loss : Loss)
  (params : Params) (s : Store) :
  run_loops fuel examples loss params s =
  match t_loop fuel loss params (initial_state params (model s), examples)
               (clear_cache_store s) with
  | (None, s2) => (None, s2)
  | (Some (final_state, _), s2) =>
      if mode_has_w_loop params then
        let '(o, s4) := w_loop fuel loss params (final_state, examples)
                               (clear_cache_store s2) in
        (option_map fst o, s4)
      else (Some final_state, s2)
  end.
Proof.
  unfold run_loops, bind, get_model, call_clear_cache, modify_model, log, ret,
    clear_cache_store, bind.
  cbn [model optim_x optim_w events].
  destruct (t_loop _ _ _ _ _) as [[[final_state ex]|] s2]; [|reflexivity].
  destruct (mode_has_w_loop params); reflexivity.
Qed.

(** How many calls each loop makes, and what the loop state and the event
    log are afterwards. *)
Lemma run_loops_spec (fuel : nat) (examples : Tensor) (loss : Loss)
  (params : Params) (s : Store) :
  0 <= total_iterations params ->
  Z.max (t_iterations params) (total_iterations params) <= Z.of_nat fuel ->
  exists (n_t n_w : nat) (final : _LoopState) (s' : Store),
    run_loops fuel examples loss params s = (Some final, s') /\
    iter_index final = Z.of_nat n_t + Z.of_nat n_w /\
    num_x_updates final = Z.of_nat n_t /\
    num_w_updates final =
      Z.of_nat n_w + (if String.eqb (pc_mode params) "ppc" then Z.of_nat n_t else 0) /\
    length (all_energies final) = Z.to_nat (total_iterations params) /\
    events s' =
      events s ++ [EvClearCache]
      ++ loop_events true (String.eqb (pc_mode params) "ppc") 0
                     (Z.to_nat (total_iterations params)) n_t
      ++ (if mode_has_w_loop params
          then EvClearCache
               :: loop_events false true (Z.of_nat n_t)
                              (Z.to_nat (total_iterations params)) n_w
          else []) /\
    (forall k : nat, (k < n_t)%nat -> Z.of_nat k < t_iterations params) /\
    (forall k : nat, (k < n_w)%nat ->
       Z.of_nat n_t + Z.of_nat k < total_iterations params) /\
    (String.eqb (pc_mode params) "efficient_ppc" = false ->
       Z.of_nat n_t = Z.max 0 (t_iterations params)) /\
    (String.eqb (pc_mode params) "efficient_ppc" = true ->
       Z.min (T_min_x_updates params) (t_iterations params) <= Z.of_nat n_t) /\
    Z.of_nat n_w = (if mode_has_w_loop params
                    then Z.max 0 (total_iterations params - Z.of_nat n_t)
                    else 0).
Proof.
  intros Htotal Hfuel. rewrite run_loops_unfold.
  destruct (body_loop_spec loss true (String.eqb (pc_mode params) "ppc")
              (t_loop_should_continue params) (t_iterations params) fuel
              (initial_state params (model s)) examples (clear_cache_store s))
    as (n_t & st_t & s_t & Hw & _ & Hexit & _ & Hlt & Hi & Hx & Hwu & Hlen & Hev).
  { apply t_loop_should_continue_bound. }
  { cbn. lia. }
  unfold t_loop. rewrite Hw.
  cbn [initial_state iter_index num_x_updates num_w_updates all_energies] in *.
  rewrite length_replicate in *.
  cbn [clear_cache_store events] in Hev.
  assert (Hcounted : String.eqb (pc_mode params) "efficient_ppc" = false ->
                     Z.of_nat n_t = Z.max 0 (t_iterations params)).
  { intros Hm. pose proof (t_loop_exit_counted _ _ Hm Hexit) as He. cbn [fst] in He.
    destruct n_t as [|k]; [lia|]. specialize (Hlt k ltac:(lia)). lia. }
  assert (Hdwell : String.eqb (pc_mode params) "efficient_ppc" = true ->
                   Z.min (T_min_x_updates params) (t_iterations params) <= Z.of_nat n_t).
  { intros Hm. pose proof (t_loop_exit_efficient_ppc _ _ Hm Hexit) as He.
    cbn [fst] in He. lia. }
  destruct (mode_has_w_loop params) eqn:Hmode.
  - destruct (body_loop_spec loss false true
                (w_loop_should_continue params) (total_iterations params) fuel
                st_t examples (clear_cache_store s_t))
      as (n_w & st_w & s_w & Hw2 & _ & Hexit2 & _ & Hlt2 & Hi2 & Hx2 & Hwu2 & Hlen2 & Hev2).
    { apply w_loop_should_continue_bound. }
    { lia. }
    unfold w_loop. rewrite Hw2. cbn [option_map fst].
    exists n_t, n_w, st_w, s_w.
    cbn [clear_cache_store events] in Hev2.
    split; [reflexivity|].
    split; [lia|]. split; [cbn in *; lia|].
    split; [destruct (String.eqb (pc_mode params) "ppc"); cbn in *; lia|].
    split; [congruence|].
    split.
    { rewrite Hev2, Hev, Hlen, Hi. rewrite <- !app_assoc. cbn [app].
      replace (0 + Z.of_nat n_t) with (Z.of_nat n_t) by lia. reflexivity. }
    split; [intros k Hk; specialize (Hlt k Hk); lia|].
    split; [intros k Hk; specialize (Hlt2 k Hk); lia|].
    split; [assumption|]. split; [assumption|].
    unfold w_loop_should_continue in Hexit2. cbn [fst] in Hexit2.
    destruct n_w as [|k]; [lia|]. specialize (Hlt2 k ltac:(lia)). lia.
  - exists n_t, O, st_t, s_t.
    split; [reflexivity|].
    split; [lia|]. split; [cbn in *; lia|].
    split; [destruct (String.eqb (pc_mode params) "ppc"); cbn in *; lia|].
    split; [assumption|].
    split; [rewrite Hev, app_nil_r, <- !app_assoc; reflexivity|].
    split; [intros k Hk; specialize (Hlt k Hk); lia|].
    split; [intros k Hk; lia|].
    split; [assumption|]. split; [assumption|]. reflexivity.
Qed.

(** ** [train_on_batch] as a whole *)

Lemma prepare_batch_unfold (examples : Tensor) (params : Params) (s : Store) :
  prepare_batch examples params s =
  let entered := pxu_train_enter examples (model s) in
  (tt,
   mkStore
     (if preserve_all_pc_states_between_batches params
         && truthy (saved_pc_states entered)
      then restore_pc_states entered else entered)
     (if reset_optimizer_x_state params then init_state (optim_x s) else optim_x s)
     (optim_w s)
     (events s ++ prepare_events params entered)).
Proof.
  unfold prepare_batch, prepare_events, bind, modify_model, get_model, when,
    init_state_x, log, ret.
  destruct (reset_optimizer_x_state params); cbn [model optim_x optim_w events];
    destruct (preserve_all_pc_states_between_batches params && _);
    cbn [model optim_x optim_w events]; rewrite <- ?app_assoc, ?app_nil_r;
    reflexivity.
Qed.

Lemma train_on_batch_raises (fuel : nat) (examples : Tensor) (loss : Loss)
  (params : Params) (s : Store) :
  total_iterations params < 0 ->
  exists e s', train_on_batch fuel examples loss params s = (Raise e, s').
Proof.
  intros H. unfold train_on_batch, bind.
  destruct (prepare_batch examples params s) as [[] s1].
  unfold loops_and_result. assert ((total_iterations params <? 0) = true) as -> by lia.
  unfold bind, modify_model, ret. eauto.
Qed.

(** With a history buffer that can be allocated and enough fuel,
    [train_on_batch] returns; [n_t] and [n_w] are the numbers of calls of
    the body made by the two loops. *)
Lemma train_on_batch_spec (fuel : nat) (examples : Tensor) (loss : Loss)
  (params : Params) (s : Store) :
  0 <= total_iterations params ->
  Z.max (t_iterations params) (total_iterations params) <= Z.of_nat fuel ->
  exists (n_t n_w : nat) (r : TrainOnBatchResult) (s' : Store),
    train_on_batch fuel examples loss params s = (Ok r, s') /\
    iterations_done r = Z.of_nat n_t + Z.of_nat n_w /\
    res_num_x_updates r = Z.of_nat n_t /\
    res_num_w_updates r =
      Z.of_nat n_w + (if String.eqb (pc_mode params) "ppc" then Z.of_nat n_t else 0) /\
    length (energies r) = Z.to_nat (total_iterations params) /\
    events s' =
      events s ++ prepare_events params (pxu_train_enter examples (model s))
      ++ [EvClearCache]
      ++ loop_events true (String.eqb (pc_mode params) "ppc") 0
                     (Z.to_nat (total_iterations params)) n_t
      ++ (if mode_has_w_loop params
          then EvClearCache
               :: loop_events false true (Z.of_nat n_t)
                              (Z.to_nat (total_iterations params)) n_w
          else []) /\
    (forall k : nat, (k < n_t)%nat -> Z.of_nat k < t_iterations params) /\
    (forall k : nat, (k < n_w)%nat ->
       Z.of_nat n_t + Z.of_nat k < total_iterations params) /\
    (String.eqb (pc_mode params) "efficient_ppc" = false ->
       Z.of_nat n_t = Z.max 0 (t_iterations params)) /\
    (String.eqb (pc_mode params) "efficient_ppc" = true ->
       Z.min (T_min_x_updates params) (t_iterations params) <= Z.of_nat n_t) /\
    Z.of_nat n_w = (if mode_has_w_loop params
                    then Z.max 0 (total_iterations params - Z.of_nat n_t)
                    else 0).
Proof.
  intros Htotal Hfuel. unfold train_on_batch, bind.
  rewrite prepare_batch_unfold. cbv zeta.
  set (s1 := mkStore _ _ _ _).
  unfold loops_and_result.
  assert ((total_iterations params <? 0) = false) as -> by lia.
  destruct (run_loops_spec fuel examples loss params s1 Htotal Hfuel)
    as (n_t & n_w & final & s2 & Hrun & Hi & Hx & Hw & Hlen & Hev & Hrest).
  unfold bind. rewrite Hrun. unfold modify_model, get_model, ret.
  cbn [model optim_x optim_w events].
  eexists n_t, n_w, _, _. split; [reflexivity|].
  cbn [iterations_done res_num_x_updates res_num_w_updates energies].
  repeat (split; [assumption|]).
  split; [|exact Hrest].
  rewrite Hev. subst s1. cbn [events]. rewrite <- !app_assoc. reflexivity.
Qed.

(** ** The convergence predicate of [efficient_ppc] *)

Lemma t_loop_should_continue_efficient_ppc (params : Params)
  (st : _LoopState * Tensor) :
  pc_mode params = "efficient_ppc" ->
  t_loop_should_continue params st = spec_continue params (fst st).
Proof.
  intros Hmode. unfold t_loop_should_continue, spec_continue, t_iterations.
  rewrite Hmode. reflexivity.
Qed.

(** C1.  In [efficient_ppc] mode the condition of the inference loop is
    [(iter_index < T - T_min_w_updates) and (|curr_energy - prev_energy| >
    energy_convergence_threshold or iter_index < T_min_x_updates)] on the
    energies held in the loop state, and the loop makes exactly the calls
    of the body that this predicate allows: it holds before each call and
    fails in the state the loop returns. *)
Theorem efficient_ppc_loop_follows_predicate (fuel : nat) (loss : Loss)
  (params : Params) (state : _LoopState) (examples : Tensor) (s : Store) :
  pc_mode params = "efficient_ppc" ->
  T params - T_min_w_updates params - iter_index state <= Z.of_nat fuel ->
  (forall st, t_loop_should_continue params st = spec_continue params (fst st)) /\
  exists (n : nat) (state' : _LoopState) (s' : Store),
    t_loop fuel loss params (state, examples) s = (Some (state', examples), s') /\
    iterate n (_build_loop_body loss true false) (state, examples) s
      = ((state', examples), s') /\
    spec_continue params state' = false /\
    forall k : nat, (k < n)%nat ->
      spec_continue params
        (fst (fst (iterate k (_build_loop_body loss true false)
                           (state, examples) s))) = true.
Proof.
  intros Hmode Hfuel.
  split; [intros st; apply t_loop_should_continue_efficient_ppc; assumption|].
  destruct (body_loop_spec loss true false (t_loop_should_continue params)
              (t_iterations params) fuel state examples s)
    as (n & state' & s' & Hw & Hit & Hexit & Hbefore & _).
  { apply t_loop_should_continue_bound. }
  { unfold t_iterations. rewrite Hmode. cbn. lia. }
  exists n, state', s'. unfold t_loop. rewrite Hmode.
  change (String.eqb "efficient_ppc" "ppc") with false.
  split; [exact Hw|]. split; [exact Hit|].
  split.
  - rewrite <- Hexit. symmetry.
    apply (t_loop_should_continue_efficient_ppc params (state', examples) Hmode).
  - intros k Hk.
    rewrite <- (t_loop_should_continue_efficient_ppc params _ Hmode).
    apply Hbefore. exact Hk.
Qed.

(** ** Iteration counts *)



(** C2, as amended.  In [efficient_ppc] mode with [0 <= T] and
    [0 <= T_min_w_updates], [train_on_batch] returns, the final
    [iter_index] does not exceed [T], and the inference loop makes at
    least [min (T_min_x_updates, T - T_min_w_updates)] calls of the body,
    whatever the energies are. *)
Theorem efficient_ppc_budget_and_dwell (fuel : nat) (examples : Tensor)
  (loss : Loss) (params : Params) (s : Store) :
  pc_mode params = "efficient_ppc" ->
  0 <= T params ->
  0 <= T_min_w_updates params ->
  T params <= Z.of_nat fuel ->
  exists (r : TrainOnBatchResult) (s' : Store),
    train_on_batch fuel examples loss params s = (Ok r, s') /\
    iterations_done r <= T params /\
    Z.min (T_min_x_updates params) (T params - T_min_w_updates params)
      <= res_num_x_updates r.
Proof.
  intros Hmode HT HTw Hfuel.
  assert (Htot : total_iterations params = T params)
    by (unfold total_iterations; rewrite Hmode; reflexivity).
  assert (Htit : t_iterations params = T params - T_min_w_updates params)
    by (unfold t_iterations; rewrite Hmode; reflexivity).
  assert (Hhas : mode_has_w_loop params = true)
    by (unfold mode_has_w_loop; rewrite Hmode; reflexivity).
  assert (Heppc : String.eqb (pc_mode params) "efficient_ppc" = true)
    by (rewrite Hmode; reflexivity).
  destruct (train_on_batch_spec fuel examples loss params s)
    as (n_t & n_w & r & s' & Hrun & Hi & Hx & _ & _ & _ & Hlt & _ & _ & Hdwell & Hnw);
    [lia | lia |].
  exists r, s'. split; [exact Hrun|].
  rewrite Hhas in Hnw. specialize (Hdwell Heppc). rewrite Htit in Hdwell.
  split; [|lia].
  rewrite Hi.
  destruct n_t as [|k]; [lia|].
  specialize (Hlt k ltac:(lia)). lia.
Qed.


(** C9, as amended.  In every mode, provided [0 <= T_min_w_updates] when
    the mode is [efficient_ppc], every call of the loop body finds
    [0 <= iter_index < total_iterations], the number of rows of the history
    buffer, so its write is in range; the returned [iterations_done] does
    not exceed the number of rows. *)
Theorem history_writes_in_bounds (fuel : nat) (examples : Tensor) (loss : Loss)
  (params : Params) (s : Store) :
  0 <= total_iterations params ->
  (pc_mode params = "efficient_ppc" -> 0 <= T_min_w_updates params) ->
  total_iterations params <= Z.of_nat fuel ->
  exists (r : TrainOnBatchResult) (s' : Store) (new : list event),
    train_on_batch fuel examples loss params s = (Ok r, s') /\
    events s' = events s ++ new /\
    Forall (event_in_bounds (total_iterations params)) new /\
    length (energies r) = Z.to_nat (total_iterations params) /\
    iterations_done r <= total_iterations params.
Proof.
  intros Htotal HTw Hfuel.
  assert (Hle : t_iterations params <= total_iterations params).
  { unfold t_iterations, total_iterations in *.
    destruct (String.eqb_spec (pc_mode params) "efficient_ppc") as [He|He].
    - specialize (HTw He). rewrite He. cbn. lia.
    - destruct (String.eqb (pc_mode params) "pc"); lia. }
  destruct (train_on_batch_spec fuel examples loss params s)
    as (n_t & n_w & r & s' & Hrun & Hi & _ & _ & Hlen & Hev & Hlt & Hlt2 & _ & _ & Hnw);
    [lia | lia |].
  eexists r, s', _. split; [exact Hrun|]. split; [exact Hev|].
  split; [|split; [exact Hlen|]].
  - apply Forall_app. split.
    { unfold prepare_events.
      destruct (reset_optimizer_x_state params), (_ && _); cbn;
        repeat (apply List.Forall_cons; [exact I|]); apply List.Forall_nil. }
    apply List.Forall_cons; [exact I|].
    apply Forall_app. split.
    { apply loop_events_in_bounds. intros k Hk. specialize (Hlt k Hk). lia. }
    destruct (mode_has_w_loop params); [|apply List.Forall_nil].
    apply List.Forall_cons; [exact I|].
    apply loop_events_in_bounds. intros k Hk. specialize (Hlt2 k Hk). lia.
  - rewrite Hi. destruct (mode_has_w_loop params).
    + destruct n_t as [|k]; [lia|]. specialize (Hlt k ltac:(lia)). lia.
    + destruct n_t as [|k]; [lia|]. specialize (Hlt k ltac:(lia)). lia.
Qed.

(** ** One call of the loop body *)

(** C4.  One call of the loop body, in order: (1) [grad_and_values] at the
    incoming model gives the gradients and the energy before the update,
    whose sum becomes [prev_energy]; (2) [optim_x] and then [optim_w] are
    applied to these gradients, each only when its flag is set; (3) the
    loss is evaluated again on the updated model and its sum becomes
    [curr_energy]; (4) the per-node energies are written at index
    [iter_index] of the history buffer (row [iter_index] when it exists)
    and [iter_index] grows by one. *)
Theorem loop_body_steps_in_order (loss : Loss) (update_x update_w : bool)
  (state : _LoopState) (examples : Tensor) (s : Store) :
  exists gradients prev m1 m2 m3 ox ow curr m5,
    grad_and_values loss examples (pxu_step_enter (model s))
      = ((gradients, prev), m1) /\
    (if update_x then optim_call (optim_x s) gradients m1 else (m1, optim_x s))
      = (m2, ox) /\
    (if update_w then optim_call (optim_w s) gradients m2 else (m2, optim_w s))
      = (m3, ow) /\
    loss examples (pxu_step_enter (pxu_step_exit m3)) = (curr, m5) /\
    let nodes_energies := map (fun x => fsum (energy x)) (pc_nodes m5) in
    let out := _build_loop_body loss update_x update_w (state, examples) s in
    let state' := fst (fst out) in
    let s' := snd out in
    prev_energy state' = fsum prev /\
    curr_energy state' = fsum curr /\
    all_energies state'
      = at_set (all_energies state) (iter_index state) nodes_energies /\
    (0 <= iter_index state < Z.of_nat (length (all_energies state)) ->
     all_energies state' !! Z.to_nat (iter_index state) = Some nodes_energies) /\
    iter_index state' = iter_index state + 1 /\
    num_x_updates state' = num_x_updates state + Z.b2z update_x /\
    num_w_updates state' = num_w_updates state + Z.b2z update_w /\
    model s' = pxu_step_exit m5 /\ optim_x s' = ox /\ optim_w s' = ow /\
    events s' =
      events s ++ [EvGradAndValues]
      ++ (if update_x then [EvOptimX] else [])
      ++ (if update_w then [EvOptimW] else [])
      ++ [EvLoss;
          EvSetEnergies (iter_index state) (length (all_energies state))].
Proof.
  pose proof (_build_loop_body_unfold loss update_x update_w state examples s) as H.
  cbv zeta in H.
  destruct (grad_and_values _ _ _) as [[gradients prev] m1].
  destruct (if update_x then _ else _) as [m2 ox] eqn:Hx.
  destruct (if update_w then _ else _) as [m3 ow] eqn:Hw.
  destruct (loss _ _) as [curr m5] eqn:Hl.
  exists gradients, prev, m1, m2, m3, ox, ow, curr, m5.
  split; [reflexivity|]. split; [exact Hx|]. split; [exact Hw|].
  split; [exact Hl|].
  cbv zeta. rewrite H. cbn [fst snd prev_energy curr_energy all_energies
    iter_index num_x_updates num_w_updates model optim_x optim_w events].
  repeat (split; [reflexivity|]).
  split; [|repeat (split; [reflexivity|]); reflexivity].
  intros Hi. apply at_set_lookup. exact Hi.
Qed.

(** ** Activities carried over between batches *)

Lemma restore_zip_length (nodes : list PCNode) :
  forall states : list Tensor, length (restore_zip nodes states) = length nodes.
Proof.
  induction nodes as [|n nodes IH]; intros [|st states]; cbn; auto.
Qed.

Lemma restore_zip_lookup (nodes : list PCNode) :
  forall (states : list Tensor) (i : nat) (state : Tensor) (pc_node : PCNode),
    states !! i = Some state ->
    nodes !! i = Some pc_node ->
    restore_zip nodes states !! i = Some (set_x state pc_node).
Proof.
  induction nodes as [|n nodes IH]; intros [|st states] [|i] state pc_node;
    cbn; try discriminate.
  - intros [= <-] [= <-]. reflexivity.
  - apply IH.
Qed.

Lemma restore_zip_lookup_beyond (nodes : list PCNode) :
  forall (states : list Tensor) (i : nat),
    (length states <= i)%nat ->
    restore_zip nodes states !! i = nodes !! i.
Proof.
  induction nodes as [|n nodes IH]; intros [|st states] [|i]; cbn;
    try reflexivity; try lia.
  intros H. apply IH. lia.
Qed.

(** C7.  The switch is off by default, and with the switch at its default
    the model enters the loops as [pxu.train] initialised it for this
    batch.  [train_on_batch] first runs [prepare_batch] and only then the
    loops.  With the switch off, or with no saved state, [prepare_batch]
    leaves the model as [pxu.train] initialised it; with the switch on
    and saved states present, every node after the first that has a saved
    state gets this state as its ["x"] and keeps the rest of its data,
    pairwise and in order, and the first node, the nodes without a saved
    state, the saved states and the layers are left alone. *)
Theorem preserve_states_switch (fuel : nat) (examples : Tensor) (loss : Loss)
  (params : Params) (s : Store) :
  let entered := pxu_train_enter examples (model s) in
  let prepared := model (snd (prepare_batch examples params s)) in
  preserve_all_pc_states_between_batches_default = false /\
  train_on_batch fuel examples loss params s
    = loops_and_result fuel examples loss params
        (snd (prepare_batch examples params s)) /\
  (preserve_all_pc_states_between_batches params
     = preserve_all_pc_states_between_batches_default ->
   prepared = entered) /\
  (preserve_all_pc_states_between_batches params = false ->
   prepared = entered) /\
  (saved_pc_states entered = [] -> prepared = entered) /\
  (preserve_all_pc_states_between_batches params = true ->
   saved_pc_states entered <> [] ->
   length (pc_nodes prepared) = length (pc_nodes entered) /\
   pc_nodes prepared !! O = pc_nodes entered !! O /\
   (forall (i : nat) (state : Tensor) (pc_node : PCNode),
      saved_pc_states entered !! i = Some state ->
      pc_nodes entered !! S i = Some pc_node ->
      exists restored : PCNode,
        pc_nodes prepared !! S i = Some restored /\
        node_x restored = state /\
        node_data restored = node_data pc_node) /\
   (forall i : nat,
      (length (saved_pc_states entered) <= i)%nat ->
      pc_nodes prepared !! S i = pc_nodes entered !! S i) /\
   saved_pc_states prepared = saved_pc_states entered /\
   layers prepared = layers entered).
Proof.
  cbv zeta. split; [reflexivity|]. split.
  { unfold train_on_batch, bind.
    destruct (prepare_batch examples params s) as [[] s1]. reflexivity. }
  rewrite prepare_batch_unfold. cbv zeta. cbn [snd model].
  split; [unfold preserve_all_pc_states_between_batches_default;
          intros ->; reflexivity|].
  split; [intros ->; reflexivity|].
  split; [intros ->; cbn [truthy]; rewrite andb_false_r; reflexivity|].
  intros -> Hsaved.
  destruct (saved_pc_states (pxu_train_enter examples (model s)))
    as [|st0 saved] eqn:Hs; [congruence|].
  cbn [andb truthy]. unfold restore_pc_states. rewrite Hs.
  destruct (pc_nodes (pxu_train_enter examples (model s)))
    as [|first rest] eqn:Hn.
  - rewrite Hn, Hs.
    split; [reflexivity|]. split; [reflexivity|].
    split; [intros i st n _ H; discriminate H|].
    split; [reflexivity|]. split; reflexivity.
  - cbn [pc_nodes saved_pc_states layers].
    split; [cbn; rewrite restore_zip_length; reflexivity|].
    split; [reflexivity|]. split; [|split; [|split; reflexivity]].
    + intros i state pc_node Hi Hnode. cbn in Hnode |- *.
      exists (set_x state pc_node).
      split; [apply restore_zip_lookup; assumption|].
      split; reflexivity.
    + intros i Hi. cbn. apply restore_zip_lookup_beyond. exact Hi.
Qed.

End TrainOnBatch.

(** ** [train_model] *)

(** The two optimizer rules [train_model] knows, and the parameters an
    optimizer is built on ([model.x_parameters()], [model.w_parameters()]). *)
Inductive optax_rule : Type :=
| SgdWithDecay
| AdamW.

Inductive param_group : Type :=
| XParameters
| WParameters.

(** What [train_model] needs besides [train_on_batch]. *)
Class Trainer {A : Arrays} {P : Pcax} : Type := {
  zeros_batch : Params -> Tensor;
  new_optim : optax_rule -> param_group -> Params -> PCDecoder -> Optim;
  test_on_batch : Tensor -> Store -> Float * Store;
  model_energy_loss : Loss }.

(** The steps of [train_model], in the order they are made (ghost state). *)
Inductive tm_event : Type :=
| TmInitForward
| TmNewOptim (group : param_group) (rule : optax_rule)
| TmGetDataLoaders
| TmTrainOnBatch (epoch : nat)
| TmTestOnBatch (epoch : nat)
| TmSaveWeights (epochs_done : Z) (best : bool).

Section TrainModel.

Context {A : Arrays} {P : Pcax} {Tr : Trainer}.

(** The [if ... elif ... else: raise ValueError] on an optimizer name. *)
Definition select_optimizer (field name : string) : outcome optax_rule :=
  if String.eqb name "sgd" then Ok SgdWithDecay
  else if String.eqb name "adamw" then Ok AdamW
  else Raise (ValueError ("Unknown " ++ field ++ ": " ++ name)).

(** Python's [min(a, b)]. *)
Definition py_min2 (a b : Float) : Float := if flt b a then b else a.

(** [for examples, _ in train_loader: train_batch_fn(examples)] *)
Fixpoint train_batches (fuel : nat) (params : Params) (epoch : nat)
  (batches : list Tensor) (s : Store) (log : list tm_event)
  : outcome unit * Store * list tm_event :=
  match batches with
  | [] => (Ok tt, s, log)
  | examples :: rest =>
      let log := log ++ [TmTrainOnBatch epoch] in
      let '(batch_res, s') :=
        train_on_batch fuel examples model_energy_loss params s in
      match batch_res with
      | Ok _ => train_batches fuel params epoch rest s' log
      | Raise e => (Raise e, s', log)
      | OutOfFuel => (OutOfFuel, s', log)
      end
  end.

(** [for examples, _ in test_loader: test_batch_fn(examples)] *)
Fixpoint test_batches (epoch : nat) (batches : list Tensor) (s : Store)
  (log : list tm_event) (epoch_test_mses : list Float)
  : list Float * Store * list tm_event :=
  match batches with
  | [] => (epoch_test_mses, s, log)
  | examples :: rest =>
      let '(mse, s') := test_on_batch examples s in
      test_batches epoch rest s' (log ++ [TmTestOnBatch epoch])
                   (epoch_test_mses ++ [mse])
  end.

(** One epoch: training, testing, and the decision to save the weights.
    The progress bars, the metrics sent to the logger and the training
    MSE are left out. *)
Definition run_epoch (fuel : nat) (params : Params)
  (train_loader test_loader : list Tensor) (epoch : nat)
  (best_test_mse : Float) (s : Store) (log : list tm_event)
  : outcome Float * Store * list tm_event :=
  match train_batches fuel params epoch train_loader s log with
  | (Ok _, s1, log1) =>
      let '(epoch_test_mses, s2, log2) := test_batches epoch test_loader s1 log1 [] in
      let epoch_test_mse := fmean epoch_test_mses in
      if save_intermediate_results params
         && (save_results_every_n_epochs params =? 0)
      then (Raise ZeroDivisionError, s2, log2)
      else
        let should_save_intermediate_results :=
          save_intermediate_results params
          && ((Z.of_nat epoch + 1) mod save_results_every_n_epochs params =? 0) in
        let should_save_best_results :=
          save_best_results params && flt epoch_test_mse best_test_mse in
        let best_test_mse := py_min2 best_test_mse epoch_test_mse in
        let log3 :=
          if should_save_intermediate_results || should_save_best_results
          then log2 ++ [TmSaveWeights (Z.of_nat epoch + 1) should_save_best_results]
          else log2 in
        (Ok best_test_mse, s2, log3)
  | (Raise e, s1, log1) => (Raise e, s1, log1)
  | (OutOfFuel, s1, log1) => (OutOfFuel, s1, log1)
  end.

(** [for epoch in tepoch], for the [n] epochs from [epoch] on. *)
Fixpoint run_epochs (fuel : nat) (params : Params)
  (train_loader test_loader : list Tensor) (n : nat) (epoch : nat)
  (best_test_mse : Float) (s : Store) (log : list tm_event)
  : outcome Float * Store * list tm_event :=
  match n with
  | O => (Ok best_test_mse, s, log)
  | S n' =>
      match run_epoch fuel params train_loader test_loader epoch
                      best_test_mse s log with
      | (Ok best, s', log') =>
          run_epochs fuel params train_loader test_loader n' (S epoch) best s' log'
      | r => r
      end
  end.

(** [train_model], up to the end of the epochs; the visualisation of the
    best epoch that follows is left out.  The loaders stand for
    [get_data_loaders(params)], the returned float for [best_test_mse]. *)
Definition train_model (fuel : nat) (model : PCDecoder) (params : Params)
  (train_loader test_loader : list Tensor)
  : outcome Float * PCDecoder * list tm_event :=
  let entered := pxu_train_enter (zeros_batch params) model in
  let log := [TmInitForward] in
  match select_optimizer "optimizer_x" (optimizer_x params) with
  | Raise e => (Raise e, pxu_train_exit entered, log)
  | OutOfFuel => (OutOfFuel, pxu_train_exit entered, log)
  | Ok rule_x =>
      let optim_x := new_optim rule_x XParameters params entered in
      let log := log ++ [TmNewOptim XParameters rule_x] in
      match select_optimizer "optimizer_w" (optimizer_w params) with
      | Raise e => (Raise e, pxu_train_exit entered, log)
      | OutOfFuel => (OutOfFuel, pxu_train_exit entered, log)
      | Ok rule_w =>
          let optim_w := new_optim rule_w WParameters params entered in
          let log := log ++ [TmNewOptim WParameters rule_w; TmGetDataLoaders] in
          let s := mkStore (pxu_train_exit entered) optim_x optim_w [] in
          let '(r, s', log') :=
            run_epochs fuel params train_loader test_loader
                       (Z.to_nat (epochs params)) O finf s log in
          (r, Training.model s', log')
      end
  end.

(** The steps that compute on a batch. *)
Definition is_batch_event (e : tm_event) : bool :=
  match e with
  | TmTrainOnBatch _ | TmTestOnBatch _ => true
  | _ => false
  end.

Definition known_optimizer (name : string) : bool :=
  String.eqb name "sgd" || String.eqb name "adamw".

(** The message of the [ValueError]: the activity optimizer is looked at
    first. *)
Definition unknown_optimizer_message (params : Params) : string :=
  if known_optimizer (optimizer_x params)
  then "Unknown optimizer_w: " ++ optimizer_w params
  else "Unknown optimizer_x: " ++ optimizer_x params.

Lemma select_optimizer_unknown (field name : string) :
  known_optimizer name = false ->
  select_optimizer field name = Raise (ValueError ("Unknown " ++ field ++ ": " ++ name)).
Proof.
  unfold known_optimizer, select_optimizer. intros H.
  apply orb_false_iff in H as [-> ->]. reflexivity.
Qed.

Lemma select_optimizer_known (field name : string) :
  known_optimizer name = true ->
  exists rule, select_optimizer field name = Ok rule.
Proof.
  unfold known_optimizer, select_optimizer. intros H.
  destruct (String.eqb name "sgd"); [eauto|].
  destruct (String.eqb name "adamw"); [eauto|discriminate].
Qed.

(** An unknown optimizer name makes [train_model] raise [ValueError]
    before any batch is trained or tested on. *)
Lemma train_model_unknown_optimizer (fuel : nat) (model : PCDecoder)
  (params : Params) (train_loader test_loader : list Tensor) :
  known_optimizer (optimizer_x params) && known_optimizer (optimizer_w params)
    = false ->
  exists m log,
    train_model fuel model params train_loader test_loader
      = (Raise (ValueError (unknown_optimizer_message params)), m, log) /\
    List.filter is_batch_event log = [].
Proof.
  intros H. unfold train_model, unknown_optimizer_message.
  destruct (known_optimizer (optimizer_x params)) eqn:Hx.
  - destruct (select_optimizer_known "optimizer_x" _ Hx) as [rule ->].
    cbn in H. rewrite (select_optimizer_unknown "optimizer_w" _ H).
    eexists _, _. split; reflexivity.
  - rewrite (select_optimizer_unknown "optimizer_x" _ Hx).
    eexists _, _. split; reflexivity.
Qed.

End TrainModel.

End Training.

(* ===================================================================== *)
(** * examples/workshop/SkipErr/cifar10/skip_error.py                     *)
(* ===================================================================== *)

Module SkipErr.

Inductive optim_w_rule : Type :=
| RuleAdamW
| RuleSgd.

(** What [run_experiment] calls: the set-up of data and model, the
    optimizers, one epoch of [train], and [eval]; [World] holds everything
    these mutate, [Acc] is the type of the mean test accuracy (a float). *)
Class Experiment : Type := {
  World : Type;
  Acc : Type;
  Beta : Type;
  nan : Acc;
  isnan : Acc -> bool;
  acc_lt : Acc -> Acc -> bool;
  acc_ge : Acc -> Acc -> bool;
  setup : World -> World;
  new_optim_h : World -> World;
  new_optim_w : optim_w_rule -> World -> World;
  annealed_beta : Beta -> nat -> Beta;
  train : Beta -> World -> World;
  eval : World -> Acc * World }.

Section RunExperiment.

Context {E : Experiment}.

(** The steps of [run_experiment], in the order they are made (ghost
    state); an evaluation is recorded with the accuracy it returned. *)
Inductive event : Type :=
| SeSetup
| SeNewOptimH
| SeNewOptimW (rule : optim_w_rule)
| SeTrain (epoch : nat)
| SeEval (epoch : nat) (mean_acc : Acc)
| SeWarnDiverged.

(** The arguments of [run_experiment] that decide its control flow. *)
Record Config : Type := mkConfig {
  optim_w_name : string;
  epochs : Z;
  beta : Beta;
  beta_annealing : bool;
  has_checkpoint_dir : bool }.

(** Python's [min] of a list: the first of its least elements; [None]
    stands for the error on an empty list. *)
Definition py_min (l : list Acc) : option Acc :=
  match l with
  | [] => None
  | x :: rest => Some (fold_left (fun best y => if acc_lt y best then y else best) rest x)
  end.

(** [for epoch in range(epochs)], for the [n] epochs from [epoch] on; the
    [break] on a NaN accuracy ends the loop. *)
Fixpoint epoch_loop (cfg : Config) (n : nat) (epoch : nat) (test_acc : list Acc)
  (best_acc : option Acc) (w : World) (log : list event)
  : list Acc * option Acc * World * list event :=
  match n with
  | O => (test_acc, best_acc, w, log)
  | S n' =>
      let effective_beta :=
        if beta_annealing cfg then annealed_beta (beta cfg) epoch else beta cfg in
      let w1 := train effective_beta w in
      let '(mean_acc, w2) := eval w1 in
      let log := log ++ [SeTrain epoch; SeEval epoch mean_acc] in
      if isnan mean_acc then
        (test_acc, best_acc, w2, log ++ [SeWarnDiverged])
      else
        let test_acc := test_acc ++ [mean_acc] in
        let best_acc :=
          if (epochs cfg >? 1) && has_checkpoint_dir cfg
             && match best_acc with
                | None => true
                | Some b => acc_ge mean_acc b
                end
          then Some mean_acc else best_acc in
        epoch_loop cfg n' (S epoch) test_acc best_acc w2 log
  end.

Definition select_optim_w (name : string) : outcome optim_w_rule :=
  if String.eqb name "adamw" then Ok RuleAdamW
  else if String.eqb name "sgd" then Ok RuleSgd
  else Raise (ValueError ("Unknown optimizer name: " ++ name)).

Definition run_experiment (cfg : Config) (w : World)
  : outcome Acc * World * list event :=
  let w := new_optim_h (setup w) in
  let log := [SeSetup; SeNewOptimH] in
  match select_optim_w (optim_w_name cfg) with
  | Raise e => (Raise e, w, log)
  | OutOfFuel => (OutOfFuel, w, log)
  | Ok rule =>
      let w := new_optim_w rule w in
      let log := log ++ [SeNewOptimW rule] in
      let '(test_acc, best_acc, w', log') :=
        epoch_loop cfg (Z.to_nat (epochs cfg)) O [] None w log in
      (Ok (match py_min test_acc with Some m => m | None => nan end), w', log')
  end.

(** The steps that train or evaluate. *)
Definition is_epoch_event (e : event) : bool :=
  match e with
  | SeTrain _ | SeEval _ _ => true
  | _ => false
  end.

Definition known_optim_w (name : string) : bool :=
  String.eqb name "adamw" || String.eqb name "sgd".

(** The events of the epochs from [epoch] on whose accuracies were
    [valid], followed, when the run diverged, by those of the epoch whose
    accuracy [a] made it stop. *)
Fixpoint epoch_events (epoch : nat) (valid : list Acc) (diverged : option Acc)
  : list event :=
  match valid with
  | a :: rest => SeTrain epoch :: SeEval epoch a :: epoch_events (S epoch) rest diverged
  | [] =>
      match diverged with
      | Some a => [SeTrain epoch; SeEval epoch a; SeWarnDiverged]
      | None => []
      end
  end.

Lemma select_optim_w_unknown (name : string) :
  known_optim_w name = false ->
  select_optim_w name = Raise (ValueError ("Unknown optimizer name: " ++ name)).
Proof.
  unfold known_optim_w, select_optim_w. intros H.
  apply orb_false_iff in H as [-> ->]. reflexivity.
Qed.

Lemma select_optim_w_known (name : string) :
  known_optim_w name = true -> exists rule, select_optim_w name = Ok rule.
Proof.
  unfold known_optim_w, select_optim_w. intros H.
  destruct (String.eqb name "adamw"); [eauto|].
  destruct (String.eqb name "sgd"); [eauto|discriminate].
Qed.

Lemma run_experiment_unknown_optimizer (cfg : Config) (w : World) :
  known_optim_w (optim_w_name cfg) = false ->
  exists w' log,
    run_experiment cfg w
      = (Raise (ValueError ("Unknown optimizer name: " ++ optim_w_name cfg)), w', log) /\
    List.filter is_epoch_event log = [].
Proof.
  intros H. unfold run_experiment. rewrite (select_optim_w_unknown _ H).
  eexists _, _. split; reflexivity.
Qed.

Lemma py_min_In (l : list Acc) (m : Acc) : py_min l = Some m -> List.In m l.
Proof.
  destruct l as [|x rest]; [discriminate|]. cbn [py_min]. intros [= <-].
  revert x. induction rest as [|y rest IH]; intros x; cbn [fold_left].
  - left. reflexivity.
  - destruct (IH (if acc_lt y x then y else x)) as [H|H].
    + destruct (acc_lt y x); [right; left; congruence | left; congruence].
    + right. right. exact H.
Qed.

(** The loop appends the accuracies of the epochs before the first NaN
    one, none of them NaN, and stops there. *)
Lemma epoch_loop_spec (cfg : Config) (n : nat) :
  forall (epoch : nat) (test_acc : list Acc) (best_acc : option Acc)
         (w : World) (log : list event),
  exists (valid : list Acc) (diverged : option Acc) (best' : option Acc)
         (w' : World),
    epoch_loop cfg n epoch test_acc best_acc w log
      = (test_acc ++ valid, best', w',
         log ++ epoch_events epoch valid diverged) /\
    Forall (fun a => isnan a = false) valid /\
    (diverged = None -> length valid = n) /\
    (forall a, diverged = Some a -> isnan a = true /\ (length valid < n)%nat).
Proof.
  induction n as [|n IH]; intros epoch test_acc best_acc w log.
  - exists [], None, best_acc, w. cbn. rewrite !app_nil_r.
    repeat split; [constructor | discriminate | discriminate].
  - cbn [epoch_loop].
    destruct (eval _) as [mean_acc w2].
    destruct (isnan mean_acc) eqn:Hnan.
    + exists [], (Some mean_acc), best_acc, w2. cbn [epoch_events length].
      rewrite app_nil_r, <- app_assoc.
      split; [reflexivity|]. split; [constructor|].
      split; [discriminate|]. intros a [= <-]. split; [exact Hnan | lia].
    + match goal with
      | |- context [epoch_loop cfg n (S epoch) ?ta ?ba w2 ?lg] =>
          destruct (IH (S epoch) ta ba w2 lg)
            as (valid & diverged & best' & w' & Hloop & Hvalid & Hfull & Hdiv)
      end.
      exists (mean_acc :: valid), diverged, best', w'.
      rewrite Hloop. split.
      * rewrite <- !app_assoc. reflexivity.
      * split; [constructor; assumption|].
        split; [intros Hd; cbn [length]; rewrite (Hfull Hd); reflexivity|].
        intros a Hd. destruct (Hdiv a Hd) as [Ha Hlen].
        split; [exact Ha | cbn [length]; lia].
Qed.


End RunExperiment.

(** ** A scripted instance: [eval] reads the next accuracy off a list;
    [None] is NaN *)

#[export] Instance scripted : Experiment := {|
  World := list (option Z);
  Acc := option Z;
  Beta := unit;
  nan := None;
  isnan := fun a => match a with None => true | Some _ => false end;
  acc_lt := fun a b => match a, b with Some x, Some y => x <? y | _, _ => false end;
  acc_ge := fun a b => match a, b with Some x, Some y => y <=? x | _, _ => false end;
  setup := fun w => w;
  new_optim_h := fun w => w;
  new_optim_w := fun _ w => w;
  annealed_beta := fun b _ => b;
  train := fun _ w => w;
  eval := fun w => match w with [] => (None, []) | a :: rest => (a, rest) end |}.

Definition scripted_cfg (name : string) (epochs : Z) : Config :=
  mkConfig name epochs tt false true.

(** Three healthy epochs: the least accuracy is returned. *)
Example scripted_healthy_run :
  run_experiment (scripted_cfg "sgd" 3) [Some 70; Some 60; Some 80]
  = (Ok (Some 60), [],
     [SeSetup; SeNewOptimH; SeNewOptimW RuleSgd;
      SeTrain 0; SeEval 0 (Some 70); SeTrain 1; SeEval 1 (Some 60);
      SeTrain 2; SeEval 2 (Some 80)]).
Proof. reflexivity. Qed.

(** NaN in the first epoch: NaN is returned. *)
Example scripted_diverged_at_once :
  fst (fst (run_experiment (scripted_cfg "sgd" 3) [None; Some 60; Some 80]))
  = Ok None.
Proof. reflexivity. Qed.



End SkipErr.

(* ===================================================================== *)
(** * Weight serialization                                                *)
(* ===================================================================== *)

Module Weights.

(** The role of a leaf of the parameter tree. *)
Inductive role : Type :=
| ACTIVITY
| WEIGHT.

Definition role_eqb (r r' : role) : bool :=
  match r, r' with
  | ACTIVITY, ACTIVITY | WEIGHT, WEIGHT => true
  | _, _ => false
  end.

Section Serialization.

Variables Tensor OptimizerState Input Output : Type.

(** Modelled from the spec: the parameter tree of a model
    ([pc_decoder/model.py], where [PCDecoder] and its [save_weights] and
    [load_weights] are defined, is not among the sources).  Every leaf has
    one role, fixed at construction, and holds a tensor. *)
Inductive param_tree : Type :=
| PLeaf (r : role) (value : Tensor)
| PNode (children : list param_tree).

(** Modelled from the spec: a model owns its parameter tree; the optimizer
    state is kept apart from it. *)
Record Model : Type := mkModel {
  parameters : param_tree;
  optimizer_state : OptimizerState }.

(** The values of the leaves of role [r], from left to right. *)
Fixpoint leaves_of (r : role) (t : param_tree) : list Tensor :=
  match t with
  | PLeaf r' v => if role_eqb r r' then [v] else []
  | PNode cs => concat (map (leaves_of r) cs)
  end.

(** Modelled from the spec: the forward pass is a pure function of the
    weights, the activities and the input, that is, of the parameter tree
    and the input. *)
Variable forward_fn : param_tree -> Input -> Output.

Definition forward (m : Model) (x : Input) : Output :=
  forward_fn (parameters m) x.

(** Modelled from the spec: [save_weights(path)] persists exactly the
    WEIGHT-role leaves of the parameter tree.  The files are a map from
    paths to stored blobs. *)
Definition save_weights (path : string) (m : Model)
  (fs : gmap string (list Tensor)) : gmap string (list Tensor) :=
  <[path := leaves_of WEIGHT (parameters m)]> fs.

(** Puts the tensors of a blob back on the WEIGHT leaves, from left to
    right; returns the unused rest of the blob, [None] when it is too
    short. *)
Fixpoint restore (t : param_tree) (blob : list Tensor)
  : option (param_tree * list Tensor) :=
  match t with
  | PLeaf WEIGHT _ =>
      match blob with
      | v :: rest => Some (PLeaf WEIGHT v, rest)
      | [] => None
      end
  | PLeaf ACTIVITY v => Some (PLeaf ACTIVITY v, blob)
  | PNode cs =>
      let fix restore_all (cs : list param_tree) (blob : list Tensor)
        : option (list param_tree * list Tensor) :=
        match cs with
        | [] => Some ([], blob)
        | c :: cs' =>
            match restore c blob with
            | None => None
            | Some (c', blob') =>
                match restore_all cs' blob' with
                | None => None
                | Some (cs'', blob'') => Some (c' :: cs'', blob'')
                end
            end
        end in
      match restore_all cs blob with
      | None => None
      | Some (cs', rest) => Some (PNode cs', rest)
      end
  end.

(** The same on a list of trees. *)
Fixpoint restore_all (cs : list param_tree) (blob : list Tensor)
  : option (list param_tree * list Tensor) :=
  match cs with
  | [] => Some ([], blob)
  | c :: cs' =>
      match restore c blob with
      | None => None
      | Some (c', blob') =>
          match restore_all cs' blob' with
          | None => None
          | Some (cs'', blob'') => Some (c' :: cs'', blob'')
          end
      end
  end.

(** Modelled from the spec: [load_weights(path)] restores the WEIGHT-role
    leaves from the blob and touches neither the activities nor the
    optimizer state; a missing or ill-sized blob is a [StorageError]. *)
Definition load_weights (path : string) (m : Model)
  (fs : gmap string (list Tensor)) : outcome Model :=
  match fs !! path with
  | None => Raise (StorageError path)
  | Some blob =>
      match restore (parameters m) blob with
      | Some (t, []) => Ok (mkModel t (optimizer_state m))
      | _ => Raise (StorageError path)
      end
  end.

(** Two parameter trees of identical topology: the same shape and the
    same roles, whatever the tensors. *)
Inductive same_topology : param_tree -> param_tree -> Prop :=
| st_leaf r v v' : same_topology (PLeaf r v) (PLeaf r v')
| st_node cs cs' :
    Forall2 same_topology cs cs' -> same_topology (PNode cs) (PNode cs').

Lemma restore_node (cs : list param_tree) (blob : list Tensor) :
  restore (PNode cs) blob =
  match restore_all cs blob with
  | None => None
  | Some (cs', rest) => Some (PNode cs', rest)
  end.
Proof.
  cbn [restore].
  match goal with
  | |- match ?f cs blob with _ => _ end = _ =>
      replace (f cs blob) with (restore_all cs blob); [reflexivity|]
  end.
  revert blob. induction cs as [|c cs IH]; intros blob; [reflexivity|].
  cbn [restore_all]. destruct (restore c blob) as [[c' blob']|]; [|reflexivity].
  rewrite IH. reflexivity.
Qed.

Lemma same_topology_leaves_length (r : role) :
  forall t t', same_topology t t' ->
    length (leaves_of r t) = length (leaves_of r t').
Proof.
  fix IH 3. intros t t' [r' v v' | cs cs' Hcs].
  - cbn. destruct (role_eqb r r'); reflexivity.
  - cbn [leaves_of]. induction Hcs as [|c c' cs cs' Hc _ IHcs]; [reflexivity|].
    cbn [map concat]. rewrite !length_app, IHcs, (IH _ _ Hc). reflexivity.
Qed.

(** Restoring the weights of [t] into a tree of the same topology that
    holds the activities of [t] gives back [t]. *)
Lemma restore_same_topology :
  forall t t', same_topology t t' ->
    leaves_of ACTIVITY t' = leaves_of ACTIVITY t ->
    forall rest, restore t' (leaves_of WEIGHT t ++ rest) = Some (t, rest).
Proof.
  fix IH 3. intros t t' [r v v' | cs cs' Hcs] Hact rest.
  - destruct r; cbn in *; [congruence | reflexivity].
  - rewrite restore_node. cbn [leaves_of] in *.
    enough (restore_all cs' (concat (map (leaves_of WEIGHT) cs) ++ rest)
            = Some (cs, rest)) as -> by reflexivity.
    revert rest.
    induction Hcs as [|c c' cs cs' Hc Hcs' IHcs]; intros rest; [reflexivity|].
    cbn [map concat] in *.
    apply app_inj_1 in Hact as [Hc_act Hcs_act];
      [|symmetry; apply same_topology_leaves_length; exact Hc].
    cbn [restore_all]. rewrite <- app_assoc, (IH _ _ Hc Hc_act).
    rewrite (IHcs Hcs_act). reflexivity.
Qed.

(** C6.  Saving the weights of [m] and loading them into a fresh model
    of identical topology, initialised with the same activities, gives a
    model with the same forward-pass output on every input; the stored
    blob is exactly the list of the WEIGHT-role leaves of [m], and the
    optimizer state of the fresh model is left as it was. *)
Theorem save_load_round_trip (path : string) (m fresh : Model)
  (fs : gmap string (list Tensor)) (x : Input) :
  same_topology (parameters m) (parameters fresh) ->
  leaves_of ACTIVITY (parameters fresh) = leaves_of ACTIVITY (parameters m) ->
  save_weights path m fs !! path = Some (leaves_of WEIGHT (parameters m)) /\
  exists loaded : Model,
    load_weights path fresh (save_weights path m fs) = Ok loaded /\
    forward loaded x = forward m x /\
    optimizer_state loaded = optimizer_state fresh.
Proof.
  intros Htop Hact. unfold save_weights, load_weights.
  rewrite lookup_insert_eq. split; [reflexivity|].
  pose proof (restore_same_topology _ _ Htop Hact []) as Hr.
  rewrite app_nil_r in Hr. rewrite Hr.
  eexists. split; [reflexivity|]. split; reflexivity.
Qed.

End Serialization.

Arguments PLeaf {Tensor} r value.
Arguments PNode {Tensor} children.
Arguments mkModel {Tensor OptimizerState} parameters optimizer_state.
Arguments parameters {Tensor OptimizerState} m.
Arguments optimizer_state {Tensor OptimizerState} m.
Arguments leaves_of {Tensor} r t.
Arguments forward {Tensor OptimizerState Input Output} forward_fn m x.
Arguments save_weights {Tensor OptimizerState} path m fs.
Arguments load_weights {Tensor OptimizerState} path m fs.
Arguments same_topology {Tensor}.

(** A decoder with one layer (weight and bias) and two activity nodes. *)
Definition trained : Model Z nat :=
  mkModel (PNode [PNode [PLeaf WEIGHT 3; PLeaf WEIGHT 4];
                  PLeaf ACTIVITY 0; PLeaf ACTIVITY 0]) 17%nat.

Definition fresh_model : Model Z nat :=
  mkModel (PNode [PNode [PLeaf WEIGHT 1; PLeaf WEIGHT 1];
                  PLeaf ACTIVITY 0; PLeaf ACTIVITY 0]) 0%nat.

(** A forward pass: weight times input plus bias plus the activities. *)
Definition toy_forward (t : param_tree Z) (x : Z) : Z :=
  match leaves_of WEIGHT t with
  | [w; b] => w * x + b + fold_right Z.add 0 (leaves_of ACTIVITY t)
  | _ => 0
  end.

Example fresh_differs : forward toy_forward fresh_model 5 <> forward toy_forward trained 5.
Proof. discriminate. Qed.

Example stored_blob :
  save_weights "epochs_1" trained ∅ !! "epochs_1" = Some [3; 4].
Proof. reflexivity. Qed.

(** Witness of [save_load_round_trip]. *)
Lemma save_load_round_trip_witness :
  same_topology (parameters trained) (parameters fresh_model) /\
  leaves_of ACTIVITY (parameters fresh_model)
    = leaves_of ACTIVITY (parameters trained) /\
  (save_weights "epochs_1" trained ∅ !! "epochs_1"
     = Some (leaves_of WEIGHT (parameters trained)) /\
   exists loaded : Model Z nat,
     load_weights "epochs_1" fresh_model (save_weights "epochs_1" trained ∅)
       = Ok loaded /\
     forward toy_forward loaded 5 = forward toy_forward trained 5 /\
     optimizer_state loaded = optimizer_state fresh_model).
Proof.
  assert (H1 : same_topology (parameters trained) (parameters fresh_model)).
  { repeat constructor. }
  assert (H2 : leaves_of ACTIVITY (parameters fresh_model)
               = leaves_of ACTIVITY (parameters trained)) by reflexivity.
  split; [exact H1|]. split; [exact H2|].
  exact (save_load_round_trip Z nat Z Z toy_forward "epochs_1" trained
           fresh_model ∅ 5 H1 H2).
Defined.

End Weights.

(* ===================================================================== *)
(** * A small instance, to run [train_on_batch] on concrete inputs        *)
(* ===================================================================== *)

Module Toy.

Import Training.

(** Floats and tensors are integers. *)
#[export] Instance toy_arrays : Arrays := {|
  Float := Z;
  Tensor := Z;
  Grads := Z;
  Optim := nat;
  Layers := Z;
  NodeData := unit;
  f0 := 0;
  finf := 1000000;
  fsub := Z.sub;
  fabs := Z.abs;
  fgt := Z.gtb;
  flt := Z.ltb;
  fsum := fun l => fold_right Z.add 0 l;
  fmean := fun l => fold_right Z.add 0 l / Z.of_nat (length l) |}.

(** The model has one weight, [layers]; the gradient is always 2, and an
    optimizer call lowers the weight by the gradient and counts its calls. *)
#[export] Instance toy_pcax : Pcax := {|
  pxu_train_enter := fun examples m =>
    mkPCDecoder (map (fun n => mkPCNode examples (node_data n)) (pc_nodes m))
                (saved_pc_states m) (layers m);
  pxu_train_exit := fun m => m;
  pxu_step_enter := fun m => m;
  pxu_step_exit := fun m => m;
  init_state := fun _ => O;
  clear_cache := fun m => m;
  grad_and_values := fun loss examples m =>
    let '(e, m') := loss examples m in ((2, e), m');
  optim_call := fun o g m =>
    (mkPCDecoder (pc_nodes m) (saved_pc_states m) (layers m - g), S o);
  energy := fun n => [node_x n];
  zeros_row := fun n => replicate n 0;
  feed_forward_predict := fun m => layers m;
  squared_error := fun p e => [(p - e) * (p - e)] |}.

(** An energy that never changes, and one that follows the weight. *)
Definition plateau_loss : Loss := fun _ m => ([7], m).

Definition descending_loss : Loss := fun _ m => ([layers m], m).

Definition toy_model : PCDecoder :=
  mkPCDecoder [mkPCNode 0 tt; mkPCNode 0 tt; mkPCNode 0 tt] [40; 50] 10.

Definition toy_store : Store := mkStore toy_model O O [].

Definition toy_params (mode : string) (T Tx Tw : Z) (preserve : bool) : Params :=
  mkParams T Tx Tw mode 1 true preserve "sgd" "adamw" 2 false 1 true.

Definition toy_state : _LoopState := mk_LoopState 0 0 0 0 0 [[0; 0; 0]; [0; 0; 0]].

(** [pc] mode, [T = 3]: three activity updates, then one weight update. *)
Example toy_pc_run :
  fst (train_on_batch 10 1 descending_loss (toy_params "pc" 3 0 0 false) toy_store)
  = Ok (mkTrainOnBatchResult 1
          [[1; 1; 1]; [1; 1; 1]; [1; 1; 1]; [1; 1; 1]] 4 3 1).
Proof. vm_compute. reflexivity. Qed.

(** [efficient_ppc], [T = 5], [T_min_w_updates = 1], [T_min_x_updates = 2],
    flat energy: inference stops after two calls, three weight updates
    follow. *)
Example toy_efficient_ppc_run :
  summary (fst (train_on_batch 10 1 plateau_loss
                  (toy_params "efficient_ppc" 5 2 1 false) toy_store))
  = Some (5, 2, 3).
Proof. vm_compute. reflexivity. Qed.

(** An index past the last row: the write is dropped. *)
Example toy_at_set_dropped : at_set [[1]; [2]] 2 [9] = [[1]; [2]].
Proof. reflexivity. Qed.

Example toy_at_set_negative : at_set [[1]; [2]] (-1) [9] = [[1]; [9]].
Proof. reflexivity. Qed.

(** Witness of [efficient_ppc_loop_follows_predicate]: the inference loop
    of the run above, from the initial state. *)
Lemma efficient_ppc_loop_follows_predicate_witness :
  let params := toy_params "efficient_ppc" 5 2 1 false in
  pc_mode params = "efficient_ppc" /\
  T params - T_min_w_updates params - iter_index toy_state <= Z.of_nat 10 /\
  ((forall st, t_loop_should_continue params st = spec_continue params (fst st)) /\
   exists (n : nat) (state' : _LoopState) (s' : Store),
     t_loop 10 plateau_loss params (toy_state, 1) toy_store
       = (Some (state', 1), s') /\
     iterate n (_build_loop_body plateau_loss true false) (toy_state, 1) toy_store
       = ((state', 1), s') /\
     spec_continue params state' = false /\
     forall k : nat, (k < n)%nat ->
       spec_continue params
         (fst (fst (iterate k (_build_loop_body plateau_loss true false)
                            (toy_state, 1) toy_store))) = true).
Proof.
  cbv zeta.
  assert (H1 : pc_mode (toy_params "efficient_ppc" 5 2 1 false) = "efficient_ppc")
    by reflexivity.
  assert (H2 : T (toy_params "efficient_ppc" 5 2 1 false)
               - T_min_w_updates (toy_params "efficient_ppc" 5 2 1 false)
               - iter_index toy_state <= Z.of_nat 10)
    by (vm_compute; discriminate).
  split; [exact H1|]. split; [exact H2|].
  exact (efficient_ppc_loop_follows_predicate 10 plateau_loss
           (toy_params "efficient_ppc" 5 2 1 false) toy_state 1 toy_store H1 H2).
Defined.

(** C2, counterexample.  [efficient_ppc] with [T = 5], [T_min_w_updates = 3],
    [T_min_x_updates = 4] and a flat energy: the inference loop ends after
    two calls of the body, fewer than [T_min_x_updates]. *)
Lemma efficient_ppc_dwell_counterexample :
  let params := toy_params "efficient_ppc" 5 4 3 false in
  let run := train_on_batch 10 1 plateau_loss params toy_store in
  pc_mode params = "efficient_ppc" /\
  summary (fst run) = Some (5, 2, 3) /\
  2 < T_min_x_updates params.
Proof. cbv zeta. split; [reflexivity|]. split; [vm_compute; reflexivity|]. reflexivity. Qed.

(** Witness of [efficient_ppc_budget_and_dwell], on the same input. *)
Lemma efficient_ppc_budget_and_dwell_witness :
  let params := toy_params "efficient_ppc" 5 4 3 false in
  pc_mode params = "efficient_ppc" /\
  0 <= T params /\
  0 <= T_min_w_updates params /\
  T params <= Z.of_nat 10 /\
  exists (r : TrainOnBatchResult) (s' : Store),
    train_on_batch 10 1 plateau_loss params toy_store = (Ok r, s') /\
    iterations_done r <= T params /\
    Z.min (T_min_x_updates params) (T params - T_min_w_updates params)
      <= res_num_x_updates r.
Proof.
  cbv zeta.
  assert (H1 : pc_mode (toy_params "efficient_ppc" 5 4 3 false) = "efficient_ppc")
    by reflexivity.
  assert (H2 : 0 <= T (toy_params "efficient_ppc" 5 4 3 false))
    by (vm_compute; discriminate).
  assert (H3 : 0 <= T_min_w_updates (toy_params "efficient_ppc" 5 4 3 false))
    by (vm_compute; discriminate).
  assert (H4 : T (toy_params "efficient_ppc" 5 4 3 false) <= Z.of_nat 10)
    by (vm_compute; discriminate).
  split; [exact H1|]. split; [exact H2|]. split; [exact H3|]. split; [exact H4|].
  exact (efficient_ppc_budget_and_dwell 10 1 plateau_loss
           (toy_params "efficient_ppc" 5 4 3 false) toy_store H1 H2 H3 H4).
Defined.


(** C9, counterexample.  [efficient_ppc] with [T = 5] and
    [T_min_w_updates = -2]: the inference loop is bounded by
    [T - T_min_w_updates = 7], the buffer has [T = 5] rows, and the body
    runs with [iter_index = 5]; [iterations_done] is 7. *)
Lemma history_write_out_of_bounds_counterexample :
  let params := toy_params "efficient_ppc" 5 10 (-2) false in
  let run := train_on_batch 10 1 plateau_loss params toy_store in
  pc_mode params = "efficient_ppc" /\
  total_iterations params = 5 /\
  rows (fst run) = Some 5%nat /\
  summary (fst run) = Some (7, 7, 0) /\
  List.In (EvSetEnergies 5 5) (events (snd run)).
Proof.
  cbv zeta. split; [reflexivity|]. split; [reflexivity|].
  split; [vm_compute; reflexivity|]. split; [vm_compute; reflexivity|].
  vm_compute. do 25 right. left. reflexivity.
Qed.

(** Witness of [history_writes_in_bounds]: [ppc] mode with [T = 4]. *)
Lemma history_writes_in_bounds_witness :
  let params := toy_params "ppc" 4 0 0 false in
  0 <= total_iterations params /\
  (pc_mode params = "efficient_ppc" -> 0 <= T_min_w_updates params) /\
  total_iterations params <= Z.of_nat 10 /\
  exists (r : TrainOnBatchResult) (s' : Store) (new : list event),
    train_on_batch 10 1 descending_loss params toy_store = (Ok r, s') /\
    events s' = events toy_store ++ new /\
    Forall (event_in_bounds (total_iterations params)) new /\
    length (energies r) = Z.to_nat (total_iterations params) /\
    iterations_done r <= total_iterations params.
Proof.
  cbv zeta.
  assert (H1 : 0 <= total_iterations (toy_params "ppc" 4 0 0 false))
    by (vm_compute; discriminate).
  assert (H2 : pc_mode (toy_params "ppc" 4 0 0 false) = "efficient_ppc" ->
               0 <= T_min_w_updates (toy_params "ppc" 4 0 0 false))
    by (intros _; vm_compute; discriminate).
  assert (H3 : total_iterations (toy_params "ppc" 4 0 0 false) <= Z.of_nat 10)
    by (vm_compute; discriminate).
  split; [exact H1|]. split; [exact H2|]. split; [exact H3|].
  exact (history_writes_in_bounds 10 1 descending_loss
           (toy_params "ppc" 4 0 0 false) toy_store H1 H2 H3).
Defined.

(** One call of the body on a two-row buffer: the energy before the update
    is 10, after it 8; row 0 receives the node energies. *)
Example toy_loop_body_call :
  _build_loop_body descending_loss true false (toy_state, 1) toy_store
  = ((mk_LoopState 1 1 0 10 8 [[0; 0; 0]; [0; 0; 0]], 1),
     mkStore (mkPCDecoder (pc_nodes toy_model) (saved_pc_states toy_model) 8)
             1%nat O
             [EvGradAndValues; EvOptimX; EvLoss; EvSetEnergies 0 2]).
Proof. reflexivity. Qed.

(** The switch off: every activity is what [pxu.train] set for the batch.
    The switch on: the nodes after the first take the saved states. *)
Example toy_prepare_without_preserve :
  map node_x (pc_nodes (model (snd (prepare_batch 1 (toy_params "pc" 3 0 0 false)
                                                  toy_store))))
  = [1; 1; 1].
Proof. reflexivity. Qed.

Example toy_prepare_with_preserve :
  map node_x (pc_nodes (model (snd (prepare_batch 1 (toy_params "pc" 3 0 0 true)
                                                  toy_store))))
  = [1; 40; 50].
Proof. reflexivity. Qed.

(** ** [train_model] on the instance *)

#[export] Instance toy_trainer : Trainer := {|
  zeros_batch := fun _ => 0;
  new_optim := fun _ _ _ _ => O;
  test_on_batch := fun examples s =>
    ((layers (model s) - examples) * (layers (model s) - examples), s);
  model_energy_loss := descending_loss |}.

Definition toy_params_optimizers (name_x name_w : string) : Params :=
  mkParams 3 0 0 "pc" 1 true false name_x name_w 2 false 1 true.

(** An unknown name for the weight optimizer: the optimizer of the
    activities has been built, no batch has been touched. *)
Example toy_train_model_unknown_optimizer :
  train_model 10 toy_model (toy_params_optimizers "sgd" "adam") [1; 2] [3]
  = (Raise (ValueError "Unknown optimizer_w: adam"), toy_model,
     [TmInitForward; TmNewOptim XParameters SgdWithDecay]).
Proof. reflexivity. Qed.

(** Known names: two epochs of two training batches and one test batch. *)
Example toy_train_model_run :
  snd (train_model 10 toy_model (toy_params_optimizers "sgd" "adamw") [1; 2] [3])
  = [TmInitForward; TmNewOptim XParameters SgdWithDecay;
     TmNewOptim WParameters AdamW; TmGetDataLoaders;
     TmTrainOnBatch 0; TmTrainOnBatch 0; TmTestOnBatch 0; TmSaveWeights 1 true;
     TmTrainOnBatch 1; TmTrainOnBatch 1; TmTestOnBatch 1].
Proof. vm_compute. reflexivity. Qed.

(** Witness of [loop_body_steps_in_order]: the call above. *)
Lemma loop_body_steps_in_order_witness :
  exists gradients prev m1 m2 m3 ox ow curr m5,
    grad_and_values descending_loss 1 (pxu_step_enter (model toy_store))
      = ((gradients, prev), m1) /\
    optim_call (optim_x toy_store) gradients m1 = (m2, ox) /\
    (m2, optim_w toy_store) = (m3, ow) /\
    descending_loss 1 (pxu_step_enter (pxu_step_exit m3)) = (curr, m5) /\
    let nodes_energies := map (fun x => fsum (energy x)) (pc_nodes m5) in
    let out := _build_loop_body descending_loss true false (toy_state, 1) toy_store in
    let state' := fst (fst out) in
    let s' := snd out in
    prev_energy state' = fsum prev /\
    curr_energy state' = fsum curr /\
    all_energies state'
      = at_set (all_energies toy_state) (iter_index toy_state) nodes_energies /\
    (0 <= iter_index toy_state < Z.of_nat (length (all_energies toy_state)) ->
     all_energies state' !! Z.to_nat (iter_index toy_state) = Some nodes_energies) /\
    iter_index state' = iter_index toy_state + 1 /\
    num_x_updates state' = num_x_updates toy_state + Z.b2z true /\
    num_w_updates state' = num_w_updates toy_state + Z.b2z false /\
    model s' = pxu_step_exit m5 /\ optim_x s' = ox /\ optim_w s' = ow /\
    events s' =
      events toy_store ++ [EvGradAndValues] ++ [EvOptimX] ++ []
      ++ [EvLoss;
          EvSetEnergies (iter_index toy_state) (length (all_energies toy_state))].
Proof.
  exact (loop_body_steps_in_order descending_loss true false toy_state 1 toy_store).
Defined.

(** Witness of [preserve_states_switch]: the switch on, two saved states,
    three nodes. *)
Lemma preserve_states_switch_witness :
  let params := toy_params "pc" 3 0 0 true in
  let entered := pxu_train_enter 1 (model toy_store) in
  let prepared := model (snd (prepare_batch 1 params toy_store)) in
  preserve_all_pc_states_between_batches params = true /\
  saved_pc_states entered <> [] /\
  length (pc_nodes prepared) = length (pc_nodes entered) /\
  pc_nodes prepared !! O = pc_nodes entered !! O /\
  (forall (i : nat) (state : Tensor) (pc_node : PCNode),
     saved_pc_states entered !! i = Some state ->
     pc_nodes entered !! S i = Some pc_node ->
     exists restored : PCNode,
       pc_nodes prepared !! S i = Some restored /\
       node_x restored = state /\
       node_data restored = node_data pc_node) /\
  (forall i : nat,
     (length (saved_pc_states entered) <= i)%nat ->
     pc_nodes prepared !! S i = pc_nodes entered !! S i) /\
  saved_pc_states prepared = saved_pc_states entered /\
  layers prepared = layers entered.
Proof.
  cbv zeta.
  destruct (preserve_states_switch (A := toy_arrays) (P := toy_pcax) 10 1
              descending_loss (toy_params "pc" 3 0 0 true) toy_store)
    as (_ & _ & _ & _ & _ & H).
  assert (H1 : preserve_all_pc_states_between_batches (toy_params "pc" 3 0 0 true)
               = true) by reflexivity.
  assert (H2 : saved_pc_states (pxu_train_enter 1 (model toy_store)) <> [])
    by discriminate.
  split; [exact H1|]. split; [exact H2|]. exact (H H1 H2).
Defined.

End Toy.

(* ===================================================================== *)
(** * Rejection of unknown optimizer names                                *)
(* ===================================================================== *)

Module Configuration.

Import Training SkipErr Toy.

(** C8.  An unknown optimizer name makes [train_model] and
    [run_experiment] raise [ValueError] where the optimizers are built:
    the steps made until then include no training or evaluation on a
    batch. *)
Theorem unknown_optimizer_rejected_at_construction
  {A : Arrays} {P : Pcax} {Tr : Trainer} {E : Experiment} :
  (forall (fuel : nat) (model : PCDecoder) (params : Params)
          (train_loader test_loader : list Tensor),
     known_optimizer (optimizer_x params) && known_optimizer (optimizer_w params)
       = false ->
     exists m log,
       train_model fuel model params train_loader test_loader
         = (Raise (ValueError (unknown_optimizer_message params)), m, log) /\
       List.filter is_batch_event log = []) /\
  (forall (cfg : Config) (w : World),
     known_optim_w (optim_w_name cfg) = false ->
     exists w' log,
       run_experiment cfg w
         = (Raise (ValueError ("Unknown optimizer name: " ++ optim_w_name cfg)),
            w', log) /\
       List.filter is_epoch_event log = []).
Proof.
  split.
  - intros fuel model params train_loader test_loader H.
    apply train_model_unknown_optimizer. exact H.
  - intros cfg w H. apply run_experiment_unknown_optimizer. exact H.
Qed.

(** Witness of [unknown_optimizer_rejected_at_construction]: the weight
    optimizer of [train_model] is called ["adam"], that of
    [run_experiment] ["rmsprop"]. *)
Lemma unknown_optimizer_rejected_at_construction_witness :
  let params := toy_params_optimizers "sgd" "adam" in
  let cfg := scripted_cfg "rmsprop" 3 in
  (known_optimizer (optimizer_x params) && known_optimizer (optimizer_w params)
     = false /\
   exists m log,
     train_model 10 toy_model params [1; 2] [3]
       = (Raise (ValueError (unknown_optimizer_message params)), m, log) /\
     List.filter is_batch_event log = []) /\
  (known_optim_w (optim_w_name cfg) = false /\
   exists w' log,
     run_experiment cfg [Some 50]
       = (Raise (ValueError ("Unknown optimizer name: " ++ optim_w_name cfg)),
          w', log) /\
     List.filter is_epoch_event log = []).
Proof.
  cbv zeta.
  destruct (unknown_optimizer_rejected_at_construction
              (A := toy_arrays) (P := toy_pcax) (Tr := toy_trainer) (E := scripted))
    as [H1 H2].
  split; (split; [reflexivity|]).
  - apply H1. reflexivity.
  - apply H2. reflexivity.
Defined.

End Configuration.

(* ===================================================================== *)
(** * An instance whose floats can be NaN                                 *)
(* ===================================================================== *)

Module ToyNaN.

Import Training.

(** Floats are optional integers, [None] standing for NaN: arithmetic on
    NaN gives NaN and every comparison with NaN is false. *)
Definition lift2 (f : Z -> Z -> Z) (a b : option Z) : option Z :=
  match a, b with
  | Some x, Some y => Some (f x y)
  | _, _ => None
  end.

#[export] Instance nan_arrays : Arrays := {|
  Float := option Z;
  Tensor := Z;
  Grads := Z;
  Optim := nat;
  Layers := Z;
  NodeData := unit;
  f0 := Some 0;
  finf := Some 1000000;
  fsub := lift2 Z.sub;
  fabs := option_map Z.abs;
  fgt := fun a b => match a, b with Some x, Some y => y <? x | _, _ => false end;
  flt := fun a b => match a, b with Some x, Some y => x <? y | _, _ => false end;
  fsum := fun l => fold_right (lift2 Z.add) (Some 0) l;
  fmean := fun l => fold_right (lift2 Z.add) (Some 0) l |}.

#[export] Instance nan_pcax : Pcax := {|
  pxu_train_enter := fun examples m =>
    mkPCDecoder (map (fun n => mkPCNode examples (node_data n)) (pc_nodes m))
                (saved_pc_states m) (layers m);
  pxu_train_exit := fun m => m;
  pxu_step_enter := fun m => m;
  pxu_step_exit := fun m => m;
  init_state := fun _ => O;
  clear_cache := fun m => m;
  grad_and_values := fun loss examples m =>
    let '(e, m') := loss examples m in ((2, e), m');
  optim_call := fun o g m =>
    (mkPCDecoder (pc_nodes m) (saved_pc_states m) (layers m - g), S o);
  energy := fun n => [Some (node_x n)];
  zeros_row := fun n => replicate n (Some 0);
  feed_forward_predict := fun m => layers m;
  squared_error := fun p e => [Some ((p - e) * (p - e))] |}.

(** An energy that becomes NaN once the weight is below 7, and one that
    settles at 8. *)
Definition diverging_loss : Loss :=
  fun _ m => ([if layers m <? 7 then None else Some (layers m)], m).

Definition settling_loss : Loss :=
  fun _ m => ([Some (Z.max 8 (layers m))], m).

Definition nan_store : Store :=
  mkStore (mkPCDecoder [mkPCNode 0 tt] [] 10) O O [].

Definition nan_params : Params :=
  mkParams 10 1 2 "efficient_ppc" (Some 1) true false "sgd" "adamw" 1 false 1 true.

(** [train_on_batch] tests no energy for finiteness: when the energy turns
    NaN at the second inference step, the test
    [|curr_energy - prev_energy| > threshold] is false as on a plateau, and
    the counters returned are those of a run whose energy settles at that
    step. *)
Example nan_energy_ends_inference_like_a_plateau :
  summary (fst (train_on_batch 20 1 diverging_loss nan_params nan_store))
    = Some (10, 2, 8) /\
  summary (fst (train_on_batch 20 1 settling_loss nan_params nan_store))
    = Some (10, 2, 8).
Proof. split; vm_compute; reflexivity. Qed.

End ToyNaN.

(* ===================================================================== *)
(** * Further results on [train_on_batch]                                 *)
(* ===================================================================== *)

Module TrainOnBatchFacts.

Import Training.

Section Facts.

Context {A : Arrays} {P : Pcax}.











End Facts.

End TrainOnBatchFacts.

(* ===================================================================== *)
(** * Further results on [train_model]                                    *)
(* ===================================================================== *)

Module TrainModelFacts.

Import Training.

Section Facts.

Context {A : Arrays} {P : Pcax} {Tr : Trainer}.

(** The batches of one epoch: every training batch, then every test
    batch. *)
Definition epoch_batch_events (n_train n_test : nat) (epoch : nat) : list tm_event :=
  replicate n_train (TmTrainOnBatch epoch) ++ replicate n_test (TmTestOnBatch epoch).

(** Whether the weights of an epoch are saved as intermediate results. *)
Definition intermediate_due (params : Params) (epoch : nat) : bool :=
  save_intermediate_results params
  && ((Z.of_nat epoch + 1) mod save_results_every_n_epochs params =? 0).

(** The steps of the epochs from [epoch] on; [dues] tells, epoch by epoch,
    whether the test MSE was a new best to be saved. *)
Fixpoint epochs_events (params : Params) (n_train n_test : nat) (epoch : nat)
  (dues : list bool) : list tm_event :=
  match dues with
  | [] => []
  | best :: dues' =>
      epoch_batch_events n_train n_test epoch
      ++ (if intermediate_due params epoch || best
          then [TmSaveWeights (Z.of_nat epoch + 1) best] else [])
      ++ epochs_events params n_train n_test (S epoch) dues'
  end.

Definition is_save_event (e : tm_event) : bool :=
  match e with
  | TmSaveWeights _ _ => true
  | _ => false
  end.

(** The configuration on which the test [(epoch + 1) % n == 0] divides by
    zero. *)
Definition divides_by_zero (params : Params) : bool :=
  save_intermediate_results params && (save_results_every_n_epochs params =? 0).

Lemma train_batches_ok (fuel : nat) (params : Params) (epoch : nat) :
  0 <= total_iterations params ->
  Z.max (t_iterations params) (total_iterations params) <= Z.of_nat fuel ->
  forall (batches : list Tensor) (s : Store) (log : list tm_event),
  exists s',
    train_batches fuel params epoch batches s log
    = (Ok tt, s', log ++ replicate (length batches) (TmTrainOnBatch epoch)).
Proof.
  intros Htotal Hfuel.
  induction batches as [|examples rest IH]; intros s log.
  - exists s. cbn. rewrite app_nil_r. reflexivity.
  - cbn [train_batches].
    destruct (train_on_batch_spec fuel examples model_energy_loss params s
                Htotal Hfuel) as (_ & _ & r & s1 & -> & _).
    destruct (IH s1 (log ++ [TmTrainOnBatch epoch])) as [s' ->].
    exists s'. rewrite <- app_assoc. reflexivity.
Qed.

Lemma test_batches_log (epoch : nat) :
  forall (batches : list Tensor) (s : Store) (log : list tm_event)
         (mses : list Float),
  exists mses' s',
    test_batches epoch batches s log mses
    = (mses', s', log ++ replicate (length batches) (TmTestOnBatch epoch)).
Proof.
  induction batches as [|examples rest IH]; intros s log mses.
  - exists mses, s. cbn. rewrite app_nil_r. reflexivity.
  - cbn [test_batches]. destruct (test_on_batch examples s) as [mse s1].
    destruct (IH s1 (log ++ [TmTestOnBatch epoch]) (mses ++ [mse]))
      as (mses' & s' & ->).
    exists mses', s'. rewrite <- app_assoc. reflexivity.
Qed.

Lemma run_epoch_spec (fuel : nat) (params : Params)
  (train_loader test_loader : list Tensor) (epoch : nat) (best : Float)
  (s : Store) (log : list tm_event) :
  0 <= total_iterations params ->
  Z.max (t_iterations params) (total_iterations params) <= Z.of_nat fuel ->
  exists (s' : Store) (log' : list tm_event),
    log' = log ++ epoch_batch_events (length train_loader) (length test_loader) epoch /\
    if divides_by_zero params then
      run_epoch fuel params train_loader test_loader epoch best s log
      = (Raise ZeroDivisionError, s', log')
    else
      exists (best' : Float) (due : bool),
        run_epoch fuel params train_loader test_loader epoch best s log
        = (Ok best', s',
           log' ++ (if intermediate_due params epoch || due
                    then [TmSaveWeights (Z.of_nat epoch + 1) due] else [])) /\
        (save_best_results params = false -> due = false).
Proof.
  intros Htotal Hfuel. unfold run_epoch.
  destruct (train_batches_ok fuel params epoch Htotal Hfuel train_loader s log)
    as [s1 ->].
  destruct (test_batches_log epoch test_loader s1
              (log ++ replicate (length train_loader) (TmTrainOnBatch epoch)) [])
    as (mses & s2 & ->).
  exists s2, (log ++ epoch_batch_events (length train_loader) (length test_loader) epoch).
  split; [reflexivity|].
  unfold divides_by_zero, epoch_batch_events. rewrite <- app_assoc.
  destruct (save_intermediate_results params && _) eqn:Hz; [reflexivity|].
  eexists _, (save_best_results params && flt (fmean mses) best).
  split.
  - unfold intermediate_due.
    destruct (_ || _); rewrite <- ?app_assoc, ?app_nil_r; reflexivity.
  - intros ->. reflexivity.
Qed.

Lemma run_epochs_spec (fuel : nat) (params : Params)
  (train_loader test_loader : list Tensor) (n : nat) :
  0 <= total_iterations params ->
  Z.max (t_iterations params) (total_iterations params) <= Z.of_nat fuel ->
  divides_by_zero params = false ->
  forall (epoch : nat) (best : Float) (s : Store) (log : list tm_event),
  exists (best' : Float) (s' : Store) (dues : list bool),
    length dues = n /\
    (save_best_results params = false -> Forall (fun d => d = false) dues) /\
    run_epochs fuel params train_loader test_loader n epoch best s log
    = (Ok best', s',
       log ++ epochs_events params (length train_loader) (length test_loader)
                            epoch dues).
Proof.
  intros Htotal Hfuel Hz.
  induction n as [|n IH]; intros epoch best s log.
  - exists best, s, []. cbn. rewrite app_nil_r. repeat split. constructor.
  - cbn [run_epochs].
    destruct (run_epoch_spec fuel params train_loader test_loader epoch best s log
                Htotal Hfuel) as (s1 & log1 & Hlog & Hrun).
    rewrite Hz in Hrun. destruct Hrun as (best1 & due & -> & Hdue).
    match goal with
    | |- context [run_epochs _ _ _ _ n (S epoch) best1 s1 ?lg] =>
        destruct (IH (S epoch) best1 s1 lg) as (best' & s' & dues & Hlen & Hall & ->)
    end.
    exists best', s', (due :: dues).
    split; [cbn; lia|]. split.
    + intros Hb. constructor; [exact (Hdue Hb) | exact (Hall Hb)].
    + subst log1. cbn [epochs_events]. rewrite <- !app_assoc. reflexivity.
Qed.

(** What [train_model] returns once both optimizer names are known. *)
Lemma train_model_known (fuel : nat) (model : PCDecoder) (params : Params)
  (train_loader test_loader : list Tensor) :
  known_optimizer (optimizer_x params) = true ->
  known_optimizer (optimizer_w params) = true ->
  exists rule_x rule_w s,
    train_model fuel model params train_loader test_loader
    = (let '(r, s', log') :=
         run_epochs fuel params train_loader test_loader
                    (Z.to_nat (epochs params)) O finf s
                    [TmInitForward; TmNewOptim XParameters rule_x;
                     TmNewOptim WParameters rule_w; TmGetDataLoaders] in
       (r, Training.model s', log')).
Proof.
  intros Hx Hw. unfold train_model.
  destruct (select_optimizer_known "optimizer_x" _ Hx) as [rule_x ->].
  destruct (select_optimizer_known "optimizer_w" _ Hw) as [rule_w ->].
  eexists rule_x, rule_w, _. reflexivity.
Qed.

Lemma filter_batch_epoch_batch_events (n_train n_test epoch : nat) :
  List.filter is_batch_event (epoch_batch_events n_train n_test epoch)
  = epoch_batch_events n_train n_test epoch.
Proof.
  unfold epoch_batch_events. rewrite List.filter_app. f_equal.
  - induction n_train as [|k IH]; cbn; [reflexivity | rewrite IH; reflexivity].
  - induction n_test as [|k IH]; cbn; [reflexivity | rewrite IH; reflexivity].
Qed.

Lemma filter_save_epoch_batch_events (n_train n_test epoch : nat) :
  List.filter is_save_event (epoch_batch_events n_train n_test epoch) = [].
Proof.
  unfold epoch_batch_events. rewrite List.filter_app.
  replace (List.filter is_save_event (replicate n_train (TmTrainOnBatch epoch)))
    with (@nil tm_event)
    by (induction n_train as [|k IH]; cbn; [reflexivity | exact IH]).
  induction n_test as [|k IH]; cbn; [reflexivity | exact IH].
Qed.

Lemma batch_events_epochs (params : Params) (n_train n_test : nat)
  (dues : list bool) :
  forall epoch : nat,
    List.filter is_batch_event (epochs_events params n_train n_test epoch dues)
    = flat_map (epoch_batch_events n_train n_test) (seq epoch (length dues)).
Proof.
  induction dues as [|d dues IH]; intros epoch; [reflexivity|].
  cbn [epochs_events length seq flat_map].
  rewrite !List.filter_app, filter_batch_epoch_batch_events, IH.
  destruct (_ || d); reflexivity.
Qed.

Lemma save_events_epochs (params : Params) (n_train n_test : nat)
  (dues : list bool) :
  Forall (fun d => d = false) dues ->
  forall epoch : nat,
    List.filter is_save_event (epochs_events params n_train n_test epoch dues)
    = map (fun e => TmSaveWeights (Z.of_nat e + 1) false)
          (List.filter (intermediate_due params) (seq epoch (length dues))).
Proof.
  induction 1 as [|d dues -> _ IH]; intros epoch; [reflexivity|].
  cbn [epochs_events length seq List.filter].
  rewrite !List.filter_app, filter_save_epoch_batch_events, IH, orb_false_r.
  destruct (intermediate_due params epoch); reflexivity.
Qed.

(** X6.  With [save_intermediate_results] set and
    [save_results_every_n_epochs = 0], the test [(epoch + 1) % 0 == 0]
    raises [ZeroDivisionError], and only at the end of the first epoch:
    every training and test batch of that epoch has been processed and
    nothing has been saved. *)
Theorem zero_save_period_fails_after_first_epoch (fuel : nat) (model : PCDecoder)
  (params : Params) (train_loader test_loader : list Tensor) :
  known_optimizer (optimizer_x params) = true ->
  known_optimizer (optimizer_w params) = true ->
  save_intermediate_results params = true ->
  save_results_every_n_epochs params = 0 ->
  1 <= epochs params ->
  0 <= total_iterations params ->
  Z.max (t_iterations params) (total_iterations params) <= Z.of_nat fuel ->
  exists (m : PCDecoder) (log : list tm_event),
    train_model fuel model params train_loader test_loader
    = (Raise ZeroDivisionError, m, log) /\
    List.filter is_batch_event log
    = epoch_batch_events (length train_loader) (length test_loader) 0 /\
    List.filter is_save_event log = [].
Proof.
  intros Hx Hw Hsave Hzero Hepochs Htotal Hfuel.
  destruct (train_model_known fuel model params train_loader test_loader Hx Hw)
    as (rule_x & rule_w & s & ->).
  destruct (Z.to_nat (epochs params)) as [|n] eqn:Hn; [lia|].
  cbn [run_epochs].
  match goal with
  | |- context [run_epoch fuel params train_loader test_loader O finf s ?lg] =>
      destruct (run_epoch_spec fuel params train_loader test_loader O finf s lg
                  Htotal Hfuel) as (s1 & log1 & Hlog & Hrun)
  end.
  unfold divides_by_zero in Hrun. rewrite Hsave, Hzero in Hrun. cbn in Hrun.
  rewrite Hrun. eexists _, _. split; [reflexivity|]. subst log1.
  rewrite !List.filter_app, filter_batch_epoch_batch_events,
    filter_save_epoch_batch_events.
  split; reflexivity.
Qed.

(** X7.  With known optimizer names, a history buffer that can be
    allocated and a save period that is not the zero of X6,
    [train_model] runs [max (epochs, 0)] epochs; in each one it calls
    [train_on_batch] once per training batch and then [test_on_batch] once
    per test batch, and no batch in any other order. *)
Theorem train_model_batches_per_epoch (fuel : nat) (model : PCDecoder)
  (params : Params) (train_loader test_loader : list Tensor) :
  known_optimizer (optimizer_x params) = true ->
  known_optimizer (optimizer_w params) = true ->
  divides_by_zero params = false ->
  0 <= total_iterations params ->
  Z.max (t_iterations params) (total_iterations params) <= Z.of_nat fuel ->
  exists (best : Float) (m : PCDecoder) (log : list tm_event),
    train_model fuel model params train_loader test_loader = (Ok best, m, log) /\
    List.filter is_batch_event log
    = flat_map (epoch_batch_events (length train_loader) (length test_loader))
               (seq 0 (Z.to_nat (epochs params))).
Proof.
  intros Hx Hw Hz Htotal Hfuel.
  destruct (train_model_known fuel model params train_loader test_loader Hx Hw)
    as (rule_x & rule_w & s & ->).
  match goal with
  | |- context [run_epochs fuel params train_loader test_loader ?n O finf s ?lg] =>
      destruct (run_epochs_spec fuel params train_loader test_loader n
                  Htotal Hfuel Hz O finf s lg)
        as (best' & s' & dues & Hlen & _ & ->)
  end.
  eexists _, _, _. split; [reflexivity|].
  rewrite List.filter_app, batch_events_epochs, Hlen. reflexivity.
Qed.

(** X8.  With [save_best_results] off, the weights are saved exactly
    after the epochs whose number (counted from 1) is a multiple of
    [save_results_every_n_epochs], and only when
    [save_intermediate_results] is set; no save is ever marked as best.
    With both switches off, nothing is saved.  (Failures of the file
    system, which is not modelled, are left aside.) *)
Theorem saves_without_best_are_periodic (fuel : nat) (model : PCDecoder)
  (params : Params) (train_loader test_loader : list Tensor) :
  known_optimizer (optimizer_x params) = true ->
  known_optimizer (optimizer_w params) = true ->
  save_best_results params = false ->
  divides_by_zero params = false ->
  0 <= total_iterations params ->
  Z.max (t_iterations params) (total_iterations params) <= Z.of_nat fuel ->
  exists (best : Float) (m : PCDecoder) (log : list tm_event),
    train_model fuel model params train_loader test_loader = (Ok best, m, log) /\
    List.filter is_save_event log
    = map (fun e => TmSaveWeights (Z.of_nat e + 1) false)
          (List.filter
             (fun e => save_intermediate_results params
                       && ((Z.of_nat e + 1) mod save_results_every_n_epochs params =? 0))
             (seq 0 (Z.to_nat (epochs params)))) /\
    (save_intermediate_results params = false ->
     List.filter is_save_event log = []).
Proof.
  intros Hx Hw Hbest Hz Htotal Hfuel.
  destruct (train_model_known fuel model params train_loader test_loader Hx Hw)
    as (rule_x & rule_w & s & ->).
  match goal with
  | |- context [run_epochs fuel params train_loader test_loader ?n O finf s ?lg] =>
      destruct (run_epochs_spec fuel params train_loader test_loader n
                  Htotal Hfuel Hz O finf s lg)
        as (best' & s' & dues & Hlen & Hall & ->)
  end.
  eexists _, _, _. split; [reflexivity|].
  rewrite List.filter_app, (save_events_epochs _ _ _ _ (Hall Hbest)), Hlen.
  cbn [List.filter is_save_event app]. split; [reflexivity|].
  intros Hoff. unfold intermediate_due. rewrite Hoff. cbn [andb].
  induction (seq 0 (Z.to_nat (epochs params))) as [|e l IH]; [reflexivity | exact IH].
Qed.

End Facts.

End TrainModelFacts.

(* ===================================================================== *)
(** * The further results on concrete runs                                *)
(* ===================================================================== *)

Module ToyFacts.

Import Training Toy TrainOnBatchFacts TrainModelFacts.

(** [ppc] mode, [T = 3]: every call of the body updates activities and
    weights. *)
Example toy_ppc_run :
  summary (fst (train_on_batch 10 1 descending_loss
                  (toy_params "ppc" 3 0 0 false) toy_store))
  = Some (3, 3, 3).
Proof. vm_compute. reflexivity. Qed.



(** A misspelt mode: three activity updates, no weight update. *)
Example toy_misspelt_mode_run :
  summary (fst (train_on_batch 10 1 descending_loss
                  (toy_params "PC" 3 0 0 false) toy_store))
  = Some (3, 3, 0).
Proof. vm_compute. reflexivity. Qed.




(** Parameters of [train_model] runs: [pc] mode with [T = 3]. *)
Definition toy_params_saving (epochs : Z) (save_intermediate : bool)
  (every_n : Z) (save_best : bool) : Params :=
  mkParams 3 0 0 "pc" 1 true false "sgd" "adamw" epochs save_intermediate
           every_n save_best.

(** Intermediate results every 0 epochs: the first epoch runs, then the
    division fails. *)
Example toy_zero_save_period :
  let '(r, _, log) :=
    train_model 10 toy_model (toy_params_saving 3 true 0 true) [1; 2] [3] in
  (r, List.filter is_batch_event log)
  = (Raise ZeroDivisionError, [TmTrainOnBatch 0; TmTrainOnBatch 0; TmTestOnBatch 0]).
Proof. vm_compute. reflexivity. Qed.

(** Witness of [zero_save_period_fails_after_first_epoch]. *)
Lemma zero_save_period_fails_after_first_epoch_witness :
  let params := toy_params_saving 3 true 0 true in
  known_optimizer (optimizer_x params) = true /\
  known_optimizer (optimizer_w params) = true /\
  save_intermediate_results params = true /\
  save_results_every_n_epochs params = 0 /\
  1 <= epochs params /\
  0 <= total_iterations params /\
  Z.max (t_iterations params) (total_iterations params) <= Z.of_nat 10 /\
  exists (m : PCDecoder) (log : list tm_event),
    train_model 10 toy_model params [1; 2] [3]
    = (Raise ZeroDivisionError, m, log) /\
    List.filter is_batch_event log
    = epoch_batch_events (length [1; 2]) (length [3]) 0 /\
    List.filter is_save_event log = [].
Proof.
  cbv zeta.
  assert (H1 : known_optimizer (optimizer_x (toy_params_saving 3 true 0 true)) = true)
    by reflexivity.
  assert (H2 : known_optimizer (optimizer_w (toy_params_saving 3 true 0 true)) = true)
    by reflexivity.
  assert (H3 : save_intermediate_results (toy_params_saving 3 true 0 true) = true)
    by reflexivity.
  assert (H4 : save_results_every_n_epochs (toy_params_saving 3 true 0 true) = 0)
    by reflexivity.
  assert (H5 : 1 <= epochs (toy_params_saving 3 true 0 true))
    by (vm_compute; discriminate).
  assert (H6 : 0 <= total_iterations (toy_params_saving 3 true 0 true))
    by (vm_compute; discriminate).
  assert (H7 : Z.max (t_iterations (toy_params_saving 3 true 0 true))
                     (total_iterations (toy_params_saving 3 true 0 true))
               <= Z.of_nat 10)
    by (vm_compute; discriminate).
  split; [exact H1|]. split; [exact H2|]. split; [exact H3|]. split; [exact H4|].
  split; [exact H5|]. split; [exact H6|]. split; [exact H7|].
  exact (zero_save_period_fails_after_first_epoch 10 toy_model
           (toy_params_saving 3 true 0 true) [1; 2] [3] H1 H2 H3 H4 H5 H6 H7).
Defined.

(** Witness of [train_model_batches_per_epoch]: three epochs over two
    training batches and one test batch. *)
Lemma train_model_batches_per_epoch_witness :
  let params := toy_params_saving 3 true 2 true in
  known_optimizer (optimizer_x params) = true /\
  known_optimizer (optimizer_w params) = true /\
  divides_by_zero params = false /\
  0 <= total_iterations params /\
  Z.max (t_iterations params) (total_iterations params) <= Z.of_nat 10 /\
  exists (best : Float) (m : PCDecoder) (log : list tm_event),
    train_model 10 toy_model params [1; 2] [3] = (Ok best, m, log) /\
    List.filter is_batch_event log
    = flat_map (epoch_batch_events (length [1; 2]) (length [3]))
               (seq 0 (Z.to_nat (epochs params))).
Proof.
  cbv zeta.
  assert (H1 : known_optimizer (optimizer_x (toy_params_saving 3 true 2 true)) = true)
    by reflexivity.
  assert (H2 : known_optimizer (optimizer_w (toy_params_saving 3 true 2 true)) = true)
    by reflexivity.
  assert (H3 : divides_by_zero (toy_params_saving 3 true 2 true) = false)
    by reflexivity.
  assert (H4 : 0 <= total_iterations (toy_params_saving 3 true 2 true))
    by (vm_compute; discriminate).
  assert (H5 : Z.max (t_iterations (toy_params_saving 3 true 2 true))
                     (total_iterations (toy_params_saving 3 true 2 true))
               <= Z.of_nat 10)
    by (vm_compute; discriminate).
  split; [exact H1|]. split; [exact H2|]. split; [exact H3|].
  split; [exact H4|]. split; [exact H5|].
  exact (train_model_batches_per_epoch 10 toy_model
           (toy_params_saving 3 true 2 true) [1; 2] [3] H1 H2 H3 H4 H5).
Defined.

(** Five epochs, intermediate results every two epochs, no best results:
    the weights are saved after the second and the fourth epoch. *)
Example toy_periodic_saves :
  let '(_, _, log) :=
    train_model 10 toy_model (toy_params_saving 5 true 2 false) [1; 2] [3] in
  List.filter is_save_event log = [TmSaveWeights 2 false; TmSaveWeights 4 false].
Proof. vm_compute. reflexivity. Qed.

(** Witness of [saves_without_best_are_periodic], on the same run. *)
Lemma saves_without_best_are_periodic_witness :
  let params := toy_params_saving 5 true 2 false in
  known_optimizer (optimizer_x params) = true /\
  known_optimizer (optimizer_w params) = true /\
  save_best_results params = false /\
  divides_by_zero params = false /\
  0 <= total_iterations params /\
  Z.max (t_iterations params) (total_iterations params) <= Z.of_nat 10 /\
  exists (best : Float) (m : PCDecoder) (log : list tm_event),
    train_model 10 toy_model params [1; 2] [3] = (Ok best, m, log) /\
    List.filter is_save_event log
    = map (fun e => TmSaveWeights (Z.of_nat e + 1) false)
          (List.filter
             (fun e => save_intermediate_results params
                       && ((Z.of_nat e + 1) mod save_results_every_n_epochs params =? 0))
             (seq 0 (Z.to_nat (epochs params)))) /\
    (save_intermediate_results params = false ->
     List.filter is_save_event log = []).
Proof.
  cbv zeta.
  assert (H1 : known_optimizer (optimizer_x (toy_params_saving 5 true 2 false)) = true)
    by reflexivity.
  assert (H2 : known_optimizer (optimizer_w (toy_params_saving 5 true 2 false)) = true)
    by reflexivity.
  assert (H3 : save_best_results (toy_params_saving 5 true 2 false) = false)
    by reflexivity.
  assert (H4 : divides_by_zero (toy_params_saving 5 true 2 false) = false)
    by reflexivity.
  assert (H5 : 0 <= total_iterations (toy_params_saving 5 true 2 false))
    by (vm_compute; discriminate).
  assert (H6 : Z.max (t_iterations (toy_params_saving 5 true 2 false))
                     (total_iterations (toy_params_saving 5 true 2 false))
               <= Z.of_nat 10)
    by (vm_compute; discriminate).
  split; [exact H1|]. split; [exact H2|]. split; [exact H3|]. split; [exact H4|].
  split; [exact H5|]. split; [exact H6|].
  exact (saves_without_best_are_periodic 10 toy_model
           (toy_params_saving 5 true 2 false) [1; 2] [3] H1 H2 H3 H4 H5 H6).
Defined.

End ToyFacts.

(* ===================================================================== *)
(** * pcax/core/util.py: [kwargs_indices] and [make_args]                 *)
(* ===================================================================== *)

Module Signature.

Section Signature.

(** The values passed to a function: any Python objects. *)
Context {V : Type}.

(** A parameter of [inspect.signature(f)]: its name and its default, which
    is the object [inspect.Parameter.empty] when the function gives none. *)
Record SigParameter : Type := mkSigParameter {
  name : string;
  default : V }.

(** [parameter.name in kwargs] *)
Definition in_kwargs (kwargs : gmap string V) (p : SigParameter) : bool :=
  match kwargs !! name p with
  | Some _ => true
  | None => false
  end.

(** [enumerate], counting from [start]. *)
Fixpoint enumerate {X : Type} (start : nat) (l : list X) : list (nat * X) :=
  match l with
  | [] => []
  | x :: l' => (start, x) :: enumerate (S start) l'
  end.

(** [kwargs_indices(f, kwargs)], on the parameters of [f]. *)
Definition kwargs_indices (parameters : list SigParameter) (kwargs : gmap string V)
  : list nat :=
  map fst (List.filter (fun ip => in_kwargs kwargs (snd ip))
                       (enumerate 0 parameters)).

(** The loop of [make_args]: [args_it] is what the iterator over [args]
    has left, [args_list] the list built so far. *)
Fixpoint make_args_loop (parameters : list SigParameter) (args_it : list V)
  (kwargs : gmap string V) (args_list : list V) : list V :=
  match parameters with
  | [] => args_list
  | parameter :: rest =>
      match kwargs !! name parameter with
      | Some v => make_args_loop rest args_it kwargs (args_list ++ [v])
      | None =>
          match args_it with
          | a :: args_it' => make_args_loop rest args_it' kwargs (args_list ++ [a])
          | [] => make_args_loop rest [] kwargs (args_list ++ [default parameter])
          end
      end
  end.

(** [make_args(f, args, kwargs)], on the parameters of [f]. *)
Definition make_args (parameters : list SigParameter) (args : list V)
  (kwargs : gmap string V) : list V :=
  make_args_loop parameters args kwargs [].

(** The number of parameters before the [i]-th that take a positional
    argument, that is, that [kwargs] does not name. *)
Definition positional_before (parameters : list SigParameter)
  (kwargs : gmap string V) (i : nat) : nat :=
  length (List.filter (fun p => negb (in_kwargs kwargs p)) (take i parameters)).

(** The values collected for the parameters, without the accumulator. *)
Fixpoint collected (parameters : list SigParameter) (args_it : list V)
  (kwargs : gmap string V) : list V :=
  match parameters with
  | [] => []
  | parameter :: rest =>
      match kwargs !! name parameter with
      | Some v => v :: collected rest args_it kwargs
      | None =>
          match args_it with
          | a :: args_it' => a :: collected rest args_it' kwargs
          | [] => default parameter :: collected rest [] kwargs
          end
      end
  end.

Lemma make_args_loop_collected (parameters : list SigParameter)
  (kwargs : gmap string V) :
  forall (args_it args_list : list V),
    make_args_loop parameters args_it kwargs args_list
    = args_list ++ collected parameters args_it kwargs.
Proof.
  induction parameters as [|p rest IH]; intros args_it args_list; cbn.
  - rewrite app_nil_r. reflexivity.
  - destruct (kwargs !! name p) as [v|].
    + rewrite IH, <- app_assoc. reflexivity.
    + destruct args_it as [|a args_it']; rewrite IH, <- app_assoc; reflexivity.
Qed.

Lemma make_args_collected (parameters : list SigParameter) (args : list V)
  (kwargs : gmap string V) :
  make_args parameters args kwargs = collected parameters args kwargs.
Proof. unfold make_args. rewrite make_args_loop_collected. reflexivity. Qed.

Lemma collected_length (parameters : list SigParameter) (kwargs : gmap string V) :
  forall args_it : list V,
    length (collected parameters args_it kwargs) = length parameters.
Proof.
  induction parameters as [|p rest IH]; intros args_it; cbn; [reflexivity|].
  destruct (kwargs !! name p); [|destruct args_it]; cbn; rewrite IH; reflexivity.
Qed.

Lemma collected_keyword (parameters : list SigParameter) (kwargs : gmap string V) :
  forall (args_it : list V) (i : nat) (p : SigParameter) (v : V),
    parameters !! i = Some p ->
    kwargs !! name p = Some v ->
    collected parameters args_it kwargs !! i = Some v.
Proof.
  induction parameters as [|q rest IH]; intros args_it i p v Hp Hv;
    [discriminate|].
  destruct i as [|i]; cbn in Hp |- *.
  - injection Hp as ->. rewrite Hv. reflexivity.
  - destruct (kwargs !! name q); [|destruct args_it]; cbn; eapply IH; eassumption.
Qed.

Lemma collected_positional (parameters : list SigParameter) (kwargs : gmap string V) :
  forall (args_it : list V) (i : nat) (p : SigParameter),
    parameters !! i = Some p ->
    kwargs !! name p = None ->
    collected parameters args_it kwargs !! i
    = Some (match args_it !! positional_before parameters kwargs i with
            | Some a => a
            | None => default p
            end).
Proof.
  unfold positional_before.
  induction parameters as [|q rest IH]; intros args_it i p Hp Hnone;
    [discriminate|].
  destruct i as [|i]; cbn [lookup list_lookup] in Hp.
  - injection Hp as ->. cbn. rewrite Hnone. destruct args_it; reflexivity.
  - cbn [collected take List.filter]. unfold in_kwargs at 1.
    destruct (kwargs !! name q) as [v|]; cbn [negb].
    + cbn. apply IH; assumption.
    + destruct args_it as [|a args_it']; cbn [length];
        rewrite <- lookup_tail; cbn [tail];
        rewrite (IH _ i p Hp Hnone); [|reflexivity].
      destruct (length _); reflexivity.
Qed.

Lemma kwargs_indices_shift (kwargs : gmap string V)
  (parameters : list SigParameter) :
  forall start : nat,
    map fst (List.filter (fun ip => in_kwargs kwargs (snd ip))
                         (enumerate (S start) parameters))
    = map S (map fst (List.filter (fun ip => in_kwargs kwargs (snd ip))
                                  (enumerate start parameters))).
Proof.
  induction parameters as [|p rest IH]; intros start; [reflexivity|].
  cbn [enumerate List.filter snd].
  destruct (in_kwargs kwargs p); cbn [map fst]; rewrite IH; reflexivity.
Qed.

Lemma kwargs_indices_cons (kwargs : gmap string V) (p : SigParameter)
  (rest : list SigParameter) :
  kwargs_indices (p :: rest) kwargs
  = (if in_kwargs kwargs p then [0%nat] else [])
    ++ map S (kwargs_indices rest kwargs).
Proof.
  unfold kwargs_indices. cbn [enumerate List.filter snd].
  destruct (in_kwargs kwargs p); cbn [map fst app];
    rewrite kwargs_indices_shift; reflexivity.
Qed.

Lemma kwargs_indices_In (kwargs : gmap string V) (parameters : list SigParameter) :
  forall i : nat,
    List.In i (kwargs_indices parameters kwargs) <->
    exists p, parameters !! i = Some p /\ in_kwargs kwargs p = true.
Proof.
  induction parameters as [|q rest IH]; intros i.
  - cbn. split; [tauto | intros (p & Hp & _); discriminate].
  - rewrite kwargs_indices_cons, List.in_app_iff, List.in_map_iff. split.
    + intros [Hin | (j & <- & Hin)].
      * destruct (in_kwargs kwargs q) eqn:Hq; [|destruct Hin].
        destruct Hin as [<- | []]. exists q. split; [reflexivity | exact Hq].
      * apply IH in Hin. exact Hin.
    + intros (p & Hp & Hin). destruct i as [|i].
      * injection Hp as ->. rewrite Hin. left. left. reflexivity.
      * right. exists i. split; [reflexivity|]. apply IH. exists p. split; assumption.
Qed.

Lemma kwargs_indices_sorted (kwargs : gmap string V) (parameters : list SigParameter) :
  StronglySorted lt (kwargs_indices parameters kwargs).
Proof.
  induction parameters as [|q rest IH]; [constructor|].
  rewrite kwargs_indices_cons.
  assert (Hs : StronglySorted lt (map S (kwargs_indices rest kwargs))).
  { induction IH as [|i l Hl IHl Hall]; [constructor|].
    cbn. constructor; [exact IHl|].
    rewrite List.Forall_forall in Hall |- *.
    intros j Hj. apply List.in_map_iff in Hj as (k & <- & Hk).
    specialize (Hall k Hk). lia. }
  destruct (in_kwargs kwargs q); [|exact Hs].
  cbn. constructor; [exact Hs|].
  rewrite List.Forall_forall. intros j Hj.
  apply List.in_map_iff in Hj as (k & <- & _). lia.
Qed.

(** X9.  [kwargs_indices] returns, in strictly increasing order, the
    positions of exactly those parameters of [f] whose name is a key of
    [kwargs]; a key that names no parameter contributes nothing. *)
Theorem kwargs_indices_are_the_named_positions (parameters : list SigParameter)
  (kwargs : gmap string V) :
  StronglySorted lt (kwargs_indices parameters kwargs) /\
  forall i : nat,
    List.In i (kwargs_indices parameters kwargs) <->
    exists p, parameters !! i = Some p /\ is_Some (kwargs !! name p).
Proof.
  split; [apply kwargs_indices_sorted|].
  intros i. rewrite kwargs_indices_In. unfold in_kwargs.
  split; intros (p & Hp & Hin); exists p; (split; [exact Hp|]).
  - destruct (kwargs !! name p); [eauto | discriminate].
  - destruct Hin as [v ->]. reflexivity.
Qed.

(** X10.  [make_args] returns exactly one value per parameter of [f], in
    the order of the parameters.  The value of a parameter is the one
    [kwargs] gives for its name when there is one; otherwise it is the next
    positional argument not yet used, that is [args[r]] for [r] the number
    of parameters before it that [kwargs] does not name; otherwise, when
    [args] is used up, it is the default of the parameter.  Positional
    arguments beyond these and keywords that name no parameter do not
    appear in the result. *)
Theorem make_args_one_value_per_parameter (parameters : list SigParameter)
  (args : list V) (kwargs : gmap string V) :
  length (make_args parameters args kwargs) = length parameters /\
  forall (i : nat) (p : SigParameter),
    parameters !! i = Some p ->
    make_args parameters args kwargs !! i
    = Some (match kwargs !! name p with
            | Some v => v
            | None =>
                match args !! positional_before parameters kwargs i with
                | Some a => a
                | None => default p
                end
            end).
Proof.
  rewrite make_args_collected. split; [apply collected_length|].
  intros i p Hp. destruct (kwargs !! name p) as [v|] eqn:Hv.
  - eapply collected_keyword; eassumption.
  - apply collected_positional; assumption.
Qed.

(** X11.  At every position that [kwargs_indices] returns, [make_args]
    holds the value that [kwargs] gives for the name of the parameter at
    this position, whatever the positional arguments are. *)
Theorem make_args_at_kwargs_indices (parameters : list SigParameter)
  (args : list V) (kwargs : gmap string V) (i : nat) :
  List.In i (kwargs_indices parameters kwargs) ->
  exists (p : SigParameter) (v : V),
    parameters !! i = Some p /\
    kwargs !! name p = Some v /\
    make_args parameters args kwargs !! i = Some v.
Proof.
  intros Hin. apply kwargs_indices_In in Hin as (p & Hp & Hin).
  unfold in_kwargs in Hin. destruct (kwargs !! name p) as [v|] eqn:Hv;
    [|discriminate].
  exists p, v. split; [exact Hp|]. split; [exact Hv|].
  rewrite make_args_collected. eapply collected_keyword; eassumption.
Qed.

(** X12.  A keyword argument does not use up a positional one: the
    parameter at position [i], when [kwargs] does not name it, gets
    [args[r]], where [r] counts the parameters before it that [kwargs]
    does not name either, and its default when [args] has no such
    element. *)
Theorem make_args_positional_in_order (parameters : list SigParameter)
  (args : list V) (kwargs : gmap string V) (i : nat) (p : SigParameter) :
  parameters !! i = Some p ->
  kwargs !! name p = None ->
  make_args parameters args kwargs !! i
  = Some (match args !! positional_before parameters kwargs i with
          | Some a => a
          | None => default p
          end).
Proof.
  intros Hp Hnone. rewrite make_args_collected.
  apply collected_positional; assumption.
Qed.

(** X13.  Without keyword arguments [make_args] is [args], cut to the
    number of parameters, followed by the defaults of the parameters that
    [args] does not reach. *)
Theorem make_args_without_kwargs (parameters : list SigParameter) (args : list V) :
  make_args parameters args ∅
  = take (length parameters) args ++ map default (drop (length args) parameters).
Proof.
  rewrite make_args_collected. revert args.
  induction parameters as [|p rest IH]; intros args; cbn [collected].
  - rewrite drop_nil. reflexivity.
  - rewrite lookup_empty. destruct args as [|a args'].
    + rewrite IH. cbn. rewrite take_nil. reflexivity.
    + rewrite IH. reflexivity.
Qed.

End Signature.

Arguments SigParameter V : clear implicits.

End Signature.

(** ** [make_args] on [def f(a, b=2, c=3)] *)

Module SignatureExamples.

Import Signature.

(** Python objects: integers, and [None] for [inspect.Parameter.empty]. *)
Definition f_parameters : list (SigParameter (option Z)) :=
  [mkSigParameter "a" None; mkSigParameter "b" (Some 2); mkSigParameter "c" (Some 3)].

Definition b_is_20 : gmap string (option Z) := <["b" := Some 20]> ∅.

(** [make_args(f, (1, 30), {"b": 20})]: the keyword does not use up the
    second positional argument, which goes to [c]. *)
Example make_args_keyword_in_the_middle :
  make_args f_parameters [Some 1; Some 30] b_is_20 = [Some 1; Some 20; Some 30] /\
  kwargs_indices f_parameters b_is_20 = [1%nat].
Proof. split; vm_compute; reflexivity. Qed.

(** [make_args(f, (), {"z": 0})]: [a] gets [inspect.Parameter.empty], the
    keyword is dropped. *)
Example make_args_nothing_bound :
  make_args f_parameters [] (<["z" := Some 0]> ∅) = [None; Some 2; Some 3] /\
  kwargs_indices f_parameters (<["z" := Some 0]> ∅) = [].
Proof. split; vm_compute; reflexivity. Qed.

(** Witness of [make_args_at_kwargs_indices]: position 1, parameter [b]. *)
Lemma make_args_at_kwargs_indices_witness :
  List.In 1%nat (kwargs_indices f_parameters b_is_20) /\
  exists (p : SigParameter (option Z)) (v : option Z),
    f_parameters !! 1%nat = Some p /\
    b_is_20 !! name p = Some v /\
    make_args f_parameters [Some 1; Some 30] b_is_20 !! 1%nat = Some v.
Proof.
  assert (H : List.In 1%nat (kwargs_indices f_parameters b_is_20))
    by (vm_compute; left; reflexivity).
  split; [exact H|].
  exact (make_args_at_kwargs_indices f_parameters [Some 1; Some 30] b_is_20 1 H).
Defined.

(** Witness of [make_args_positional_in_order]: position 2, parameter [c],
    gets the second positional argument. *)
Lemma make_args_positional_in_order_witness :
  let p := mkSigParameter "c" (Some 3) in
  f_parameters !! 2%nat = Some p /\
  b_is_20 !! name p = None /\
  make_args f_parameters [Some 1; Some 30] b_is_20 !! 2%nat
  = Some (match [Some 1; Some 30] !! positional_before f_parameters b_is_20 2 with
          | Some a => a
          | None => default p
          end).
Proof.
  cbv zeta.
  assert (H1 : f_parameters !! 2%nat = Some (mkSigParameter "c" (Some 3)))
    by reflexivity.
  assert (H2 : b_is_20 !! name (mkSigParameter "c" (Some 3)) = None)
    by (vm_compute; reflexivity).
  split; [exact H1|]. split; [exact H2|].
  exact (make_args_positional_in_order f_parameters [Some 1; Some 30] b_is_20 2
           (mkSigParameter "c" (Some 3)) H1 H2).
Defined.

End SignatureExamples.

(* ===================================================================== *)
(** * examples/main.py: [one_hot] and the target classes                  *)
(* ===================================================================== *)

Module MnistExample.

(** [jnp.arange(k)]: [0, 1, ..., k - 1], empty when [k <= 0]. *)
Definition arange (k : Z) : list Z := map Z.of_nat (seq 0 (Z.to_nat k)).

(** [one_hot(x, k)]: the comparison [x[:, None] == jnp.arange(k)] of every
    label with every class, cast to a float array; the entries are [1.0]
    and [0.0], written [1] and [0]. *)
Definition one_hot (x : list Z) (k : Z) : list (list Z) :=
  map (fun label => map (fun class => if label =? class then 1 else 0) (arange k)) x.

(** [jnp.argmax] of one row: the index of the first occurrence of the
    greatest entry; [None] stands for the error on an empty row. *)
Fixpoint argmax_from (best_index : nat) (best : Z) (index : nat) (row : list Z)
  : nat :=
  match row with
  | [] => best_index
  | v :: rest =>
      if best <? v then argmax_from index v (S index) rest
      else argmax_from best_index best (S index) rest
  end.

Definition argmax (row : list Z) : option Z :=
  match row with
  | [] => None
  | v :: rest => Some (Z.of_nat (argmax_from 0 v 1 rest))
  end.

(** [target_class = jnp.argmax(t, axis=1)] in [run_on_batch], on the
    targets [t = one_hot(y, output_dim)] of the training loop. *)
Definition target_class (y : list Z) (output_dim : Z) : list (option Z) :=
  map argmax (one_hot y output_dim).

(** [jnp.sum(row)] *)
Definition row_sum (row : list Z) : Z := fold_right Z.add 0 row.

(** Whether a label is one of the classes [0, ..., k - 1]. *)
Definition is_class (k label : Z) : bool := (0 <=? label) && (label <? k).

Definition indicator (label : Z) (class : nat) : Z :=
  if label =? Z.of_nat class then 1 else 0.

Lemma one_hot_row (label k : Z) :
  map (fun class => if label =? class then 1 else 0) (arange k)
  = map (indicator label) (seq 0 (Z.to_nat k)).
Proof. unfold arange. rewrite map_map. reflexivity. Qed.

Lemma row_sum_indicator (label : Z) (n : nat) :
  forall i : nat,
    row_sum (map (indicator label) (seq i n))
    = if (Z.of_nat i <=? label) && (label <? Z.of_nat (i + n)) then 1 else 0.
Proof.
  induction n as [|n IH]; intros i.
  - cbn. destruct (Z.leb_spec (Z.of_nat i) label), (Z.ltb_spec label (Z.of_nat (i + 0)));
      cbn; try reflexivity; lia.
  - cbn [seq map row_sum fold_right]. fold (row_sum (map (indicator label) (seq (S i) n))).
    rewrite IH. unfold indicator.
    destruct (Z.eqb_spec label (Z.of_nat i)),
      (Z.leb_spec (Z.of_nat (S i)) label),
      (Z.ltb_spec label (Z.of_nat (S i + n))),
      (Z.leb_spec (Z.of_nat i) label),
      (Z.ltb_spec label (Z.of_nat (i + S n))); cbn; try reflexivity; lia.
Qed.

Lemma argmax_from_no_greater (best_index : nat) (best : Z) (row : list Z) :
  Forall (fun v => v <= best) row ->
  forall index : nat, argmax_from best_index best index row = best_index.
Proof.
  induction 1 as [|v rest Hv _ IH]; intros index; [reflexivity|].
  cbn. destruct (Z.ltb_spec best v); [lia | apply IH].
Qed.

Lemma indicator_le_1 (label : Z) (l : list nat) :
  Forall (fun v => v <= 1) (map (indicator label) l).
Proof.
  induction l as [|j l IH]; cbn; constructor; [|exact IH].
  unfold indicator. destruct (label =? Z.of_nat j); lia.
Qed.

Lemma argmax_from_indicator (label : Z) (n : nat) :
  forall (i best_index : nat),
    argmax_from best_index 0 i (map (indicator label) (seq i n))
    = if (Z.of_nat i <=? label) && (label <? Z.of_nat (i + n))
      then Z.to_nat label else best_index.
Proof.
  induction n as [|n IH]; intros i best_index.
  - cbn. destruct (Z.leb_spec (Z.of_nat i) label), (Z.ltb_spec label (Z.of_nat (i + 0)));
      cbn; try reflexivity; lia.
  - cbn [seq map argmax_from].
    destruct (Z.eqb_spec label (Z.of_nat i)) as [Heq|Hne].
    + replace (indicator label i) with 1
        by (unfold indicator; destruct (Z.eqb_spec label (Z.of_nat i)); lia).
      change (0 <? 1) with true. cbv iota.
      rewrite argmax_from_no_greater by apply indicator_le_1.
      destruct (Z.leb_spec (Z.of_nat i) label), (Z.ltb_spec label (Z.of_nat (i + S n)));
        cbn; lia.
    + replace (indicator label i) with 0
        by (unfold indicator; destruct (Z.eqb_spec label (Z.of_nat i)); lia).
      change (0 <? 0) with false. cbv iota. rewrite IH.
      destruct (Z.leb_spec (Z.of_nat (S i)) label),
        (Z.ltb_spec label (Z.of_nat (S i + n))),
        (Z.leb_spec (Z.of_nat i) label),
        (Z.ltb_spec label (Z.of_nat (i + S n))); cbn; try reflexivity; lia.
Qed.

(** X14.  [one_hot(x, k)] has one row per label and [max (k, 0)] columns.
    The row of a label in [0, ..., k - 1] holds a single [1.0], at the
    index of the label; the row of any other label (negative, or [k] and
    above) is all zeros, and no error is raised. *)
Theorem one_hot_rows (x : list Z) (k : Z) :
  length (one_hot x k) = length x /\
  Forall (fun row => length row = Z.to_nat k) (one_hot x k) /\
  map row_sum (one_hot x k) = map (fun label => if is_class k label then 1 else 0) x /\
  forall (i : nat) (j : nat) (label : Z) (row : list Z),
    x !! i = Some label ->
    one_hot x k !! i = Some row ->
    (j < Z.to_nat k)%nat ->
    row !! j = Some (if label =? Z.of_nat j then 1 else 0).
Proof.
  unfold one_hot. split; [apply length_map|]. split; [|split].
  - rewrite List.Forall_forall. intros row Hin.
    apply List.in_map_iff in Hin as (label & <- & _).
    unfold arange. rewrite !length_map, length_seq. reflexivity.
  - rewrite map_map. apply map_ext. intros label.
    rewrite one_hot_row, row_sum_indicator. unfold is_class.
    rewrite Nat.add_0_l. change (Z.of_nat 0) with 0.
    destruct (Z.leb_spec 0 label), (Z.ltb_spec label k),
      (Z.ltb_spec label (Z.of_nat (Z.to_nat k))); cbn; try reflexivity; lia.
  - intros i j label row Hlabel Hrow Hj.
    rewrite list_lookup_fmap, Hlabel in Hrow. cbn in Hrow. injection Hrow as <-.
    rewrite one_hot_row, list_lookup_fmap, lookup_seq_lt by exact Hj.
    reflexivity.
Qed.

(** X15.  With at least one class, the target classes that [run_on_batch]
    reads back from the one-hot targets are the labels themselves for
    labels in [0, ..., k - 1]; every other label is silently turned into
    class [0]. *)
Theorem target_class_of_one_hot (y : list Z) (k : Z) :
  0 < k ->
  target_class y k
  = map (fun label => Some (if is_class k label then label else 0)) y.
Proof.
  intros Hk. unfold target_class, one_hot. rewrite map_map.
  apply map_ext. intros label. rewrite one_hot_row.
  destruct (Z.to_nat k) as [|n] eqn:Hn; [lia|].
  cbn [seq map argmax]. f_equal. unfold is_class.
  destruct (Z.eqb_spec label (Z.of_nat 0)) as [Heq|Hne].
  - replace (indicator label 0) with 1
      by (unfold indicator; destruct (Z.eqb_spec label (Z.of_nat 0)); lia).
    rewrite argmax_from_no_greater by apply indicator_le_1.
    destruct (Z.leb_spec 0 label), (Z.ltb_spec label k); cbn; lia.
  - replace (indicator label 0) with 0
      by (unfold indicator; destruct (Z.eqb_spec label (Z.of_nat 0)); lia).
    rewrite argmax_from_indicator.
    destruct (Z.leb_spec (Z.of_nat 1) label),
      (Z.ltb_spec label (Z.of_nat (1 + n))),
      (Z.leb_spec 0 label), (Z.ltb_spec label k); cbn; lia.
Qed.

(** Labels 3, 0, 10 and -1 with ten classes. *)
Example one_hot_of_four_labels :
  map row_sum (one_hot [3; 0; 10; -1] 10) = [1; 1; 0; 0] /\
  target_class [3; 0; 10; -1] 10 = [Some 3; Some 0; Some 0; Some 0].
Proof. split; reflexivity. Qed.

(** Witness of [target_class_of_one_hot], on the same labels. *)
Lemma target_class_of_one_hot_witness :
  0 < 10 /\
  target_class [3; 0; 10; -1] 10
  = map (fun label => Some (if is_class 10 label then label else 0)) [3; 0; 10; -1].
Proof.
  assert (H : 0 < 10) by reflexivity.
  split; [exact H|].
  exact (target_class_of_one_hot [3; 0; 10; -1] 10 H).
Defined.

End MnistExample.

(* ===================================================================== *)
(** * skip_error.py: the constructor of [SkipError]                       *)
(* ===================================================================== *)

Module SkipErrModel.

(** [pxnn.Linear(in_features, out_features, bias=...)], as the arguments
    it is built from. *)
Record Linear : Type := mkLinear {
  in_features : Z;
  out_features : Z;
  bias : bool }.

(** An energy function that the constructor names: [pxc.se_energy]. *)
Inductive energy_fn : Type :=
| se_energy.

(** A node, as the call that builds it and the flag [h.frozen], which is
    off in a new node: [vode_energy] is the argument of the call,
    [Some se_energy] for [pxc.Vode(pxc.se_energy)] and [None] for
    [pxc.Vode()], which leaves the choice of the energy to the library. *)
Record Vode : Type := mkVode {
  vode_energy : option energy_fn;
  frozen : bool }.

(** The attributes that [__init__] sets ([act_fn], stored as it is given,
    is left out). *)
Record SkipError : Type := mkSkipError {
  num_layers : Z;
  input_dim : list Z;
  hidden_dim : Z;
  num_classes : Z;
  skip_error_layer_indices : list Z;
  layer_dims : list Z;
  layers : list Linear;
  skip_error_layers : list Linear;
  vodes : list Vode }.

(** What the constructor produces: the object, or [IndexError]. *)
Inductive construction : Type :=
| Constructed (model : SkipError)
| RaiseIndexError.

(** [math.prod] *)
Definition prod (l : list Z) : Z := fold_right Z.mul 1 l.

(** The position that Python's [l[index]] reads in a list of [len]
    elements: negative indices count from the end; [None] stands for
    [IndexError]. *)
Definition py_index (len : nat) (index : Z) : option nat :=
  if (0 <=? index) && (index <? Z.of_nat len) then Some (Z.to_nat index)
  else if (index <? 0) && (- Z.of_nat len <=? index)
       then Some (Z.to_nat (Z.of_nat len + index))
       else None.

(** [vodes[index].h.frozen = True] *)
Definition set_frozen (vodes : list Vode) (index : Z) : option (list Vode) :=
  match py_index (length vodes) index with
  | Some i => Some (alter (fun v => mkVode (vode_energy v) true) i vodes)
  | None => None
  end.

(** [for index in self.skip_error_layer_indices: self.vodes[index].h.frozen = True] *)
Fixpoint freeze_skip (indices : list Z) (vodes : list Vode) : option (list Vode) :=
  match indices with
  | [] => Some vodes
  | index :: rest =>
      match set_frozen vodes index with
      | Some vodes' => freeze_skip rest vodes'
      | None => None
      end
  end.

(** [SkipError.__init__] *)
Definition __init__ (num_layers : Z) (input_dim : list Z) (hidden_dim : Z)
  (num_classes : Z) (skip_error_layer_indices : list Z)
  (freeze_skip_layers : bool) : construction :=
  let layer_dims :=
    [prod input_dim] ++ replicate (Z.to_nat (num_layers - 1)) hidden_dim
    ++ [num_classes] in
  let layers :=
    map (fun io => mkLinear (fst io) (snd io) true)
        (zip (removelast layer_dims) (tail layer_dims)) in
  let skip_error_layers :=
    map (fun _ => mkLinear num_classes hidden_dim false)
        (seq 0 (length skip_error_layer_indices)) in
  let vodes :=
    map (fun _ => mkVode None false) (removelast (tail layer_dims)) in
  let vodes := vodes ++ [mkVode (Some se_energy) false] in
  match set_frozen vodes (-1) with
  | None => RaiseIndexError
  | Some vodes =>
      let frozen_vodes :=
        if freeze_skip_layers then freeze_skip skip_error_layer_indices vodes
        else Some vodes in
      match frozen_vodes with
      | None => RaiseIndexError
      | Some vodes =>
          Constructed
            (mkSkipError num_layers input_dim hidden_dim num_classes
                         skip_error_layer_indices layer_dims layers
                         skip_error_layers vodes)
      end
  end.

(** The number of layers built: [num_layers], and one when [num_layers]
    is less. *)
Definition depth (num_layers : Z) : nat := S (Z.to_nat (num_layers - 1)).

(** Whether [index] is a valid index of a list of [len] elements. *)
Definition valid_index (len : nat) (index : Z) : bool :=
  (- Z.of_nat len <=? index) && (index <? Z.of_nat len).

(** The nodes before the freezing of the skip layers. *)
Definition initial_vodes (n : nat) : list Vode :=
  replicate n (mkVode None false) ++ [mkVode (Some se_energy) true].

Lemma py_index_valid (len : nat) (index : Z) :
  valid_index len index = true ->
  exists i, py_index len index = Some i /\ (i < len)%nat.
Proof.
  unfold valid_index, py_index. intros H.
  apply andb_true_iff in H as [H1 H2].
  apply Z.leb_le in H1. apply Z.ltb_lt in H2.
  destruct (Z.leb_spec 0 index).
  - rewrite (proj2 (Z.ltb_lt _ _) H2). cbn. eexists. split; [reflexivity | lia].
  - cbn. rewrite (proj2 (Z.ltb_lt index 0)) by lia.
    rewrite (proj2 (Z.leb_le _ _) H1). cbn. eexists. split; [reflexivity | lia].
Qed.

Lemma py_index_invalid (len : nat) (index : Z) :
  valid_index len index = false -> py_index len index = None.
Proof.
  unfold valid_index, py_index. intros H.
  destruct (Z.leb_spec 0 index), (Z.ltb_spec index (Z.of_nat len)),
    (Z.ltb_spec index 0), (Z.leb_spec (- Z.of_nat len) index);
    cbn in *; try reflexivity; try discriminate; lia.
Qed.

Lemma py_index_Some (len : nat) (index : Z) (i : nat) :
  py_index len index = Some i -> valid_index len index = true /\ (i < len)%nat.
Proof.
  intros H. destruct (valid_index len index) eqn:Hv.
  - destruct (py_index_valid _ _ Hv) as (j & Hj & Hlt). split; [reflexivity|].
    congruence.
  - rewrite (py_index_invalid _ _ Hv) in H. discriminate.
Qed.

(** The loop over the indices: it fails exactly when one of them is out
    of range, and otherwise freezes the nodes they name and no other. *)
Lemma freeze_skip_spec (indices : list Z) :
  forall vodes : list Vode,
    if forallb (valid_index (length vodes)) indices then
      exists vodes',
        freeze_skip indices vodes = Some vodes' /\
        length vodes' = length vodes /\
        forall (i : nat) (v : Vode),
          vodes !! i = Some v ->
          exists v',
            vodes' !! i = Some v' /\
            vode_energy v' = vode_energy v /\
            (frozen v' = true <->
             frozen v = true \/
             exists index, List.In index indices /\
                           py_index (length vodes) index = Some i)
    else freeze_skip indices vodes = None.
Proof.
  induction indices as [|index rest IH]; intros vodes.
  - cbn. exists vodes. split; [reflexivity|]. split; [reflexivity|].
    intros i v Hv. exists v. split; [exact Hv|]. split; [reflexivity|].
    split; [tauto|]. intros [H | (index & [] & _)]. exact H.
  - cbn [forallb freeze_skip]. unfold set_frozen.
    destruct (valid_index (length vodes) index) eqn:Hvalid; cbn [andb].
    + destruct (py_index_valid _ _ Hvalid) as (j & Hj & Hlt). rewrite Hj.
      specialize (IH (alter (fun v => mkVode (vode_energy v) true) j vodes)).
      rewrite length_alter in IH.
      destruct (forallb (valid_index (length vodes)) rest); [|exact IH].
      destruct IH as (vodes' & Hrun & Hlen & Hpoint).
      exists vodes'. split; [exact Hrun|]. split; [exact Hlen|].
      intros i v Hv.
      destruct (decide (i = j)) as [->|Hne].
      * destruct (Hpoint j (mkVode (vode_energy v) true)) as (v' & Hv' & He & Hf).
        { rewrite list_lookup_alter_eq, Hv. reflexivity. }
        exists v'. split; [exact Hv'|]. split; [exact He|].
        split; [|intros _; apply Hf; left; reflexivity].
        intros _. right. exists index. split; [left; reflexivity | exact Hj].
      * destruct (Hpoint i v) as (v' & Hv' & He & Hf).
        { rewrite list_lookup_alter_ne by congruence. exact Hv. }
        exists v'. split; [exact Hv'|]. split; [exact He|].
        rewrite Hf. split.
        -- intros [H | (idx & Hin & Hidx)]; [left; exact H|].
           right. exists idx. split; [right; exact Hin | exact Hidx].
        -- intros [H | (idx & [<- | Hin] & Hidx)]; [left; exact H | congruence |].
           right. exists idx. split; assumption.
    + rewrite (py_index_invalid _ _ Hvalid). reflexivity.
Qed.

Lemma removelast_snoc {X : Type} (l : list X) (x : X) : removelast (l ++ [x]) = l.
Proof. apply removelast_last. Qed.

Lemma initial_set_frozen (n : nat) :
  set_frozen (replicate n (mkVode None false) ++ [mkVode (Some se_energy) false])
             (-1)
  = Some (initial_vodes n).
Proof.
  unfold set_frozen, py_index.
  rewrite length_app, length_replicate. cbn [length].
  destruct (Z.leb_spec 0 (-1)); [lia|]. cbn [andb].
  destruct (Z.ltb_spec (-1) 0); [|lia].
  destruct (Z.leb_spec (- Z.of_nat (n + 1)) (-1)); [|lia]. cbn [andb].
  replace (Z.to_nat (Z.of_nat (n + 1) + -1)) with (length (replicate n (mkVode None false)) + 0)%nat
    by (rewrite length_replicate; lia).
  rewrite alter_app_r. reflexivity.
Qed.

(** The layers as a chain from [first] through [n] hidden layers. *)
Fixpoint chain (hidden_dim num_classes : Z) (n : nat) (first : Z) : list Linear :=
  match n with
  | O => [mkLinear first num_classes true]
  | S k => mkLinear first hidden_dim true :: chain hidden_dim num_classes k hidden_dim
  end.

Lemma layers_are_chain (hidden_dim num_classes : Z) (n : nat) :
  forall first : Z,
    map (fun io => mkLinear (fst io) (snd io) true)
        (zip (first :: replicate n hidden_dim)
             (replicate n hidden_dim ++ [num_classes]))
    = chain hidden_dim num_classes n first.
Proof.
  induction n as [|n IH]; intros first; [reflexivity|].
  change (map (fun io => mkLinear (fst io) (snd io) true)
              (zip (first :: replicate (S n) hidden_dim)
                   (replicate (S n) hidden_dim ++ [num_classes])))
    with (mkLinear first hidden_dim true
          :: map (fun io => mkLinear (fst io) (snd io) true)
                 (zip (hidden_dim :: replicate n hidden_dim)
                      (replicate n hidden_dim ++ [num_classes]))).
  rewrite IH. reflexivity.
Qed.

(** The constructor, with its lists written out. *)
Lemma __init___unfold (num_layers : Z) (input_dim : list Z) (hidden_dim : Z)
  (num_classes : Z) (indices : list Z) (freeze_skip_layers : bool) :
  let n := Z.to_nat (num_layers - 1) in
  let dims := [prod input_dim] ++ replicate n hidden_dim ++ [num_classes] in
  __init__ num_layers input_dim hidden_dim num_classes indices freeze_skip_layers
  = match (if freeze_skip_layers then freeze_skip indices (initial_vodes n)
           else Some (initial_vodes n)) with
    | None => RaiseIndexError
    | Some vodes =>
        Constructed
          (mkSkipError num_layers input_dim hidden_dim num_classes indices dims
             (chain hidden_dim num_classes n (prod input_dim))
             (map (fun _ => mkLinear num_classes hidden_dim false)
                  (seq 0 (length indices)))
             vodes)
    end.
Proof.
  cbv zeta. unfold __init__.
  set (n := Z.to_nat (num_layers - 1)).
  cbn [app tail].
  rewrite removelast_snoc.
  replace (removelast (prod input_dim :: replicate n hidden_dim ++ [num_classes]))
    with (prod input_dim :: replicate n hidden_dim)
    by (rewrite app_comm_cons, removelast_snoc; reflexivity).
  replace (map (fun _ : Z => mkVode None false) (replicate n hidden_dim))
    with (replicate n (mkVode None false))
    by (induction n as [|k IH]; cbn; [reflexivity | rewrite <- IH; reflexivity]).
  rewrite initial_set_frozen, layers_are_chain. reflexivity.
Qed.

Lemma layers_chain (hidden_dim num_classes : Z) (n : nat) :
  forall first : Z,
    let built := chain hidden_dim num_classes n first in
    length built = S n /\
    in_features <$> head built = Some first /\
    out_features <$> last built = Some num_classes /\
    forall (i : nat) (a b : Linear),
      built !! i = Some a -> built !! S i = Some b ->
      out_features a = hidden_dim /\ in_features b = hidden_dim.
Proof.
  induction n as [|n IH]; intros first; cbv zeta.
  - cbn. split; [reflexivity|]. split; [reflexivity|]. split; [reflexivity|].
    intros i a b Ha Hb. destruct i; discriminate.
  - specialize (IH hidden_dim). cbv zeta in IH.
    destruct IH as (Hlen & Hhead & Hlast & Hchain).
    cbn [chain].
    set (built := chain hidden_dim num_classes n hidden_dim) in *.
    split; [cbn [length]; rewrite Hlen; reflexivity|].
    split; [reflexivity|].
    split.
    + destruct built as [|l built']; [discriminate|]. exact Hlast.
    + intros i a b Ha Hb. destruct i as [|i].
      * cbn in Ha. injection Ha as <-. cbn [lookup list_lookup] in Hb.
        split; [reflexivity|].
        destruct built as [|l built']; [discriminate|].
        cbn in Hb, Hhead. congruence.
      * exact (Hchain i a b Ha Hb).
Qed.

Lemma initial_vodes_lookup (n i : nat) (v : Vode) :
  initial_vodes n !! i = Some v ->
  (i < n)%nat /\ v = mkVode None false \/
  i = n /\ v = mkVode (Some se_energy) true.
Proof.
  unfold initial_vodes. intros H.
  apply lookup_app_Some in H as [H | [Hge H]].
  - apply lookup_replicate in H as [-> Hlt]. left. split; [exact Hlt | reflexivity].
  - rewrite length_replicate in *. right.
    destruct (i - n)%nat as [|k] eqn:Hk; [|destruct k; discriminate].
    cbn in H. split; [lia | congruence].
Qed.

Lemma initial_vodes_length (n : nat) : length (initial_vodes n) = S n.
Proof. unfold initial_vodes. rewrite length_app, length_replicate. cbn. lia. Qed.

Lemma forallb_false_exists {X : Type} (f : X -> bool) (l : list X) :
  forallb f l = false <-> exists x, List.In x l /\ f x = false.
Proof.
  induction l as [|x l IH]; cbn.
  - split; [discriminate | intros (x & [] & _)].
  - rewrite andb_false_iff, IH. split.
    + intros [H | (y & Hin & Hy)]; [exists x; auto | exists y; auto].
    + intros (y & [<- | Hin] & Hy); [left; exact Hy | right; exists y; auto].
Qed.

(** X16.  A constructed [SkipError] has [max (num_layers, 1)] linear
    layers and as many nodes, and one skip layer per skip index.  The
    layers chain: the first reads [prod (input_dim)] features, the last
    writes [num_classes], and every layer between two others both reads
    and writes [hidden_dim] features. *)
Theorem constructed_network_shape (num_layers : Z) (input_dim : list Z)
  (hidden_dim num_classes : Z) (indices : list Z) (freeze_skip_layers : bool)
  (model : SkipError) :
  __init__ num_layers input_dim hidden_dim num_classes indices freeze_skip_layers
    = Constructed model ->
  length (layers model) = Z.to_nat (Z.max num_layers 1) /\
  length (vodes model) = Z.to_nat (Z.max num_layers 1) /\
  length (skip_error_layers model) = length indices /\
  in_features <$> head (layers model) = Some (prod input_dim) /\
  out_features <$> last (layers model) = Some num_classes /\
  forall (i : nat) (a b : Linear),
    layers model !! i = Some a -> layers model !! S i = Some b ->
    out_features a = hidden_dim /\ in_features b = hidden_dim.
Proof.
  intros Hinit.
  pose proof (__init___unfold num_layers input_dim hidden_dim num_classes indices
                freeze_skip_layers) as Hunfold.
  cbv zeta in Hunfold. rewrite Hunfold in Hinit. clear Hunfold.
  set (n := Z.to_nat (num_layers - 1)) in *.
  assert (Hvodes : forall vodes',
            (if freeze_skip_layers then freeze_skip indices (initial_vodes n)
             else Some (initial_vodes n)) = Some vodes' ->
            length vodes' = S n).
  { intros vodes' H. destruct freeze_skip_layers.
    - pose proof (freeze_skip_spec indices (initial_vodes n)) as Hspec.
      destruct (forallb _ indices); [|congruence].
      destruct Hspec as (v2 & Hrun & Hlen & _).
      rewrite initial_vodes_length in Hlen. congruence.
    - injection H as <-. apply initial_vodes_length. }
  destruct (if freeze_skip_layers then _ else _) as [vodes'|]; [|discriminate].
  injection Hinit as <-. cbn [layers vodes skip_error_layers].
  destruct (layers_chain hidden_dim num_classes n (prod input_dim))
    as (Hlen & Hhead & Hlast & Hchain).
  split; [rewrite Hlen; subst n; lia|].
  split; [rewrite (Hvodes vodes' eq_refl); subst n; lia|].
  split; [rewrite length_map, length_seq; reflexivity|].
  split; [exact Hhead|]. split; [exact Hlast | exact Hchain].
Qed.

(** X17.  In a constructed [SkipError] the frozen nodes are the last
    one and, when [freeze_skip_layers] is set, the nodes that the skip
    indices name (a negative index counting from the end); no other node
    is frozen. *)
Theorem constructed_frozen_nodes (num_layers : Z) (input_dim : list Z)
  (hidden_dim num_classes : Z) (indices : list Z) (freeze_skip_layers : bool)
  (model : SkipError) :
  __init__ num_layers input_dim hidden_dim num_classes indices freeze_skip_layers
    = Constructed model ->
  forall (i : nat) (v : Vode),
    vodes model !! i = Some v ->
    (frozen v = true <->
     S i = length (vodes model) \/
     (freeze_skip_layers = true /\
      exists index, List.In index indices /\
                    py_index (length (vodes model)) index = Some i)).
Proof.
  intros Hinit i v Hv.
  pose proof (__init___unfold num_layers input_dim hidden_dim num_classes indices
                freeze_skip_layers) as Hunfold.
  cbv zeta in Hunfold. rewrite Hunfold in Hinit. clear Hunfold.
  set (n := Z.to_nat (num_layers - 1)) in *.
  destruct freeze_skip_layers.
  - pose proof (freeze_skip_spec indices (initial_vodes n)) as Hspec.
    destruct (forallb _ indices).
    2:{ rewrite Hspec in Hinit. discriminate. }
    destruct Hspec as (vodes' & Hrun & Hlen & Hpoint).
    rewrite Hrun in Hinit. injection Hinit as <-. cbn [vodes] in *.
    rewrite Hlen, initial_vodes_length in *.
    assert (Hi : (i < S n)%nat).
    { apply lookup_lt_Some in Hv. lia. }
    destruct (lookup_lt_is_Some_2 (initial_vodes n) i) as [v0 Hv0];
      [rewrite initial_vodes_length; exact Hi|].
    destruct (Hpoint i v0 Hv0) as (v' & Hv' & He & Hf).
    assert (v' = v) as -> by congruence.
    rewrite Hf.
    destruct (initial_vodes_lookup n i v0 Hv0) as [[Hlt ->] | [-> ->]]; cbn.
    + split.
      * intros [H | H]; [discriminate|]. right. split; [reflexivity | exact H].
      * intros [H | [_ H]]; [lia | right; exact H].
    + split; [left; reflexivity | left; reflexivity].
  - injection Hinit as <-. cbn [vodes] in *.
    rewrite initial_vodes_length.
    destruct (initial_vodes_lookup n i v Hv) as [[Hlt ->] | [-> ->]]; cbn.
    + split; [discriminate|].
      intros [H | [H _]]; [lia | discriminate].
    + split; [left; reflexivity | reflexivity].
Qed.

(** X18.  The constructor raises [IndexError] exactly when
    [freeze_skip_layers] is set and some skip index lies outside
    [-n, ..., n - 1], for [n = max (num_layers, 1)] nodes.  With
    [freeze_skip_layers] off the skip indices are not checked at all. *)
Theorem construction_fails_iff (num_layers : Z) (input_dim : list Z)
  (hidden_dim num_classes : Z) (indices : list Z) (freeze_skip_layers : bool) :
  __init__ num_layers input_dim hidden_dim num_classes indices freeze_skip_layers
    = RaiseIndexError <->
  freeze_skip_layers = true /\
  exists index, List.In index indices /\
                (index < - Z.max num_layers 1 \/ Z.max num_layers 1 <= index).
Proof.
  pose proof (__init___unfold num_layers input_dim hidden_dim num_classes indices
                freeze_skip_layers) as Hunfold.
  cbv zeta in Hunfold. rewrite Hunfold. clear Hunfold.
  set (n := Z.to_nat (num_layers - 1)).
  destruct freeze_skip_layers.
  2:{ split; [discriminate | intros [H _]; discriminate]. }
  pose proof (freeze_skip_spec indices (initial_vodes n)) as Hspec.
  rewrite initial_vodes_length in Hspec.
  destruct (forallb (valid_index (S n)) indices) eqn:Hall.
  - destruct Hspec as (vodes' & -> & _). split; [discriminate|].
    intros (_ & index & Hin & Hout). exfalso.
    rewrite forallb_forall in Hall. specialize (Hall index Hin).
    unfold valid_index in Hall. apply andb_true_iff in Hall as [H1 H2].
    apply Z.leb_le in H1. apply Z.ltb_lt in H2. subst n. lia.
  - rewrite Hspec. split; [|reflexivity]. intros _. split; [reflexivity|].
    apply forallb_false_exists in Hall as (index & Hin & Hout).
    exists index. split; [exact Hin|].
    unfold valid_index in Hout. apply andb_false_iff in Hout as [H | H].
    + apply Z.leb_gt in H. left. subst n. lia.
    + apply Z.ltb_ge in H. right. subst n. lia.
Qed.

(** Four layers on 2 x 3 x 4 inputs, skip layers at the nodes 1 and -2. *)
Example four_layer_network :
  match __init__ 4 [2; 3; 4] 16 10 [1; -2] true with
  | Constructed model =>
      layer_dims model = [24; 16; 16; 16; 10] /\
      map (fun l => (in_features l, out_features l)) (layers model)
      = [(24, 16); (16, 16); (16, 16); (16, 10)] /\
      map frozen (vodes model) = [false; true; true; true]
  | RaiseIndexError => False
  end.
Proof. cbn. repeat split. Qed.

(** An index past the last node is an error only when the skip layers are
    to be frozen. *)
Example skip_index_checked_only_when_freezing :
  __init__ 4 [2; 3; 4] 16 10 [4] true = RaiseIndexError /\
  __init__ 4 [2; 3; 4] 16 10 [4] false <> RaiseIndexError.
Proof. split; [reflexivity | discriminate]. Qed.

(** Witness of [constructed_network_shape], on the network above. *)
Lemma constructed_network_shape_witness :
  exists model : SkipError,
    __init__ 4 [2; 3; 4] 16 10 [1; -2] true = Constructed model /\
    length (layers model) = Z.to_nat (Z.max 4 1) /\
    length (vodes model) = Z.to_nat (Z.max 4 1) /\
    length (skip_error_layers model) = length [1; -2] /\
    in_features <$> head (layers model) = Some (prod [2; 3; 4]) /\
    out_features <$> last (layers model) = Some 10 /\
    forall (i : nat) (a b : Linear),
      layers model !! i = Some a -> layers model !! S i = Some b ->
      out_features a = 16 /\ in_features b = 16.
Proof.
  eexists.
  assert (H : __init__ 4 [2; 3; 4] 16 10 [1; -2] true = Constructed _)
    by (vm_compute; reflexivity).
  split; [exact H|].
  exact (constructed_network_shape 4 [2; 3; 4] 16 10 [1; -2] true _ H).
Defined.

(** Witness of [constructed_frozen_nodes], on the same network. *)
Lemma constructed_frozen_nodes_witness :
  exists model : SkipError,
    __init__ 4 [2; 3; 4] 16 10 [1; -2] true = Constructed model /\
    forall (i : nat) (v : Vode),
      vodes model !! i = Some v ->
      (frozen v = true <->
       S i = length (vodes model) \/
       (true = true /\
        exists index, List.In index [1; -2] /\
                      py_index (length (vodes model)) index = Some i)).
Proof.
  eexists.
  assert (H : __init__ 4 [2; 3; 4] 16 10 [1; -2] true = Constructed _)
    by (vm_compute; reflexivity).
  split; [exact H|].
  exact (constructed_frozen_nodes 4 [2; 3; 4] 16 10 [1; -2] true _ H).
Defined.

End SkipErrModel.

(* ===================================================================== *)
(** * Further results on [run_experiment]                                 *)
(* ===================================================================== *)

Module SkipErrFacts.

Import SkipErr.

Section Facts.

Context {E : Experiment}.

(** The [effective_beta] of the first epoch. *)
Definition first_beta (cfg : Config) : Beta :=
  if beta_annealing cfg then annealed_beta (beta cfg) 0 else beta cfg.

(** The accuracy that [eval] returns after the first epoch of training. *)
Definition first_accuracy (cfg : Config) (rule : optim_w_rule) (w : World) : Acc :=
  fst (eval (train (first_beta cfg) (new_optim_w rule (new_optim_h (setup w))))).

Lemma py_min_nonempty (a : Acc) (l : list Acc) :
  exists m, py_min (a :: l) = Some m.
Proof. cbn. eauto. Qed.

Lemma fold_min_least (rest : list Acc) :
  (forall a b c, acc_lt a b = true -> acc_lt b c = true -> acc_lt a c = true) ->
  (forall a b, acc_lt a b = true -> acc_lt b a = false) ->
  forall (best : Acc) (seen : list Acc),
    (forall y, List.In y seen -> acc_lt y best = false) ->
    forall y, List.In y (seen ++ rest) ->
      acc_lt y (fold_left (fun best y => if acc_lt y best then y else best) rest best)
      = false.
Proof.
  intros Htrans Hasym. induction rest as [|x rest IH]; intros best seen Hseen y Hy.
  - rewrite app_nil_r in Hy. cbn. apply Hseen. exact Hy.
  - cbn [fold_left].
    apply (IH _ (seen ++ [x])); [|rewrite <- app_assoc; exact Hy].
    intros z Hz. apply List.in_app_iff in Hz as [Hz | [<- | []]].
    + destruct (acc_lt x best) eqn:Hx; [|apply Hseen; exact Hz].
      destruct (acc_lt z x) eqn:Hzx; [|reflexivity].
      rewrite <- (Hseen z Hz). symmetry. apply (Htrans z x best); assumption.
    + destruct (acc_lt x best) eqn:Hx; [|exact Hx].
      destruct (acc_lt x x) eqn:Hxx; [|reflexivity].
      pose proof (Hasym x x Hxx). congruence.
Qed.

Lemma py_min_least (l : list Acc) (m : Acc) :
  (forall a b c, acc_lt a b = true -> acc_lt b c = true -> acc_lt a c = true) ->
  (forall a b, acc_lt a b = true -> acc_lt b a = false) ->
  py_min l = Some m ->
  forall y, List.In y l -> acc_lt y m = false.
Proof.
  intros Htrans Hasym Hm y Hy. destruct l as [|x rest]; [discriminate|].
  cbn [py_min] in Hm. injection Hm as <-.
  apply (fold_min_least rest Htrans Hasym x [x]); [|exact Hy].
  intros z [<- | []]. destruct (acc_lt x x) eqn:Hxx; [|reflexivity].
  pose proof (Hasym x x Hxx). congruence.
Qed.

Lemma eval_in_epoch_events (a : Acc) (valid : list Acc) (diverged : option Acc) :
  forall epoch e : nat,
    List.In (SeEval e a) (epoch_events epoch valid diverged) ->
    List.In a valid \/ diverged = Some a.
Proof.
  induction valid as [|b valid IH]; intros epoch e Hin.
  - cbn in Hin. destruct diverged as [d|]; [|destruct Hin].
    destruct Hin as [H | [H | [H | []]]]; try discriminate.
    right. congruence.
  - cbn in Hin. destruct Hin as [H | [H | Hin]]; [discriminate | |].
    + left. left. congruence.
    + destruct (IH _ _ Hin) as [H | H]; [left; right; exact H | right; exact H].
Qed.

Lemma valid_in_epoch_events (a : Acc) (valid : list Acc) (diverged : option Acc) :
  forall epoch : nat,
    List.In a valid ->
    exists e, List.In (SeEval e a) (epoch_events epoch valid diverged).
Proof.
  induction valid as [|b valid IH]; intros epoch Hin; [destruct Hin|].
  destruct Hin as [<- | Hin].
  - exists epoch. cbn. right. left. reflexivity.
  - destruct (IH (S epoch) Hin) as [e He]. exists e. cbn. right. right. exact He.
Qed.

(** X19.  The value that [run_experiment] returns is the accuracy of one
    of the epochs it completed, and no completed epoch has an accuracy
    below it: the score of a run is that of its worst epoch, not of its
    last or best one.  (It is NaN when no epoch was completed.)  The order
    [<] on accuracies is transitive and asymmetric, as it is on floats. *)
Theorem run_experiment_returns_worst_epoch (cfg : Config) (w : World) :
  (forall a b c, acc_lt a b = true -> acc_lt b c = true -> acc_lt a c = true) ->
  (forall a b, acc_lt a b = true -> acc_lt b a = false) ->
  known_optim_w (optim_w_name cfg) = true ->
  exists (r : Acc) (w' : World) (log : list event),
    run_experiment cfg w = (Ok r, w', log) /\
    (forall (e : nat) (a : Acc),
       List.In (SeEval e a) log -> isnan a = false -> acc_lt a r = false) /\
    ((exists e, List.In (SeEval e r) log /\ isnan r = false) \/
     (r = nan /\ forall (e : nat) (a : Acc),
                   List.In (SeEval e a) log -> isnan a = true)).
Proof.
  intros Htrans Hasym Hknown. unfold run_experiment.
  destruct (select_optim_w_known _ Hknown) as [rule ->].
  match goal with
  | |- context [epoch_loop cfg ?n O [] None ?w0 ?lg] =>
      destruct (epoch_loop_spec cfg n O [] None w0 lg)
        as (valid & diverged & best' & w' & Hloop & Hvalid & Hfull & Hdiv)
  end.
  rewrite Hloop. cbn [app].
  eexists _, w', _. split; [reflexivity|].
  rewrite List.Forall_forall in Hvalid.
  assert (Hevents : forall (e : nat) (a : Acc),
            List.In (SeEval e a)
              (SeSetup :: SeNewOptimH :: SeNewOptimW rule
               :: epoch_events 0 valid diverged) ->
            List.In a valid \/ diverged = Some a).
  { intros e a [H | [H | [H | H]]]; try discriminate.
    exact (eval_in_epoch_events a valid diverged _ _ H). }
  split.
  - intros e a Hin Hnan.
    destruct (Hevents e a Hin) as [Ha | Ha].
    2:{ destruct (Hdiv a Ha) as [Hn _]. congruence. }
    destruct valid as [|x rest]; [destruct Ha|].
    destruct (py_min_nonempty x rest) as [m Hm]. rewrite Hm.
    exact (py_min_least _ _ Htrans Hasym Hm a Ha).
  - destruct valid as [|x rest].
    + right. split; [reflexivity|]. intros e a Hin.
      destruct (Hevents e a Hin) as [[] | Ha].
      destruct (Hdiv a Ha) as [Hn _]. exact Hn.
    + left. destruct (py_min_nonempty x rest) as [m Hm]. rewrite Hm.
      pose proof (py_min_In _ _ Hm) as Hin.
      destruct (valid_in_epoch_events m (x :: rest) diverged 0 Hin) as [e He].
      exists e. split; [do 3 right; exact He | apply Hvalid; exact Hin].
Qed.

(** X20.  With a known optimizer name, the value returned is NaN exactly
    when no epoch was asked for ([epochs <= 0]) or the accuracy of the very
    first epoch is NaN; a divergence in any later epoch does not show in
    the value returned. *)
Theorem run_experiment_returns_nan_iff (cfg : Config) (w : World) :
  isnan nan = true ->
  known_optim_w (optim_w_name cfg) = true ->
  exists (rule : optim_w_rule) (r : Acc) (w' : World) (log : list event),
    select_optim_w (optim_w_name cfg) = Ok rule /\
    run_experiment cfg w = (Ok r, w', log) /\
    (isnan r = true <->
     epochs cfg <= 0 \/ isnan (first_accuracy cfg rule w) = true).
Proof.
  intros Hnan Hknown. unfold run_experiment.
  destruct (select_optim_w_known _ Hknown) as [rule Hrule]. rewrite Hrule.
  exists rule.
  destruct (Z.to_nat (epochs cfg)) as [|n] eqn:Hn.
  - cbn. eexists _, _, _. split; [reflexivity|]. split; [reflexivity|].
    split; [intros _; left; lia | intros _; exact Hnan].
  - cbn [epoch_loop]. unfold first_accuracy, first_beta.
    destruct (eval _) as [mean_acc w2] eqn:Heval. cbn [fst].
    destruct (isnan mean_acc) eqn:Hacc.
    + cbn. eexists _, _, _. split; [reflexivity|]. split; [reflexivity|].
      split; [intros _; right; reflexivity | intros _; exact Hnan].
    + match goal with
      | |- context [epoch_loop cfg n 1%nat ?ta ?ba w2 ?lg] =>
          destruct (epoch_loop_spec cfg n 1%nat ta ba w2 lg)
            as (valid & diverged & best' & w' & Hloop & Hvalid & _ & _)
      end.
      rewrite Hloop. cbn [app].
      eexists _, _, _. split; [reflexivity|]. split; [reflexivity|].
      destruct (py_min_nonempty mean_acc valid) as [m Hm]. rewrite Hm.
      pose proof (py_min_In _ _ Hm) as Hin.
      assert (Hm_ok : isnan m = false).
      { destruct Hin as [<- | Hin]; [exact Hacc|].
        rewrite List.Forall_forall in Hvalid. apply Hvalid. exact Hin. }
      rewrite Hm_ok. split; [discriminate|].
      intros [H | H]; [lia | discriminate].
Qed.

End Facts.

(** ** On the scripted instance *)

Lemma scripted_lt_trans (a b c : option Z) :
  acc_lt (Experiment := scripted) a b = true ->
  acc_lt (Experiment := scripted) b c = true ->
  acc_lt (Experiment := scripted) a c = true.
Proof.
  destruct a, b, c; cbn; try discriminate. intros H1 H2.
  apply Z.ltb_lt in H1, H2. apply Z.ltb_lt. lia.
Qed.

Lemma scripted_lt_asym (a b : option Z) :
  acc_lt (Experiment := scripted) a b = true ->
  acc_lt (Experiment := scripted) b a = false.
Proof.
  destruct a, b; cbn; try discriminate. intros H.
  apply Z.ltb_lt in H. apply Z.ltb_ge. lia.
Qed.

(** Witness of [run_experiment_returns_worst_epoch]: three healthy
    epochs. *)
Lemma run_experiment_returns_worst_epoch_witness :
  let cfg := scripted_cfg "sgd" 3 in
  let w := [Some 70; Some 60; Some 80] in
  (forall a b c : option Z,
     acc_lt (Experiment := scripted) a b = true ->
     acc_lt (Experiment := scripted) b c = true ->
     acc_lt (Experiment := scripted) a c = true) /\
  (forall a b : option Z,
     acc_lt (Experiment := scripted) a b = true ->
     acc_lt (Experiment := scripted) b a = false) /\
  known_optim_w (optim_w_name cfg) = true /\
  exists (r : option Z) (w' : list (option Z)) (log : list event),
    run_experiment cfg w = (Ok r, w', log) /\
    (forall (e : nat) (a : option Z),
       List.In (SeEval e a) log ->
       isnan (Experiment := scripted) a = false ->
       acc_lt (Experiment := scripted) a r = false) /\
    ((exists e, List.In (SeEval e r) log /\ isnan (Experiment := scripted) r = false) \/
     (r = None /\ forall (e : nat) (a : option Z),
                    List.In (SeEval e a) log ->
                    isnan (Experiment := scripted) a = true)).
Proof.
  cbv zeta.
  assert (H : known_optim_w (optim_w_name (scripted_cfg "sgd" 3)) = true)
    by reflexivity.
  split; [exact scripted_lt_trans|]. split; [exact scripted_lt_asym|].
  split; [exact H|].
  exact (run_experiment_returns_worst_epoch (E := scripted) (scripted_cfg "sgd" 3)
           [Some 70; Some 60; Some 80] scripted_lt_trans scripted_lt_asym H).
Defined.

(** Witness of [run_experiment_returns_nan_iff]: the second epoch
    diverges, the value returned is not NaN. *)
Lemma run_experiment_returns_nan_iff_witness :
  let cfg := scripted_cfg "adamw" 3 in
  let w := [Some 50; None; Some 90] in
  isnan (Experiment := scripted) nan = true /\
  known_optim_w (optim_w_name cfg) = true /\
  exists (rule : optim_w_rule) (r : option Z) (w' : list (option Z))
         (log : list event),
    select_optim_w (optim_w_name cfg) = Ok rule /\
    run_experiment cfg w = (Ok r, w', log) /\
    (isnan (Experiment := scripted) r = true <->
     epochs cfg <= 0 \/
     isnan (Experiment := scripted) (first_accuracy cfg rule w) = true).
Proof.
  cbv zeta.
  assert (H1 : isnan (Experiment := scripted) nan = true) by reflexivity.
  assert (H2 : known_optim_w (optim_w_name (scripted_cfg "adamw" 3)) = true)
    by reflexivity.
  split; [exact H1|]. split; [exact H2|].
  exact (run_experiment_returns_nan_iff (E := scripted) (scripted_cfg "adamw" 3)
           [Some 50; None; Some 90] H1 H2).
Defined.

End SkipErrFacts.
